(** * aiexec backwards-compatibility layer: model and properties

    A shallow embedding of

    - [src/backend/base/aiexec/__init__.py]: the shadow modules that
      forward [aiexec.*] attribute reads to [lfx.*]
      ([AiexecCompatibilityModule], [_setup_compatibility_modules]);
    - [src/lfx/src/lfx/settings.py]: the [DEV] flag;
    - [src/backend/tests/integration/utils.py]: [JSONFlowHelper].

    Python objects live in a store indexed by identity; a module object is
    its class together with its [__dict__].  The import system, the file
    system, the execution of module files, the attributes of the built-in
    types and the functions a module binds are not part of these sources:
    they are taken as a [Host] record of primitives acting on the
    interpreter state, and every call of one is recorded in a call trace.
    The flow document of [JSONFlowHelper] is a value tree where it is only
    read, and a store of dict and list objects where it is assigned to. *)

From stdpp Require Import gmap strings list fin_maps sorting pretty.
From Stdlib Require Import ZArith Ascii String.

Local Open Scope string_scope.
Set Warnings "-register-all".

(** ** Python values, exceptions and the interpreter state *)

Module Py.

Definition loc := nat.

(** Values.  [VFunc] is a function object, known by its identity only;
    [VTypeAttr name self] is what the type of [self] gives for [name]: a
    method bound to [self], the [__dict__] or the [__class__] of [self]. *)
Inductive value :=
  | VNone
  | VInt (z : Z)
  | VStr (s : string)
  | VObj (l : loc)
  | VFunc (f : nat)
  | VTypeAttr (name : string) (self : loc).

#[export] Instance value_eq_dec : EqDecision value.
Proof. solve_decision. Defined.

Inductive pyclass :=
  | ModuleType
  | AiexecCompatibilityModule.

#[export] Instance pyclass_eq_dec : EqDecision pyclass.
Proof. solve_decision. Defined.

(** A module object: its class and its instance [__dict__]. *)
Record pyobj := PyObj {
  ob_class : pyclass;
  ob_dict : gmap string value
}.

#[export] Instance pyobj_inhabited : Inhabited pyobj :=
  populate (PyObj ModuleType ∅).

Inductive exn_class :=
  | ImportError
  | ModuleNotFoundError
  | AttributeError
  | ValueError
  | KeyError
  | IndexError
  | TypeError
  | RecursionError
  | SyntaxError.

#[export] Instance exn_class_eq_dec : EqDecision exn_class.
Proof. solve_decision. Defined.

Record exn := Exn {
  exn_type : exn_class;
  exn_msg : string
}.

#[export] Instance exn_eq_dec : EqDecision exn.
Proof. solve_decision. Defined.

(** [ModuleNotFoundError] is the one subclass relation among the classes
    above: an [except ImportError] clause catches it too. *)
Definition issubclass (c d : exn_class) : bool :=
  match c, d with
  | ModuleNotFoundError, ImportError => true
  | _, _ => bool_decide (c = d)
  end.

Definition isinstance (e : exn) (classes : list exn_class) : bool :=
  existsb (issubclass (exn_type e)) classes.

Inductive result (A : Type) :=
  | Ok (a : A)
  | Raise (e : exn).
Arguments Ok {A} a.
Arguments Raise {A} e.

Definition raises {A} (r : result A) (c : exn_class) : Prop :=
  match r with
  | Ok _ => False
  | Raise e => exn_type e = c
  end.

(** The interpreter state: the object store and [sys.modules]. *)
Record pystate := PyState {
  heap : gmap loc pyobj;
  sys_modules : gmap string loc
}.

Definition path := list string.

(** What [importlib.util.find_spec] and [spec_from_file_location] return
    when they do not return [None]; [spec_loader] is [spec.loader]. *)
Record ModuleSpec := {
  spec_name : string;
  spec_loader : option nat
}.

(** How a type defines a name: as a data descriptor, which is found
    before the instance [__dict__] is looked at ([__class__], [__dict__]);
    as a data descriptor that keeps its value in the instance [__dict__]
    under its own name and creates that entry when it is first read
    ([__annotations__] of a module); or as any other class attribute (a
    method), which is found after the instance [__dict__]. *)
Inductive type_attr :=
  | DataDescriptor
  | LazyEntry
  | ClassAttribute.

(** The primitives of the host that the layer calls.  Each one may change
    the interpreter state (an import runs module code).

    The last three describe the interpreter rather than the import
    system.  [host_type_attr ModuleType name] tells how the built-in types
    [types.ModuleType] and [object] define [name], if they do, and
    [host_type_attr AiexecCompatibilityModule name] tells the same of what
    the interpreter itself adds to the body of that class ([__module__]);
    [host_call_getattr f name] calls [f(name)] for a module-level
    [__getattr__] function [f], and [host_call_dir f] calls [f()] for a
    module-level [__dir__] function and lists the names it returns. *)
Record Host := {
  host_find_spec : string → pystate → result (option ModuleSpec) * pystate;
  host_import_module : string → pystate → result loc * pystate;
  host_exists : path → pystate → bool;
  host_spec_from_file_location :
    string → path → pystate → result (option ModuleSpec) * pystate;
  host_module_from_spec : ModuleSpec → pystate → result loc * pystate;
  host_exec_module : nat → loc → pystate → result unit * pystate;
  host_type_attr : pyclass → string → option type_attr;
  host_call_getattr : value → string → pystate → result value * pystate;
  host_call_dir : value → pystate → result (list string) * pystate
}.

Inductive call :=
  | CallFindSpec (name : string)
  | CallImportModule (name : string)
  | CallExists (p : path)
  | CallSpecFromFileLocation (name : string) (p : path)
  | CallModuleFromSpec (name : string)
  | CallExecModule (module : loc)
  | CallModuleGetattr (f : value) (name : string)
  | CallModuleDir (f : value).

#[export] Instance call_eq_dec : EqDecision call.
Proof. solve_decision. Defined.

(** The state together with the trace of host primitives called so far. *)
Record world := World {
  py : pystate;
  calls : list call
}.

(** ** Computations: state passing with exceptions *)

Definition M (A : Type) : Type := world → result A * world.

Definition ret {A} (a : A) : M A := λ w, (Ok a, w).

Definition raise {A} (e : exn) : M A := λ w, (Raise e, w).

Definition bind {A B} (m : M A) (k : A → M B) : M B :=
  λ w, match m w with
       | (Ok a, w') => k a w'
       | (Raise e, w') => (Raise e, w')
       end.

#[export] Instance M_ret : MRet M := @ret.
#[export] Instance M_bind : MBind M := λ A B k m, bind m k.

(** [try: body except classes as e: handler e] *)
Definition try_except {A} (body : M A) (classes : list exn_class)
    (handler : exn → M A) : M A :=
  λ w, match body w with
       | (Ok a, w') => (Ok a, w')
       | (Raise e, w') =>
           if isinstance e classes then handler e w' else (Raise e, w')
       end.

(** [try: body except classes as e: handler e else: orelse], the [else]
    block running outside the protection of the [except] clause. *)
Definition try_except_else {A B} (body : M A) (classes : list exn_class)
    (handler : exn → M B) (orelse : A → M B) : M B :=
  λ w, match body w with
       | (Ok a, w') => orelse a w'
       | (Raise e, w') =>
           if isinstance e classes then handler e w' else (Raise e, w')
       end.

Definition host_call {A} (c : call)
    (prim : pystate → result A * pystate) : M A :=
  λ w, let '(r, s) := prim (py w) in
       (r, {| py := s; calls := calls w ++ [c] |}).

(** ** Objects and attributes *)

Definition obj (s : pystate) (o : loc) : pyobj := heap s !!! o.

Definition attrs (w : world) (o : loc) : gmap string value :=
  ob_dict (obj (py w) o).

Definition class_of (w : world) (o : loc) : pyclass :=
  ob_class (obj (py w) o).

(** Storing into an object's [__dict__]. *)
Definition store_attr (o : loc) (name : string) (v : value)
    (s : pystate) : pystate :=
  {| heap := <[o := PyObj (ob_class (obj s o))
                          (<[name := v]> (ob_dict (obj s o)))]> (heap s);
     sys_modules := sys_modules s |}.

(** [setattr(o, name, v)] on a module object, for a name that is not a
    data descriptor of its type: the entry of the instance [__dict__]. *)
Definition setattr (o : loc) (name : string) (v : value) : M unit :=
  λ w, (Ok tt, {| py := store_attr o name v (py w); calls := calls w |}).

(** Allocation of a new object. *)
Definition new_object (ob : pyobj) : M loc :=
  λ w, let l := fresh (dom (heap (py w))) in
       (Ok l, {| py := {| heap := <[l := ob]> (heap (py w));
                          sys_modules := sys_modules (py w) |};
                 calls := calls w |}).

(** [str(v)], as an f-string renders it.  A module renders as its
    [repr], which is not needed by any property below and is left as a
    fixed tag. *)
Definition str (v : value) : string :=
  match v with
  | VNone => "None"
  | VInt z => pretty z
  | VStr s => s
  | VObj _ => "<module>"
  | VFunc _ => "<function>"
  | VTypeAttr _ _ => "<bound method>"
  end.

(** [sorted] on a list of [str]: code-point order, which on UTF-8 encoded
    strings is the byte-wise lexicographic order. *)
Definition sorted (l : list string) : list string :=
  merge_sort (λ a b, Is_true (String.leb a b)) l.

(** The message of the interpreter's own [AttributeError] for a module. *)
Definition module_attribute_error (d : gmap string value)
    (name : string) : exn :=
  match d !! "__name__" with
  | Some (VStr n) =>
      Exn AttributeError
        ("module '" ++ n ++ "' has no attribute '" ++ name ++ "'")
  | _ => Exn AttributeError ("module has no attribute '" ++ name ++ "'")
  end.

(** [name in sys.modules], [sys.modules.get(name)], [sys.modules[name]]
    and [sys.modules[name] = o]. *)
Definition sys_modules_contains (name : string) : M bool :=
  λ w, (Ok (bool_decide (is_Some (sys_modules (py w) !! name))), w).

Definition sys_modules_get (name : string) : M (option loc) :=
  λ w, (Ok (sys_modules (py w) !! name), w).

Definition sys_modules_getitem (name : string) : M loc :=
  λ w, match sys_modules (py w) !! name with
       | Some o => (Ok o, w)
       | None => (Raise (Exn KeyError ("'" ++ name ++ "'")), w)
       end.

Definition sys_modules_setitem (name : string) (o : loc) : M unit :=
  λ w, (Ok tt, {| py := {| heap := heap (py w);
                           sys_modules := <[name := o]> (sys_modules (py w)) |};
                  calls := calls w |}).

(** [s.split(sep)] for a one-character separator and [sep.join(l)]. *)
Fixpoint split (s : string) (sep : ascii) : list string :=
  match s with
  | EmptyString => [""]
  | String c rest =>
      if Ascii.eqb c sep then "" :: split rest sep
      else match split rest sep with
           | [] => [String c ""]
           | p :: ps => String c p :: ps
           end
  end.

Definition join (sep : string) (l : list string) : string :=
  String.concat sep l.

(** [for x in xs: body x]; an exception leaving the body ends the loop. *)
Fixpoint for_each {A} (xs : list A) (body : A → M unit) : M unit :=
  match xs with
  | [] => mret tt
  | x :: rest => body x;; for_each rest body
  end.

End Py.

(** ** [AiexecCompatibilityModule] *)

Module Compat.
Import Py.

(** [ModuleType.__init__(self, name)]: the attributes every new module
    object starts with. *)
Definition ModuleType_init (self : loc) (name : string) : M unit :=
  setattr self "__name__" (VStr name);;
  setattr self "__doc__" VNone;;
  setattr self "__package__" VNone;;
  setattr self "__loader__" VNone;;
  setattr self "__spec__" VNone.

(** [importlib.import_module(name)].  A [name] that is not a [str] fails
    inside [import_module] on [name.startswith]; attributes of values
    that are not modules are outside the model, so that failure is
    reported as the [AttributeError] it is for [None] and for numbers. *)
Definition import_module (host : Host) (name : value) : M value :=
  match name with
  | VStr n =>
      l ← host_call (CallImportModule n) (host_import_module host n);
      mret (VObj l)
  | _ => raise (Exn AttributeError "object has no attribute 'startswith'")
  end.

Section methods.
Context (host : Host).

(** The interpreter's [getattr] and [dir], one call frame deeper. *)
Variable getattr : value → string → M value.
Variable dir : value → M (list string).

Definition __init__ (self : loc) (name lfx_module_name : string)
    : M unit :=
  ModuleType_init self name;;
  setattr self "_lfx_module_name" (VStr lfx_module_name);;
  setattr self "_lfx_module" VNone.

Definition _get_lfx_module (self : loc) : M value :=
  cur ← getattr (VObj self) "_lfx_module";
  (if decide (cur = VNone) then
     try_except
       (n ← getattr (VObj self) "_lfx_module_name";
        m ← import_module host n;
        setattr self "_lfx_module" m)
       [ImportError]
       (λ _,
          a ← getattr (VObj self) "_lfx_module_name";
          b ← getattr (VObj self) "__name__";
          raise (Exn ImportError
                   ("Cannot import " ++ str a ++
                    " for backwards compatibility with " ++ str b)))
   else mret tt);;
  getattr (VObj self) "_lfx_module".

Definition __getattr__ (self : loc) (name : string) : M value :=
  lfx_module ← _get_lfx_module self;
  try_except_else
    (getattr lfx_module name)
    [AttributeError]
    (λ _,
       n ← getattr (VObj self) "__name__";
       raise (Exn AttributeError
                ("module '" ++ str n ++ "' has no attribute '" ++
                 name ++ "'")))
    (λ attr, setattr self name attr;; mret attr).

Definition __dir__ (self : loc) : M (list string) :=
  try_except
    (lfx_module ← _get_lfx_module self;
     dir lfx_module)
    [ImportError]
    (λ _, mret []).
End methods.

(** [AiexecCompatibilityModule(name, lfx_module_name)] *)
Definition new_AiexecCompatibilityModule (name lfx_module_name : string)
    : M loc :=
  self ← new_object (PyObj AiexecCompatibilityModule ∅);
  __init__ self name lfx_module_name;;
  mret self.

Definition recursion_error : exn :=
  Exn RecursionError "maximum recursion depth exceeded".

(** *** Attribute lookup

    The names the body of [AiexecCompatibilityModule] binds: its
    docstring and its four methods. *)
Definition class_body : list string :=
  ["__doc__"; "__init__"; "_get_lfx_module"; "__getattr__"; "__dir__"].

(** [__name__], [_lfx_module_name] and [_lfx_module] are entries of
    instance dictionaries and nothing else: neither the class body nor
    [types.ModuleType] nor [object] defines them. *)
Definition instance_names : list string :=
  ["__name__"; "_lfx_module_name"; "_lfx_module"].

(** The lookup of [name] along the method resolution order of the class
    of a module object: for a shadow module the class body and what the
    interpreter adds to it, then, as for a plain module, the built-in
    bases. *)
Definition type_lookup (host : Host) (cls : pyclass) (name : string)
    : option type_attr :=
  if bool_decide (name ∈ instance_names) then None
  else
    match cls with
    | AiexecCompatibilityModule =>
        if bool_decide (name ∈ class_body) then Some ClassAttribute
        else
          match host_type_attr host AiexecCompatibilityModule name with
          | Some kind => Some kind
          | None => host_type_attr host ModuleType name
          end
    | ModuleType => host_type_attr host ModuleType name
    end.

(** [object.__getattribute__], as far as it finds the name: a data
    descriptor of the type, else the entry of the instance [__dict__],
    else any other attribute of the type.  What the type gives is not
    looked into ([VTypeAttr]). *)
Definition find_attr (host : Host) (w : world) (o : loc) (name : string)
    : option value :=
  match type_lookup host (class_of w o) name with
  | Some DataDescriptor => Some (VTypeAttr name o)
  | Some LazyEntry | Some ClassAttribute =>
      match attrs w o !! name with
      | Some v => Some v
      | None => Some (VTypeAttr name o)
      end
  | None => attrs w o !! name
  end.

(** The one write such a lookup can make: the entry of a [LazyEntry] that
    is read before it exists is created. *)
Definition materialize (host : Host) (o : loc) (name : string) : M unit :=
  λ w, match type_lookup host (class_of w o) name, attrs w o !! name with
       | Some LazyEntry, None => setattr o name (VTypeAttr name o) w
       | _, _ => (Ok tt, w)
       end.

(** [ModuleType.__getattribute__]: when the name is not found, a
    [__getattr__] entry of the module's own [__dict__] (a module-level
    [__getattr__] function) is called with the name; without one the
    lookup ends in the interpreter's [AttributeError]. *)
Definition module_getattribute (host : Host) (o : loc) (name : string)
    : M value :=
  λ w, match find_attr host w o name with
       | Some v => (Ok v, (materialize host o name w).2)
       | None =>
           match attrs w o !! "__getattr__" with
           | Some f =>
               host_call (CallModuleGetattr f name)
                 (host_call_getattr host f name) w
           | None => (Raise (module_attribute_error (attrs w o) name), w)
           end
       end.

(** The attribute read [o.name], that is [getattr(o, name)].  For a
    plain module it is [ModuleType.__getattribute__]; for a shadow module,
    whose class defines [__getattr__], that method is called when
    [__getattribute__] ends in an [AttributeError].  [depth] bounds the
    nesting of such calls, as the interpreter's recursion limit does.
    Attributes of values that are not modules are outside the model and
    read as missing. *)
Fixpoint getattr (host : Host) (depth : nat) (o : value) (name : string)
    : M value :=
  match o with
  | VObj l => λ w,
      match class_of w l with
      | ModuleType => module_getattribute host l name w
      | AiexecCompatibilityModule =>
          match module_getattribute host l name w with
          | (Ok v, w') => (Ok v, w')
          | (Raise e, w') =>
              if isinstance e [AttributeError] then
                match depth with
                | 0 => (Raise recursion_error, w')
                | S d => __getattr__ host (getattr host d) l name w'
                end
              else (Raise e, w')
          end
      end
  | _ => raise (Exn AttributeError
                  ("object has no attribute '" ++ name ++ "'"))
  end.

(** [ModuleType.__dir__]: the result of a [__dir__] entry of the module's
    own [__dict__] (a module-level [__dir__] function) when there is one,
    else the keys of the [__dict__]. *)
Definition module_dir (host : Host) (o : loc) : M (list string) :=
  λ w, match attrs w o !! "__dir__" with
       | Some f => host_call (CallModuleDir f) (host_call_dir host f) w
       | None => (Ok (map_to_list (attrs w o)).*1, w)
       end.

(** [dir(o)]: the sorted result of the [__dir__] of the class of [o]. *)
Fixpoint dir (host : Host) (depth : nat) (o : value) : M (list string) :=
  match o with
  | VObj l => λ w,
      match class_of w l with
      | ModuleType =>
          (names ← module_dir host l;
           mret (sorted names)) w
      | AiexecCompatibilityModule =>
          match depth with
          | 0 => (Raise recursion_error, w)
          | S d =>
              (names ← __dir__ host (getattr host d) (dir host d) l;
               mret (sorted names)) w
          end
      end
  | _ => mret []
  end.

(** The [__dict__] of a node on which only [__init__] has run. *)
Definition fresh_attrs (name lfx_module_name : string) : gmap string value :=
  <["_lfx_module" := VNone]>
    (<["_lfx_module_name" := VStr lfx_module_name]>
       (<["__spec__" := VNone]>
          (<["__loader__" := VNone]>
             (<["__package__" := VNone]>
                (<["__doc__" := VNone]>
                   (<["__name__" := VStr name]> ∅)))))).

End Compat.

(** ** [_setup_compatibility_modules] *)

Module Setup.
Import Py Compat.

(** The name of the package whose [__init__] runs the setup. *)
Definition __name__ : string := "aiexec".

Definition module_mappings : list (string * string) :=
  [ ("aiexec.base", "lfx.base");
    ("aiexec.inputs", "lfx.inputs");
    ("aiexec.inputs.inputs", "lfx.inputs.inputs");
    ("aiexec.schema", "lfx.schema");
    ("aiexec.schema.data", "lfx.schema.data");
    ("aiexec.schema.serialize", "lfx.schema.serialize");
    ("aiexec.template", "lfx.template");
    ("aiexec.template.field", "lfx.template.field");
    ("aiexec.template.field.base", "lfx.template.field.base");
    ("aiexec.components", "lfx.components");
    ("aiexec.components.helpers", "lfx.components.helpers");
    ("aiexec.components.helpers.calculator_core",
     "lfx.components.helpers.calculator_core");
    ("aiexec.components.helpers.create_list",
     "lfx.components.helpers.create_list");
    ("aiexec.components.helpers.current_date",
     "lfx.components.helpers.current_date");
    ("aiexec.components.helpers.id_generator",
     "lfx.components.helpers.id_generator");
    ("aiexec.components.helpers.memory", "lfx.components.helpers.memory");
    ("aiexec.components.helpers.output_parser",
     "lfx.components.helpers.output_parser");
    ("aiexec.components.helpers.store_message",
     "lfx.components.helpers.store_message");
    ("aiexec.base.agents", "lfx.base.agents");
    ("aiexec.base.chains", "lfx.base.chains");
    ("aiexec.base.data", "lfx.base.data");
    ("aiexec.base.data.utils", "lfx.base.data.utils");
    ("aiexec.base.document_transformers", "lfx.base.document_transformers");
    ("aiexec.base.embeddings", "lfx.base.embeddings");
    ("aiexec.base.flow_processing", "lfx.base.flow_processing");
    ("aiexec.base.io", "lfx.base.io");
    ("aiexec.base.io.chat", "lfx.base.io.chat");
    ("aiexec.base.io.text", "lfx.base.io.text");
    ("aiexec.base.langchain_utilities", "lfx.base.langchain_utilities");
    ("aiexec.base.memory", "lfx.base.memory");
    ("aiexec.base.models", "lfx.base.models");
    ("aiexec.base.models.google_generative_ai_constants",
     "lfx.base.models.google_generative_ai_constants");
    ("aiexec.base.models.openai_constants",
     "lfx.base.models.openai_constants");
    ("aiexec.base.models.anthropic_constants",
     "lfx.base.models.anthropic_constants");
    ("aiexec.base.models.aiml_constants", "lfx.base.models.aiml_constants");
    ("aiexec.base.models.aws_constants", "lfx.base.models.aws_constants");
    ("aiexec.base.models.groq_constants", "lfx.base.models.groq_constants");
    ("aiexec.base.models.novita_constants",
     "lfx.base.models.novita_constants");
    ("aiexec.base.models.ollama_constants",
     "lfx.base.models.ollama_constants");
    ("aiexec.base.models.sambanova_constants",
     "lfx.base.models.sambanova_constants");
    ("aiexec.base.prompts", "lfx.base.prompts");
    ("aiexec.base.prompts.api_utils", "lfx.base.prompts.api_utils");
    ("aiexec.base.prompts.utils", "lfx.base.prompts.utils");
    ("aiexec.base.textsplitters", "lfx.base.textsplitters");
    ("aiexec.base.tools", "lfx.base.tools");
    ("aiexec.base.vectorstores", "lfx.base.vectorstores") ].

Definition aiexec_only_modules : list (string * string) :=
  [ ("aiexec.base.data.kb_utils", "aiexec.base.data.kb_utils");
    ("aiexec.base.knowledge_bases", "aiexec.base.knowledge_bases");
    ("aiexec.components.knowledge_bases",
     "aiexec.components.knowledge_bases") ].

Section setup.
Context (host : Host).

(** [Path(__file__)] of the package's [__init__.py]. *)
Variable __file__ : path.

Definition find_spec (name : string) : M (option ModuleSpec) :=
  host_call (CallFindSpec name) (host_find_spec host name).

Definition exists_ (p : path) : M bool :=
  host_call (CallExists p) (λ s, (Ok (host_exists host p s), s)).

Definition spec_from_file_location (name : string) (p : path)
    : M (option ModuleSpec) :=
  host_call (CallSpecFromFileLocation name p)
            (host_spec_from_file_location host name p).

Definition module_from_spec (spec : ModuleSpec) : M loc :=
  host_call (CallModuleFromSpec (spec_name spec))
            (host_module_from_spec host spec).

Definition exec_module (loader : nat) (module : loc) : M unit :=
  host_call (CallExecModule module) (host_exec_module host loader module).

(** The hierarchy step of the first loop: [parts = aiexec_name.split(".")],
    and the link on the parent found in [sys.modules]. *)
Definition link_to_parent (aiexec_name : string) (compat_module : loc)
    : M unit :=
  let parts := split aiexec_name "."%char in
  if Nat.ltb 1 (List.length parts) then
    let parent_name := join "." (removelast parts) in
    parent_module ← sys_modules_get parent_name;
    match parent_module with
    | Some p => setattr p (List.last parts "") (VObj compat_module)
    | None => mret tt
    end
  else mret tt.

(** The "special handling for top-level modules" of the first loop. *)
Definition link_top_level (current_module : loc) (aiexec_name : string)
    (compat_module : loc) : M unit :=
  if String.eqb aiexec_name "aiexec.base" then
    setattr current_module "base" (VObj compat_module)
  else if String.eqb aiexec_name "aiexec.inputs" then
    setattr current_module "inputs" (VObj compat_module)
  else if String.eqb aiexec_name "aiexec.schema" then
    setattr current_module "schema" (VObj compat_module)
  else if String.eqb aiexec_name "aiexec.template" then
    setattr current_module "template" (VObj compat_module)
  else if String.eqb aiexec_name "aiexec.components" then
    setattr current_module "components" (VObj compat_module)
  else mret tt.

(** The body of the first loop, for one entry of [module_mappings]. *)
Definition register (current_module : loc)
    (aiexec_name lfx_name : string) : M unit :=
  present ← sys_modules_contains aiexec_name;
  if negb present then
    try_except
      (spec ← find_spec lfx_name;
       match spec with
       | Some _ =>
           compat_module ← new_AiexecCompatibilityModule aiexec_name lfx_name;
           sys_modules_setitem aiexec_name compat_module;;
           link_to_parent aiexec_name compat_module;;
           link_top_level current_module aiexec_name compat_module
       | None => mret tt
       end)
      [ImportError; ValueError]
      (λ _, mret tt)
  else mret tt.

(** The block the second loop runs for each of its three names: load
    the file under [aiexec_name] and add it to its parent module. *)
Definition load_file (aiexec_name : string) (file : path)
    (parent_name attr : string) : M unit :=
  found ← exists_ file;
  if (found : bool) then
    spec ← spec_from_file_location aiexec_name file;
    match spec with
    | Some sp =>
        match spec_loader sp with
        | Some loader =>
            module ← module_from_spec sp;
            sys_modules_setitem aiexec_name module;;
            exec_module loader module;;
            parent_module ← sys_modules_get parent_name;
            match parent_module with
            | Some p => setattr p attr (VObj module)
            | None => mret tt
            end
        | None => mret tt
        end
    | None => mret tt
    end
  else mret tt.

(** The body of the second loop, for one key of [aiexec_only_modules]. *)
Definition register_physical_override (aiexec_name : string) : M unit :=
  present ← sys_modules_contains aiexec_name;
  if negb present then
    try_except
      (let base_dir := removelast __file__ in
       if String.eqb aiexec_name "aiexec.base.data.kb_utils" then
         load_file aiexec_name (base_dir ++ ["base"; "data"; "kb_utils.py"])%list
                   "aiexec.base.data" "kb_utils"
       else if String.eqb aiexec_name "aiexec.base.knowledge_bases" then
         load_file aiexec_name
                   (base_dir ++ ["base"; "knowledge_bases"; "__init__.py"])%list
                   "aiexec.base" "knowledge_bases"
       else if String.eqb aiexec_name "aiexec.components.knowledge_bases" then
         load_file aiexec_name
                   (base_dir ++ ["components"; "knowledge_bases"; "__init__.py"])%list
                   "aiexec.components" "knowledge_bases"
       else mret tt)
      [ImportError; AttributeError]
      (λ _, mret tt)
  else mret tt.

Definition _setup_compatibility_modules : M unit :=
  current_module ← sys_modules_getitem __name__;
  for_each module_mappings
    (λ '(aiexec_name, lfx_name),
       register current_module aiexec_name lfx_name);;
  for_each aiexec_only_modules
    (λ '(aiexec_name, _), register_physical_override aiexec_name).
End setup.

(** *** Notions used to state what the setup achieves *)

(** The parent name and the attribute name the hierarchy step computes. *)
Definition parent_of (aiexec_name : string) : string :=
  join "." (removelast (split aiexec_name ".")).

Definition attribute_of (aiexec_name : string) : string :=
  List.last (split aiexec_name ".") "".

(** [aiexec_name] is registered, so is its parent, and the parent has the
    last segment of the name bound to the module registered under
    [aiexec_name]: the module is reachable from its parent by attribute
    traversal. *)
Definition linked (s : pystate) (aiexec_name : string) : Prop :=
  ∃ node parent,
    sys_modules s !! aiexec_name = Some node
    ∧ sys_modules s !! parent_of aiexec_name = Some parent
    ∧ ob_dict (obj s parent) !! attribute_of aiexec_name = Some (VObj node).

(** A host primitive leaves the modules registered under [names] alone:
    their registry entries (or absence) and the objects themselves. *)
Definition untouched (names : list string) (s s' : pystate) : Prop :=
  ∀ a, a ∈ names →
    sys_modules s' !! a = sys_modules s !! a
    ∧ ∀ o, sys_modules s !! a = Some o →
        obj s' o = obj s o ∧ (o ∈ dom (heap s) → o ∈ dom (heap s')).

(** The state while the first loop runs: the names in [known] (the
    package and the entries already processed) are registered on live,
    pairwise distinct objects, and each processed entry is linked on its
    parent; the names in [todo] are not registered yet. *)
Definition loop_invariant (current_module : loc) (known todo : list string)
    (s : pystate) : Prop :=
  __name__ ∈ known
  ∧ sys_modules s !! __name__ = Some current_module
  ∧ (∀ a o, a ∈ known → sys_modules s !! a = Some o → o ∈ dom (heap s))
  ∧ (∀ a, a ∈ todo → sys_modules s !! a = None)
  ∧ (∀ a, a ∈ known →
       a = __name__
       ∨ ((1 < List.length (split a "."))%nat
          ∧ parent_of a ∈ known ∧ linked s a))
  ∧ (∀ a b o, a ∈ known → b ∈ known →
       sys_modules s !! a = Some o → sys_modules s !! b = Some o → a = b).

(** Every name has a parent segment, and its parent is known before the
    name is reached. *)
Fixpoint parents_first (known names : list string) : bool :=
  match names with
  | [] => true
  | a :: rest =>
      Nat.ltb 1 (List.length (split a "."))
      && existsb (String.eqb (parent_of a)) known
      && parents_first (a :: known) rest
  end.

End Setup.

(** ** A concrete host, for running the layer on examples

    A small import system: [importable] lists the modules that have
    code, each with the outcome of running it (the namespace it binds, or
    the exception it raises); [locatable] lists the names [find_spec]
    reports (a name can be locatable and yet fail to import); [files]
    lists the files that exist, each with the outcome of executing it. *)

Module Demo.
Import Py Compat Setup.

Record disk := {
  locatable : list string;
  importable : list (string * result (list (string * value)));
  files : list (path * result (list (string * value)))
}.

Definition table_lookup {K A} `{EqDecision K} (k : K) (l : list (K * A))
    : option A :=
  snd <$> list_find (λ kv, kv.1 = k) l ≫= (λ '(_, kv), Some kv).

Definition fresh_module (name : string) (ns : list (string * value))
    (s : pystate) : loc * pystate :=
  let l := fresh (dom (heap s)) in
  (l, {| heap := <[l := PyObj ModuleType
                          (list_to_map (("__name__", VStr name) :: ns))]>
                   (heap s);
         sys_modules := sys_modules s |}).

Definition demo_spec (name : string) : ModuleSpec :=
  {| spec_name := name; spec_loader := Some 0 |}.

Definition demo_find_spec (d : disk) (name : string) (s : pystate)
    : result (option ModuleSpec) * pystate :=
  if bool_decide (name ∈ locatable d) then (Ok (Some (demo_spec name)), s)
  else (Ok None, s).

Definition demo_import_module (d : disk) (name : string) (s : pystate)
    : result loc * pystate :=
  match sys_modules s !! name with
  | Some l => (Ok l, s)
  | None =>
      match table_lookup name (importable d) with
      | Some (Ok ns) =>
          let '(l, s') := fresh_module name ns s in
          (Ok l, {| heap := heap s';
                    sys_modules := <[name := l]> (sys_modules s') |})
      | Some (Raise e) => (Raise e, s)
      | None =>
          (Raise (Exn ModuleNotFoundError ("No module named '" ++ name ++ "'")),
           s)
      end
  end.

Definition demo_exists (d : disk) (p : path) (s : pystate) : bool :=
  bool_decide (is_Some (table_lookup p (files d))).

Definition demo_spec_from_file_location (name : string) (p : path)
    (s : pystate) : result (option ModuleSpec) * pystate :=
  (Ok (Some (demo_spec name)), s).

Definition demo_module_from_spec (spec : ModuleSpec) (s : pystate)
    : result loc * pystate :=
  let '(l, s') := fresh_module (spec_name spec) [] s in (Ok l, s').

(** Executing a module file binds the names of its namespace in the
    module, or fails with the file's exception.  The file is found again
    through the module's [__name__]. *)
Definition demo_exec_module (d : disk) (file_of : string → path)
    (loader : nat) (module : loc) (s : pystate) : result unit * pystate :=
  match ob_dict (obj s module) !! "__name__" with
  | Some (VStr n) =>
      match table_lookup (file_of n) (files d) with
      | Some (Ok ns) =>
          (Ok tt, foldr (λ '(k, v) st, store_attr module k v st) s ns)
      | Some (Raise e) => (Raise e, s)
      | None => (Raise (Exn ImportError "no such file"), s)
      end
  | _ => (Raise (Exn ImportError "module has no name"), s)
  end.

(** The names [types.ModuleType] and [object] define (CPython 3.12), and
    [__module__], which the interpreter adds to the body of a class. *)
Definition demo_type_attr (cls : pyclass) (name : string)
    : option type_attr :=
  match cls with
  | ModuleType =>
      if bool_decide (name ∈ ["__class__"; "__dict__"])
      then Some DataDescriptor
      else if bool_decide (name = "__annotations__")
      then Some LazyEntry
      else if bool_decide
                (name ∈ ["__delattr__"; "__dir__"; "__doc__"; "__eq__";
                         "__format__"; "__ge__"; "__getattribute__";
                         "__getstate__"; "__gt__"; "__hash__"; "__init__";
                         "__init_subclass__"; "__le__"; "__lt__"; "__ne__";
                         "__new__"; "__reduce__"; "__reduce_ex__";
                         "__repr__"; "__setattr__"; "__sizeof__"; "__str__";
                         "__subclasshook__"])
      then Some ClassAttribute
      else None
  | AiexecCompatibilityModule =>
      if bool_decide (name = "__module__") then Some ClassAttribute
      else None
  end.

(** Two functions a module can bind: function 0, as a module-level
    [__getattr__], knows the one name [LAZY]; function 1, as a module-level
    [__dir__], lists it.  Calling anything else is a [TypeError]. *)
Definition demo_call_getattr (f : value) (name : string) (s : pystate)
    : result value * pystate :=
  match f with
  | VFunc 0 =>
      if String.eqb name "LAZY" then (Ok (VInt 7), s)
      else (Raise (Exn AttributeError
                     ("module has no attribute '" ++ name ++ "'")), s)
  | _ => (Raise (Exn TypeError "object is not callable"), s)
  end.

Definition demo_call_dir (f : value) (s : pystate)
    : result (list string) * pystate :=
  match f with
  | VFunc 1 => (Ok ["LAZY"], s)
  | _ => (Raise (Exn TypeError "object is not callable"), s)
  end.

Definition pkg_file : path := ["site"; "aiexec"; "__init__.py"].

Definition file_of (name : string) : path :=
  if String.eqb name "aiexec.base.data.kb_utils" then
    ["site"; "aiexec"; "base"; "data"; "kb_utils.py"]
  else if String.eqb name "aiexec.base.knowledge_bases" then
    ["site"; "aiexec"; "base"; "knowledge_bases"; "__init__.py"]
  else
    ["site"; "aiexec"; "components"; "knowledge_bases"; "__init__.py"].

Definition demo_host (d : disk) : Host :=
  {| host_find_spec := demo_find_spec d;
     host_import_module := demo_import_module d;
     host_exists := demo_exists d;
     host_spec_from_file_location := demo_spec_from_file_location;
     host_module_from_spec := demo_module_from_spec;
     host_exec_module := demo_exec_module d file_of;
     host_type_attr := demo_type_attr;
     host_call_getattr := demo_call_getattr;
     host_call_dir := demo_call_dir |}.

(** The state in which the package's [__init__] starts to run: the
    package module itself is object 0, registered as [aiexec]. *)
Definition initial : world :=
  {| py := {| heap := {[ 0 := PyObj ModuleType {[ "__name__" := VStr "aiexec" ]} ]};
              sys_modules := {[ "aiexec" := 0 ]} |};
     calls := [] |}.

(** One deployment: [lfx.base] imports and binds [VALUE = 42];
    [lfx.schema] and [lfx.base.data] are located by [find_spec] but have no
    code that imports; [lfx.inputs] is located and its code fails with a
    [SyntaxError]; nothing else exists. *)
Definition disk1 : disk :=
  {| locatable := ["lfx.base"; "lfx.base.data"; "lfx.schema"; "lfx.inputs"];
     importable :=
       [("lfx.base", Ok [("VALUE", VInt 42)]);
        ("lfx.inputs", Raise (Exn SyntaxError "invalid syntax"))];
     files := [] |}.

Definition host1 : Host := demo_host disk1.

Definition after_setup : world :=
  (_setup_compatibility_modules host1 pkg_file initial).2.

(** The example deployment after [aiexec.base] has resolved its target,
    before any attribute is read through it. *)
Definition resolved : world :=
  (_get_lfx_module host1 (getattr host1 0) 1 after_setup).2.

(** Another deployment: [base/data/kb_utils.py] exists and fails, when
    executed, on an import of its own; [base/knowledge_bases/__init__.py]
    exists and does not parse. *)
Definition disk2 : disk :=
  {| locatable := [];
     importable := [];
     files :=
       [(file_of "aiexec.base.data.kb_utils",
         Raise (Exn ModuleNotFoundError "No module named 'pandas'"));
        (file_of "aiexec.base.knowledge_bases",
         Raise (Exn SyntaxError "invalid syntax"))] |}.

Definition host2 : Host := demo_host disk2.

(** A host on which the probe itself fails: [find_spec] imports the
    parent package of the name it is asked for, and that package does not
    parse. *)
Definition host3 : Host :=
  {| host_find_spec :=
       λ _ s, (Raise (Exn SyntaxError "invalid syntax"), s);
     host_import_module := demo_import_module disk1;
     host_exists := demo_exists disk1;
     host_spec_from_file_location := demo_spec_from_file_location;
     host_module_from_spec := demo_module_from_spec;
     host_exec_module := demo_exec_module disk1 file_of;
     host_type_attr := demo_type_attr;
     host_call_getattr := demo_call_getattr;
     host_call_dir := demo_call_dir |}.

(** A host on which every canonical module is located and no override
    file exists, and one on which nothing is located at all. *)
Definition host4 : Host :=
  {| host_find_spec := λ n s, (Ok (Some (demo_spec n)), s);
     host_import_module := demo_import_module disk1;
     host_exists := λ _ _, false;
     host_spec_from_file_location := demo_spec_from_file_location;
     host_module_from_spec := demo_module_from_spec;
     host_exec_module := demo_exec_module disk1 file_of;
     host_type_attr := demo_type_attr;
     host_call_getattr := demo_call_getattr;
     host_call_dir := demo_call_dir |}.


(** A deployment whose [lfx.base] computes its names on demand: its
    namespace binds a module-level [__getattr__] and a module-level
    [__dir__] and nothing else. *)
Definition disk6 : disk :=
  {| locatable := ["lfx.base"];
     importable :=
       [("lfx.base", Ok [("__getattr__", VFunc 0); ("__dir__", VFunc 1)])];
     files := [] |}.

Definition host6 : Host := demo_host disk6.

Definition after_setup6 : world :=
  (_setup_compatibility_modules host6 pkg_file initial).2.

End Demo.

(** ** [lfx/settings.py] *)

Module Settings.

(** [c.lower()] on one character.  Letters outside ASCII are left alone:
    no such letter lowers to one of [t], [r], [u], [e], so the comparison
    with ["true"] below is not affected. *)
Definition lower_char (c : ascii) : ascii :=
  let n := nat_of_ascii c in
  if (Nat.leb 65 n && Nat.leb n 90)%bool then ascii_of_nat (n + 32) else c.

Fixpoint lower (s : string) : string :=
  match s with
  | EmptyString => EmptyString
  | String c rest => String (lower_char c) (lower rest)
  end.

(** [os.getenv(key, default)] on the process environment. *)
Definition getenv (environ : gmap string string) (key default : string)
    : string :=
  match environ !! key with
  | Some v => v
  | None => default
  end.

Definition DEV (environ : gmap string string) : bool :=
  String.eqb (lower (getenv environ "AIEXEC_DEV" "false")) "true".

End Settings.

(** ** [tests/integration/utils.py]: [JSONFlowHelper] *)

Module FlowHelper.
Import Py.

(** A decoded JSON document.  Numbers are kept as integers: nothing below
    looks inside a number. *)
Inductive json :=
  | JNull
  | JBool (b : bool)
  | JNum (z : Z)
  | JStr (s : string)
  | JArr (items : list json)
  | JObj (fields : list (string * json)).

#[export] Instance result_ret : MRet result := @Ok.
#[export] Instance result_bind : MBind result :=
  λ A B k r, match r with Ok a => k a | Raise e => Raise e end.

Fixpoint dict_get (fields : list (string * json)) (key : string)
    : option json :=
  match fields with
  | [] => None
  | (k, v) :: rest => if String.eqb k key then Some v else dict_get rest key
  end.

(** [x[key]] for a [str] key. *)
Definition subscript (x : json) (key : string) : result json :=
  match x with
  | JObj fields =>
      match dict_get fields key with
      | Some v => Ok v
      | None => Raise (Exn KeyError ("'" ++ key ++ "'"))
      end
  | JArr _ => Raise (Exn TypeError "list indices must be integers or slices, not str")
  | JStr _ => Raise (Exn TypeError "string indices must be integers, not 'str'")
  | _ => Raise (Exn TypeError "object is not subscriptable")
  end.

(** The items [for node in x] goes through. *)
Definition iterate (x : json) : result (list json) :=
  match x with
  | JArr items => Ok items
  | JObj fields => Ok (JStr <$> fields.*1)
  | JStr s => Ok ((λ c, JStr (String c EmptyString)) <$> list_ascii_of_string s)
  | _ => Raise (Exn TypeError "object is not iterable")
  end.

(** [x == s] for a [str] [s]. *)
Definition eq_str (x : json) (s : string) : bool :=
  match x with
  | JStr t => String.eqb t s
  | _ => false
  end.

(** Truth value of a JSON value, as [not x] tests it. *)
Definition truthy (x : json) : bool :=
  match x with
  | JNull => false
  | JBool b => b
  | JNum z => negb (Z.eqb z 0)
  | JStr s => negb (String.eqb s "")
  | JArr items => match items with [] => false | _ => true end
  | JObj fields => match fields with [] => false | _ => true end
  end.

(** [[node for node in nodes if node["data"]["type"] == component_type]] *)
Fixpoint select_by_type (nodes : list json) (component_type : string)
    : result (list json) :=
  match nodes with
  | [] => Ok []
  | node :: rest =>
      d ← subscript node "data";
      t ← subscript d "type";
      if eq_str t component_type then
        selected ← select_by_type rest component_type;
        Ok (node :: selected)
      else select_by_type rest component_type
  end.

(** [next((node for node in nodes if ...), None)] *)
Fixpoint first_by_type (nodes : list json) (component_type : string)
    : result (option json) :=
  match nodes with
  | [] => Ok None
  | node :: rest =>
      d ← subscript node "data";
      t ← subscript d "type";
      if eq_str t component_type then Ok (Some node)
      else first_by_type rest component_type
  end.

(** [{node["data"]["type"] for node in nodes}]: the types met, before the
    set drops duplicates and picks its iteration order. *)
Fixpoint types_of (nodes : list json) : result (list json) :=
  match nodes with
  | [] => Ok []
  | node :: rest =>
      d ← subscript node "data";
      t ← subscript d "type";
      match t with
      | JArr _ | JObj _ => Raise (Exn TypeError "unhashable type")
      | _ => ts ← types_of rest; Ok (t :: ts)
      end
  end.

(** [', '.join(available)] *)
Fixpoint join_types (available : list json) : result (list string) :=
  match available with
  | [] => Ok []
  | JStr s :: rest => ss ← join_types rest; Ok (s :: ss)
  | _ :: _ => Raise (Exn TypeError "sequence item: expected str instance")
  end.

Section helper.
(** The order in which a set of types is iterated, duplicates dropped;
    it depends on string hashing. *)
Variable set_of : list json → list json.

(** [self.json] *)
Variable json_data : json.

Definition nodes : result (list json) :=
  d ← subscript json_data "data";
  n ← subscript d "nodes";
  iterate n.

Definition get_components_by_type (component_type : string)
    : result (list json) :=
  ns ← nodes;
  select_by_type ns component_type.

Definition get_component_by_type (component_type : string)
    : result json :=
  ns ← nodes;
  found ← first_by_type ns component_type;
  match found with
  | Some node =>
      if truthy node then Ok node
      else
        ns' ← nodes;
        ts ← types_of ns';
        names ← join_types (set_of ts);
        Raise (Exn ValueError
                 ("Component of type " ++ component_type ++
                  " not found. Available: " ++ join ", " names))
  | None =>
      ns' ← nodes;
      ts ← types_of ns';
      names ← join_types (set_of ts);
      Raise (Exn ValueError
               ("Component of type " ++ component_type ++
                " not found. Available: " ++ join ", " names))
  end.

Definition get_single_component (component_type : string)
    : result json :=
  components ← get_components_by_type component_type;
  if Nat.ltb 1 (List.length components) then
    Raise (Exn ValueError
             ("Multiple components of type " ++ component_type ++ " found"))
  else
    match components with
    | c :: _ => Ok c
    | [] => Raise (Exn IndexError "list index out of range")
    end.
End helper.

(** A flow with one [ChatInput] node and two [ChatOutput] nodes. *)
Definition sample_flow : json :=
  JObj [("data",
         JObj [("nodes",
                JArr [JObj [("id", JStr "n1");
                            ("data", JObj [("type", JStr "ChatInput")])];
                      JObj [("id", JStr "n2");
                            ("data", JObj [("type", JStr "ChatOutput")])];
                      JObj [("id", JStr "n3");
                            ("data", JObj [("type", JStr "ChatOutput")])]])])].

(** [x[p1][p2]...[pn]] *)
Fixpoint get_path (x : json) (path : list string) : result json :=
  match path with
  | [] => Ok x
  | p :: rest => child ← subscript x p; get_path child rest
  end.

(** The test of the comprehensions, on a node that has a type. *)
Definition has_type (component_type : string) (n : json) : bool :=
  match get_path n ["data"; "type"] with
  | Ok t => eq_str t component_type
  | Raise _ => false
  end.

End FlowHelper.

(** *** [set_component_input]

    The method assigns into dicts of the document in place, and nothing
    keeps a dict from being reachable along two paths (two nodes built
    around one template).  So for this method the document is a store of
    dict and list objects indexed by identity, and a value is a scalar or
    a reference to an object of the store. *)

Module FlowStore.
Import Py FlowHelper.

Inductive val :=
  | Null
  | Boolean (b : bool)
  | Num (z : Z)
  | Str (s : string)
  | Ref (l : loc).

#[export] Instance val_eq_dec : EqDecision val.
Proof. solve_decision. Defined.

Inductive object :=
  | Dict (fields : list (string * val))
  | Array (items : list val).

Abbreviation store := (gmap loc object).

Fixpoint dict_get (fields : list (string * val)) (key : string)
    : option val :=
  match fields with
  | [] => None
  | (k, v) :: rest => if String.eqb k key then Some v else dict_get rest key
  end.

(** [d[key] = v] on the items of a dict: the key keeps its position, a new
    key goes last. *)
Fixpoint dict_set (fields : list (string * val)) (key : string) (v : val)
    : list (string * val) :=
  match fields with
  | [] => [(key, v)]
  | (k, x) :: rest =>
      if String.eqb k key then (k, v) :: rest
      else (k, x) :: dict_set rest key v
  end.

(** [x[key]] for a [str] key. *)
Definition subscript (st : store) (x : val) (key : string) : result val :=
  match x with
  | Ref l =>
      match st !! l with
      | Some (Dict fields) =>
          match dict_get fields key with
          | Some v => Ok v
          | None => Raise (Exn KeyError ("'" ++ key ++ "'"))
          end
      | Some (Array _) =>
          Raise (Exn TypeError
                   "list indices must be integers or slices, not str")
      | None => Raise (Exn TypeError "object is not subscriptable")
      end
  | Str _ => Raise (Exn TypeError "string indices must be integers, not 'str'")
  | _ => Raise (Exn TypeError "object is not subscriptable")
  end.

(** The items [for node in x] goes through. *)
Definition iterate (st : store) (x : val) : result (list val) :=
  match x with
  | Ref l =>
      match st !! l with
      | Some (Array items) => Ok items
      | Some (Dict fields) => Ok (Str <$> fields.*1)
      | None => Raise (Exn TypeError "object is not iterable")
      end
  | Str s => Ok ((λ c, Str (String c EmptyString)) <$> list_ascii_of_string s)
  | _ => Raise (Exn TypeError "object is not iterable")
  end.

(** [x == s] for a [str] [s]. *)
Definition eq_str (x : val) (s : string) : bool :=
  match x with
  | Str t => String.eqb t s
  | _ => false
  end.

(** [key in x] *)
Definition contains (st : store) (x : val) (key : string) : result bool :=
  match x with
  | Ref l =>
      match st !! l with
      | Some (Dict fields) => Ok (bool_decide (is_Some (dict_get fields key)))
      | Some (Array items) => Ok (existsb (λ item, eq_str item key) items)
      | None => Raise (Exn TypeError "argument is not iterable")
      end
  | Str s => Ok (bool_decide (is_Some (String.index 0 key s)))
  | _ => Raise (Exn TypeError "argument is not iterable")
  end.

(** [x[key] = v] for a [str] key: the store after the assignment. *)
Definition setitem (st : store) (x : val) (key : string) (v : val)
    : result store :=
  match x with
  | Ref l =>
      match st !! l with
      | Some (Dict fields) => Ok (<[l := Dict (dict_set fields key v)]> st)
      | Some (Array _) =>
          Raise (Exn TypeError
                   "list indices must be integers or slices, not str")
      | None =>
          Raise (Exn TypeError "object does not support item assignment")
      end
  | Str _ =>
      Raise (Exn TypeError "'str' object does not support item assignment")
  | _ => Raise (Exn TypeError "object does not support item assignment")
  end.

(** [x[p1][p2]...[pn]] *)
Fixpoint get_path (st : store) (x : val) (path : list string)
    : result val :=
  match path with
  | [] => Ok x
  | p :: rest => child ← subscript st x p; get_path st child rest
  end.

(** [self.json["data"]["nodes"]], as a loop goes through it. *)
Definition nodes (st : store) (json_data : val) : result (list val) :=
  d ← subscript st json_data "data";
  n ← subscript st d "nodes";
  iterate st n.

(** The body of the loop for the node whose id matches: the outcome, and
    the store as the statements executed so far have left it.  Each of
    the two assignments evaluates its own target. *)
Definition set_input (st : store) (node : val) (component_id key : string)
    (value : val) : result unit * store :=
  match get_path st node ["data"; "node"; "template"] with
  | Raise e => (Raise e, st)
  | Ok template =>
      match contains st template key with
      | Raise e => (Raise e, st)
      | Ok false =>
          (Raise (Exn ValueError
                    ("Component " ++ component_id ++
                     " does not have input " ++ key)),
           st)
      | Ok true =>
          match get_path st node ["data"; "node"; "template"; key] with
          | Raise e => (Raise e, st)
          | Ok field =>
              match setitem st field "value" value with
              | Raise e => (Raise e, st)
              | Ok st1 =>
                  match get_path st1 node
                          ["data"; "node"; "template"; key] with
                  | Raise e => (Raise e, st1)
                  | Ok field1 =>
                      match setitem st1 field1 "load_from_db"
                              (Boolean false) with
                      | Raise e => (Raise e, st1)
                      | Ok st2 => (Ok tt, st2)
                      end
                  end
              end
          end
      end
  end.

(** [for node in nodes: if node["id"] == component_id: ...; return],
    followed by the [raise] after the loop. *)
Fixpoint set_input_in (st : store) (items : list val)
    (component_id key : string) (value : val) : result unit * store :=
  match items with
  | [] =>
      (Raise (Exn ValueError ("Component " ++ component_id ++ " not found")),
       st)
  | node :: rest =>
      match subscript st node "id" with
      | Raise e => (Raise e, st)
      | Ok i =>
          if eq_str i component_id then
            set_input st node component_id key value
          else set_input_in st rest component_id key value
      end
  end.

(** [set_component_input(component_id, key, value)] on the document
    [json_data]: the outcome and the store afterwards. *)
Definition set_component_input (st : store) (json_data : val)
    (component_id key : string) (value : val) : result unit * store :=
  match nodes st json_data with
  | Raise e => (Raise e, st)
  | Ok items => set_input_in st items component_id key value
  end.

(** [get_components_by_type], on the same representation: the nodes it
    returns are references to the node objects. *)
Fixpoint select_by_type (st : store) (items : list val)
    (component_type : string) : result (list val) :=
  match items with
  | [] => Ok []
  | node :: rest =>
      d ← subscript st node "data";
      t ← subscript st d "type";
      if eq_str t component_type then
        selected ← select_by_type st rest component_type;
        Ok (node :: selected)
      else select_by_type st rest component_type
  end.

Definition get_components_by_type (st : store) (json_data : val)
    (component_type : string) : result (list val) :=
  ns ← nodes st json_data;
  select_by_type st ns component_type.

(** A node that has an [id], which is not [component_id]. *)
Definition other_id (st : store) (component_id : string) (n : val) : Prop :=
  ∃ i, subscript st n "id" = Ok i ∧ eq_str i component_id = false.

(** No dict is an entry of itself.  Every document decoded from JSON text
    is like that, and so is every document without a cycle. *)
Definition no_self_entry (st : store) : bool :=
  forallb (λ '(l, o),
             match o with
             | Dict fields =>
                 forallb (λ '(_, v), negb (bool_decide (v = Ref l))) fields
             | Array _ => true
             end)
          (map_to_list st).

(** The keys [set_component_input] assigns. *)
Definition written (key : string) : bool :=
  (String.eqb key "value" || String.eqb key "load_from_db")%bool.

(** Two stores that hold the same lists and the same dicts, up to the
    entries of the assigned keys. *)
Definition agree (st st' : store) : Prop :=
  ∀ l, match st !! l, st' !! l with
       | Some (Array a), Some (Array a') => a = a'
       | Some (Dict f), Some (Dict f') =>
           ∀ k, written k = false → dict_get f' k = dict_get f k
       | None, None => True
       | _, _ => False
       end.

(** A flow of two nodes built around one template: object 7, with its
    template 8 and the input 9, is reached from both. *)
Definition shared_flow : store :=
  list_to_map
    [(0, Dict [("data", Ref 1)]);
     (1, Dict [("nodes", Ref 2)]);
     (2, Array [Ref 3; Ref 4]);
     (3, Dict [("id", Str "ChatInput-1"); ("data", Ref 5)]);
     (4, Dict [("id", Str "ChatInput-2"); ("data", Ref 6)]);
     (5, Dict [("type", Str "ChatInput"); ("node", Ref 7)]);
     (6, Dict [("type", Str "ChatInput"); ("node", Ref 7)]);
     (7, Dict [("template", Ref 8)]);
     (8, Dict [("input_value", Ref 9)]);
     (9, Dict [("value", Str ""); ("load_from_db", Boolean true)])].

(** A template that is its own entry under [value]. *)
Definition looping_flow : store :=
  list_to_map
    [(0, Dict [("data", Ref 1)]);
     (1, Dict [("nodes", Ref 2)]);
     (2, Array [Ref 3]);
     (3, Dict [("id", Str "ChatInput-1"); ("data", Ref 4)]);
     (4, Dict [("node", Ref 5)]);
     (5, Dict [("template", Ref 6)]);
     (6, Dict [("value", Ref 6)])].

End FlowStore.

(** * Properties *)

(** ** Attribute forwarding, caching and introspection *)

Module Forwarding.
Import Py Compat.

Ltac unfold_M :=
  unfold mbind, M_bind, bind, mret, M_ret, ret, raise, setattr,
    try_except, try_except_else, host_call in *.

Ltac instance_name := by repeat constructor.

Section facts.
Context (host : Host).

Lemma type_lookup_instance cls n :
  n ∈ instance_names → type_lookup host cls n = None.
Proof. intros Hn. unfold type_lookup. by rewrite bool_decide_eq_true_2. Qed.

Lemma type_lookup_class_body n :
  n ∈ class_body →
  type_lookup host AiexecCompatibilityModule n = Some ClassAttribute.
Proof.
  intros Hn. unfold type_lookup.
  rewrite bool_decide_eq_false_2.
  - by rewrite bool_decide_eq_true_2.
  - intros Hi. revert Hn. unfold class_body, instance_names in *.
    rewrite !elem_of_cons in Hi. rewrite !elem_of_cons.
    rewrite !elem_of_nil. rewrite elem_of_nil in Hi.
    intros Hn. destruct Hi as [->|[->|[->|[]]]];
      destruct Hn as [?|[?|[?|[?|[?|[]]]]]]; discriminate.
Qed.

(** What the shadow class does not define, its base does not either. *)
Lemma type_lookup_inherited a :
  type_lookup host AiexecCompatibilityModule a = None →
  type_lookup host ModuleType a = None.
Proof.
  unfold type_lookup. destruct (bool_decide (a ∈ instance_names)); [done|].
  destruct (bool_decide (a ∈ class_body)); [done|].
  by destruct (host_type_attr host AiexecCompatibilityModule a).
Qed.

Lemma find_attr_None w o a :
  find_attr host w o a = None
  ↔ type_lookup host (class_of w o) a = None ∧ attrs w o !! a = None.
Proof.
  unfold find_attr.
  destruct (type_lookup host (class_of w o) a) as [[| |]|];
    destruct (attrs w o !! a); split; try done; by intros [? ?].
Qed.

(** An entry of the instance [__dict__] is what the lookup finds, unless
    the type has a data descriptor of that name. *)
Lemma find_attr_dict w o a v :
  attrs w o !! a = Some v →
  type_lookup host (class_of w o) a ≠ Some DataDescriptor →
  find_attr host w o a = Some v.
Proof.
  intros Hv Ht. unfold find_attr.
  destruct (type_lookup host (class_of w o) a) as [[| |]|]; [done|..];
    by rewrite Hv.
Qed.

Lemma find_attr_instance w o n :
  n ∈ instance_names → find_attr host w o n = attrs w o !! n.
Proof. intros Hn. unfold find_attr. by rewrite type_lookup_instance. Qed.

(** A lookup writes nothing when the name is bound, or is no lazy entry;
    and when it writes, it binds that one name, which was not bound. *)
Lemma materialize_bound o a v w :
  attrs w o !! a = Some v → materialize host o a w = (Ok tt, w).
Proof.
  intros Hv. unfold materialize. rewrite Hv.
  by destruct (type_lookup host (class_of w o) a) as [[| |]|].
Qed.

Lemma materialize_not_lazy o a w :
  type_lookup host (class_of w o) a ≠ Some LazyEntry →
  materialize host o a w = (Ok tt, w).
Proof.
  intros Ht. unfold materialize.
  by destruct (type_lookup host (class_of w o) a) as [[| |]|].
Qed.

Lemma materialize_cases o a w :
  materialize host o a w = (Ok tt, w)
  ∨ (type_lookup host (class_of w o) a = Some LazyEntry
     ∧ attrs w o !! a = None
     ∧ materialize host o a w = setattr o a (VTypeAttr a o) w).
Proof.
  unfold materialize.
  destruct (type_lookup host (class_of w o) a) as [[| |]|]; try by left.
  destruct (attrs w o !! a); [by left|by right].
Qed.

(** A name found on the object itself is read from there, with no call
    of a hook. *)
Lemma getattr_found d o a v w :
  find_attr host w o a = Some v →
  getattr host d (VObj o) a w = (Ok v, (materialize host o a w).2).
Proof.
  intros Hv.
  destruct d; simpl; unfold module_getattribute; rewrite Hv;
    by destruct (class_of w o).
Qed.

(** An entry of the instance [__dict__] is read as it is, unless the type
    has a data descriptor of that name. *)
Lemma getattr_dict d o a v w :
  attrs w o !! a = Some v →
  type_lookup host (class_of w o) a ≠ Some DataDescriptor →
  getattr host d (VObj o) a w = (Ok v, w).
Proof.
  intros Hv Ht.
  rewrite (getattr_found d o a v w) by (by apply find_attr_dict).
  by rewrite (materialize_bound o a v w Hv).
Qed.

(** The attributes the layer keeps on its nodes are read from the
    instance [__dict__]. *)
Lemma getattr_own d o a v w :
  attrs w o !! a = Some v →
  a ∈ instance_names →
  getattr host d (VObj o) a w = (Ok v, w).
Proof.
  intros Hv Hn. apply getattr_dict; [done|].
  by rewrite type_lookup_instance.
Qed.

Lemma module_attribute_error_class m a :
  isinstance (module_attribute_error m a) [AttributeError] = true.
Proof. unfold module_attribute_error. by repeat case_match. Qed.

(** A name that is not found on a shadow module, which binds no
    module-level [__getattr__] of its own, goes to the method
    [__getattr__] of the class. *)
Lemma getattr_hook d s a w :
  class_of w s = AiexecCompatibilityModule →
  find_attr host w s a = None →
  attrs w s !! "__getattr__" = None →
  getattr host (S d) (VObj s) a w
  = __getattr__ host (getattr host d) s a w.
Proof.
  intros Hc Ha Hg.
  change (getattr host (S d) (VObj s) a w)
    with (match class_of w s with
          | ModuleType => module_getattribute host s a w
          | AiexecCompatibilityModule =>
              match module_getattribute host s a w with
              | (Ok v, w') => (Ok v, w')
              | (Raise e, w') =>
                  if isinstance e [AttributeError] then
                    __getattr__ host (getattr host d) s a w'
                  else (Raise e, w')
              end
          end).
  unfold module_getattribute.
  by rewrite Hc, Ha, Hg, module_attribute_error_class.
Qed.

(** A name that is not found on a plain module without a module-level
    [__getattr__] is an [AttributeError]. *)
Lemma getattr_plain_missing d c a w :
  class_of w c = ModuleType →
  find_attr host w c a = None →
  attrs w c !! "__getattr__" = None →
  getattr host d (VObj c) a w
  = (Raise (module_attribute_error (attrs w c) a), w).
Proof.
  intros Hc Ha Hg.
  destruct d; simpl; unfold module_getattribute; by rewrite Hc, Ha, Hg.
Qed.

(** On a plain module without a module-level [__getattr__] a read is the
    lookup on the object itself and changes nothing. *)
Lemma getattr_plain d c a w :
  class_of w c = ModuleType →
  attrs w c !! "__getattr__" = None →
  getattr host d (VObj c) a w
  = match find_attr host w c a with
    | Some v => (Ok v, (materialize host c a w).2)
    | None => (Raise (module_attribute_error (attrs w c) a), w)
    end.
Proof.
  intros Hc Hg. destruct (find_attr host w c a) as [v|] eqn:Hf.
  - by apply getattr_found.
  - by apply getattr_plain_missing.
Qed.

Lemma attrs_store_eq o a v w :
  attrs {| py := store_attr o a v (py w); calls := calls w |} o !! a
  = Some v.
Proof.
  unfold attrs, obj, store_attr. simpl.
  rewrite lookup_total_insert_eq. simpl. apply lookup_insert_eq.
Qed.

Lemma attrs_store_ne_name o a b v w cs :
  a ≠ b →
  attrs {| py := store_attr o a v (py w); calls := cs |} o !! b
  = attrs w o !! b.
Proof.
  intros Hne. unfold attrs, obj, store_attr. simpl.
  rewrite lookup_total_insert_eq. simpl. by apply lookup_insert_ne.
Qed.

Lemma attrs_store_ne_obj o o' a v w cs :
  o ≠ o' →
  attrs {| py := store_attr o a v (py w); calls := cs |} o'
  = attrs w o'.
Proof.
  intros Hne. unfold attrs, obj, store_attr. simpl.
  by rewrite lookup_total_insert_ne.
Qed.

Lemma class_of_store o o' a v w cs :
  class_of {| py := store_attr o a v (py w); calls := cs |} o'
  = class_of w o'.
Proof.
  unfold class_of, obj, store_attr. simpl.
  destruct (decide (o = o')) as [->|Hne].
  - by rewrite lookup_total_insert_eq.
  - by rewrite lookup_total_insert_ne.
Qed.

(** The target of a resolved node is returned without any import. *)
Lemma get_lfx_module_resolved d s c w :
  attrs w s !! "_lfx_module" = Some c →
  c ≠ VNone →
  _get_lfx_module host (getattr host d) s w = (Ok c, w).
Proof.
  intros Hc Hne. unfold _get_lfx_module. unfold_M.
  rewrite (getattr_own d s _ c w Hc) by instance_name.
  destruct (decide (c = VNone)) as [->|_]; [done|].
  by rewrite (getattr_own d s _ c w Hc) by instance_name.
Qed.

(** The first resolution of a node imports the canonical module and
    keeps it in [_lfx_module]. *)
Lemma get_lfx_module_imports d s n c st w :
  attrs w s !! "_lfx_module" = Some VNone →
  attrs w s !! "_lfx_module_name" = Some (VStr n) →
  host_import_module host n (py w) = (Ok c, st) →
  _get_lfx_module host (getattr host d) s w
  = (Ok (VObj c),
     {| py := store_attr s "_lfx_module" (VObj c) st;
        calls := calls w ++ [CallImportModule n] |}).
Proof.
  intros Hm Hn Himp. unfold _get_lfx_module. unfold_M.
  rewrite (getattr_own d s _ _ w Hm) by instance_name.
  rewrite decide_True by done.
  rewrite (getattr_own d s _ _ w Hn) by instance_name.
  unfold import_module. unfold_M. rewrite Himp.
  set (w1 := {| py := store_attr s "_lfx_module" (VObj c) st;
                calls := calls w ++ [CallImportModule n] |}).
  apply (getattr_own d s "_lfx_module" (VObj c) w1); [|instance_name].
  apply (attrs_store_eq s "_lfx_module" (VObj c)
           {| py := st; calls := calls w ++ [CallImportModule n] |}).
Qed.

(** An [ImportError] of the import primitive becomes the layer's own
    [ImportError], naming both modules. *)
Lemma get_lfx_module_import_error d s n e st w lfx nm :
  attrs w s !! "_lfx_module" = Some VNone →
  attrs w s !! "_lfx_module_name" = Some (VStr n) →
  host_import_module host n (py w) = (Raise e, st) →
  isinstance e [ImportError] = true →
  ob_dict (obj st s) !! "_lfx_module_name" = Some (VStr lfx) →
  ob_dict (obj st s) !! "__name__" = Some (VStr nm) →
  _get_lfx_module host (getattr host d) s w
  = (Raise (Exn ImportError
              ("Cannot import " ++ lfx ++
               " for backwards compatibility with " ++ nm)),
     {| py := st; calls := calls w ++ [CallImportModule n] |}).
Proof.
  intros Hm Hn Himp He Hlfx Hnm. unfold _get_lfx_module. unfold_M.
  rewrite (getattr_own d s _ _ w Hm) by instance_name.
  rewrite decide_True by done.
  rewrite (getattr_own d s _ _ w Hn) by instance_name.
  unfold import_module.
  unfold_M. rewrite Himp. rewrite He.
  set (w1 := {| py := st; calls := calls w ++ [CallImportModule n] |}).
  rewrite (getattr_own d s "_lfx_module_name" (VStr lfx) w1 Hlfx)
    by instance_name.
  by rewrite (getattr_own d s "__name__" (VStr nm) w1 Hnm)
    by instance_name.
Qed.

(** Any other exception of the import primitive leaves
    [_get_lfx_module] as it is. *)
Lemma get_lfx_module_other_error d s n e st w :
  attrs w s !! "_lfx_module" = Some VNone →
  attrs w s !! "_lfx_module_name" = Some (VStr n) →
  host_import_module host n (py w) = (Raise e, st) →
  isinstance e [ImportError] = false →
  _get_lfx_module host (getattr host d) s w
  = (Raise e, {| py := st; calls := calls w ++ [CallImportModule n] |}).
Proof.
  intros Hm Hn Himp He. unfold _get_lfx_module. unfold_M.
  rewrite (getattr_own d s _ _ w Hm) by instance_name.
  rewrite decide_True by done.
  rewrite (getattr_own d s _ _ w Hn) by instance_name.
  unfold import_module.
  unfold_M. rewrite Himp. by rewrite He.
Qed.
End facts.

(** C1, as the code has it.  Let [a] be a name that is not found on the
    shadow module [s] itself: its class and the bases of its class do not
    define it, its own [__dict__] does not bind it, and it binds no
    module-level [__getattr__].  Let [s] resolve its canonical target to
    [c] (already kept, or imported now), and let reading [a] directly on
    [c] in the state so reached give [v].  Then the read [s.a] returns that
    same [v] (the same object, when [v] is one), and binds it on [s]. *)
Theorem forwarded_read_agrees (host : Host) d s a c w w1 v w2 :
  class_of w s = AiexecCompatibilityModule →
  type_lookup host AiexecCompatibilityModule a = None →
  attrs w s !! a = None →
  attrs w s !! "__getattr__" = None →
  _get_lfx_module host (getattr host d) s w = (Ok c, w1) →
  getattr host d c a w1 = (Ok v, w2) →
  getattr host (S d) (VObj s) a w = (Ok v, (setattr s a v w2).2).
Proof.
  intros Hc Ht Ha Hg Hres Hread.
  rewrite getattr_hook; [|done| |done].
  - unfold __getattr__. unfold_M. by rewrite Hres, Hread.
  - apply find_attr_None. by rewrite Hc.
Qed.

Lemma forwarded_read_agrees_witness :
  (getattr Demo.host1 0 (VObj 5) "VALUE" Demo.resolved).1 = Ok (VInt 42)
  ∧ (getattr Demo.host1 1 (VObj 1) "VALUE" Demo.after_setup).1
    = Ok (VInt 42).
Proof.
  assert (getattr Demo.host1 0 (VObj 5) "VALUE" Demo.resolved
          = (Ok (VInt 42), Demo.resolved)) as Hread
    by (vm_compute; reflexivity).
  split; [by rewrite Hread|].
  rewrite (forwarded_read_agrees Demo.host1 0 1 "VALUE" (VObj 5)
             Demo.after_setup Demo.resolved (VInt 42) Demo.resolved);
    [reflexivity | vm_compute; reflexivity .. | exact Hread].
Defined.

(** C1, as stated, fails for a name found on the shadow module itself.
    [aiexec.base] is registered and its canonical target [lfx.base]
    imports; the name [__name__] exists on [lfx.base], where it reads
    [lfx.base]; read through [aiexec.base] it gives [aiexec.base], without
    the canonical module being looked at (the read makes no import). *)
Lemma own_name_is_not_forwarded :
  sys_modules (py Demo.after_setup) !! "aiexec.base" = Some 1
  ∧ _get_lfx_module Demo.host1 (getattr Demo.host1 0) 1 Demo.after_setup
    = (Ok (VObj 5), Demo.resolved)
  ∧ getattr Demo.host1 1 (VObj 5) "__name__" Demo.resolved
    = (Ok (VStr "lfx.base"), Demo.resolved)
  ∧ getattr Demo.host1 1 (VObj 1) "__name__" Demo.resolved
    = (Ok (VStr "aiexec.base"), Demo.resolved)
  ∧ getattr Demo.host1 1 (VObj 1) "__name__" Demo.after_setup
    = (Ok (VStr "aiexec.base"), Demo.after_setup)
  ∧ VStr "aiexec.base" ≠ VStr "lfx.base".
Proof.
  split; [vm_compute; reflexivity|].
  split; [vm_compute; reflexivity|].
  split; [vm_compute; reflexivity|].
  split; [vm_compute; reflexivity|].
  split; [vm_compute; reflexivity|].
  discriminate.
Qed.

(** C2. The value of a forwarded read is cached on the shadow module.
    After a first successful read of [a] through [s] that went through
    [__getattr__] (the name is not found on [s] itself), the name is bound
    to the value in [s.__dict__]; in every later state in which that
    binding is still there, with any host and whatever has become of the
    canonical module, the read returns the cached value and leaves the
    state and the trace of host calls as they were: no import, no lookup
    on the canonical module.  In particular, rebinding [a] on another
    module [c] afterwards changes what [c.a] gives and not what [s.a]
    gives.  (A host for which [a] is a data descriptor of the module types
    is excluded in the later reads: such a name is never read from a
    [__dict__].) *)
Theorem attribute_cached_after_first_read (host : Host) d s a v w w1 :
  class_of w s = AiexecCompatibilityModule →
  type_lookup host AiexecCompatibilityModule a = None →
  attrs w s !! a = None →
  attrs w s !! "__getattr__" = None →
  getattr host (S d) (VObj s) a w = (Ok v, w1) →
  attrs w1 s !! a = Some v
  ∧ (∀ (host' : Host) d' w2,
       attrs w2 s !! a = Some v →
       type_lookup host' (class_of w2 s) a ≠ Some DataDescriptor →
       getattr host' d' (VObj s) a w2 = (Ok v, w2))
  ∧ (∀ (host' : Host) d' c v',
       c ≠ s →
       type_lookup host' (class_of w1 s) a ≠ Some DataDescriptor →
       type_lookup host' (class_of w1 c) a ≠ Some DataDescriptor →
       getattr host' d' (VObj c) a (setattr c a v' w1).2
         = (Ok v', (setattr c a v' w1).2)
       ∧ getattr host' d' (VObj s) a (setattr c a v' w1).2
         = (Ok v, (setattr c a v' w1).2)).
Proof.
  intros Hc Ht Ha Hg Hget.
  assert (attrs w1 s !! a = Some v) as Hcached.
  { rewrite getattr_hook in Hget;
      [|done|apply find_attr_None; by rewrite Hc|done].
    unfold __getattr__ in Hget. unfold_M.
    destruct (_get_lfx_module host (getattr host d) s w) as [[c|e] w'];
      [|done].
    destruct (getattr host d c a w') as [[attr|e] w''].
    - injection Hget as <- <-. apply attrs_store_eq.
    - destruct (isinstance e [AttributeError]); [|done].
      by destruct (getattr host d (VObj s) "__name__" w'') as [[?|?] ?]. }
  split; [done|]. split.
  - intros host' d' w2 Hw2 Ht2. by apply getattr_dict.
  - intros host' d' c v' Hne Hts Htc. split.
    + apply getattr_dict.
      * apply attrs_store_eq.
      * unfold setattr. cbn [snd]. by rewrite class_of_store.
    + apply getattr_dict.
      * unfold setattr. cbn [snd]. by rewrite attrs_store_ne_obj.
      * unfold setattr. cbn [snd]. by rewrite class_of_store.
Qed.

Lemma attribute_cached_after_first_read_witness :
  attrs (getattr Demo.host1 1 (VObj 1) "VALUE" Demo.after_setup).2 1
    !! "VALUE" = Some (VInt 42).
Proof.
  apply (attribute_cached_after_first_read Demo.host1 0 1 "VALUE" (VInt 42)
           Demo.after_setup
           (getattr Demo.host1 1 (VObj 1) "VALUE" Demo.after_setup).2);
    vm_compute; reflexivity.
Defined.

(** C3, as the code has it.  Let [a] be a name that is not found on the
    shadow module [s] itself, let [s] resolve its target to [c], and let
    the read of [a] on [c] raise an [AttributeError].  Then the read [s.a]
    raises [AttributeError] with the message
    [module '<shadow name>' has no attribute '<a>'], and its final state is
    the one the lookup on [c] left: nothing is stored on the node for
    [a].  For a canonical module that is a plain module without a
    module-level [__getattr__], the lookup leaves the state that target
    resolution produced; when the node was already resolved that is the
    initial state, unchanged, and when it is resolved by this very read
    and the import leaves the node alone, the node's [__dict__] differs
    from the initial one in [_lfx_module] only. *)
Theorem missing_attribute_raises (host : Host) d s a c w w1 e w2 nm :
  class_of w s = AiexecCompatibilityModule →
  type_lookup host AiexecCompatibilityModule a = None →
  attrs w s !! a = None →
  attrs w s !! "__getattr__" = None →
  _get_lfx_module host (getattr host d) s w = (Ok c, w1) →
  getattr host d c a w1 = (Raise e, w2) →
  isinstance e [AttributeError] = true →
  attrs w2 s !! "__name__" = Some (VStr nm) →
  getattr host (S d) (VObj s) a w
    = (Raise (Exn AttributeError
                ("module '" ++ nm ++ "' has no attribute '" ++ a ++ "'")),
       w2)
  ∧ (∀ c', c = VObj c' →
       class_of w1 c' = ModuleType →
       attrs w1 c' !! "__getattr__" = None →
       w2 = w1)
  ∧ (attrs w s !! "_lfx_module" = Some c → c ≠ VNone → w1 = w)
  ∧ (∀ n c' st,
       c = VObj c' →
       attrs w s !! "_lfx_module" = Some VNone →
       attrs w s !! "_lfx_module_name" = Some (VStr n) →
       host_import_module host n (py w) = (Ok c', st) →
       obj st s = obj (py w) s →
       attrs w1 s = <["_lfx_module" := VObj c']> (attrs w s)).
Proof.
  intros Hc Ht Ha Hg Hres Hread He Hnm.
  split; [|split; [|split]].
  - rewrite getattr_hook; [|done|apply find_attr_None; by rewrite Hc|done].
    unfold __getattr__. unfold_M. rewrite Hres, Hread, He.
    by rewrite (getattr_own host d s "__name__" (VStr nm) w2 Hnm)
      by instance_name.
  - intros c' -> Hcc Hcg.
    rewrite (getattr_plain host d c' a w1 Hcc Hcg) in Hread.
    destruct (find_attr host w1 c' a); [done|]. by injection Hread.
  - intros Hm Hne.
    rewrite (get_lfx_module_resolved host d s c w Hm Hne) in Hres.
    by injection Hres.
  - intros n c' st -> Hm Hn Himp Hsame.
    rewrite (get_lfx_module_imports host d s n c' st w Hm Hn Himp) in Hres.
    injection Hres as <-. unfold attrs, obj, store_attr. simpl.
    rewrite lookup_total_insert_eq. simpl.
    fold (obj st s). by rewrite Hsame.
Qed.

Lemma missing_attribute_raises_witness :
  getattr Demo.host1 1 (VObj 1) "NOPE" Demo.after_setup
  = (Raise (Exn AttributeError "module 'aiexec.base' has no attribute 'NOPE'"),
     Demo.resolved).
Proof.
  destruct (missing_attribute_raises Demo.host1 0 1 "NOPE" (VObj 5)
              Demo.after_setup Demo.resolved
              (Exn AttributeError "module 'lfx.base' has no attribute 'NOPE'")
              Demo.resolved "aiexec.base") as (Hget & _);
    [vm_compute; reflexivity .. |].
  exact Hget.
Defined.

(** C3, as stated, fails for a name that the canonical module does not
    have and the shadow module itself does.  [aiexec.base] resolves to
    [lfx.base], on which [data] is absent (reading it there is an
    [AttributeError]); on [aiexec.base] the registration of
    [aiexec.base.data] has bound [data] to the child shadow module, and the
    read returns it: no exception is raised. *)
Lemma absent_name_bound_on_shadow_is_read :
  _get_lfx_module Demo.host1 (getattr Demo.host1 0) 1 Demo.after_setup
    = (Ok (VObj 5), Demo.resolved)
  ∧ getattr Demo.host1 1 (VObj 5) "data" Demo.resolved
    = (Raise (Exn AttributeError "module 'lfx.base' has no attribute 'data'"),
       Demo.resolved)
  ∧ getattr Demo.host1 1 (VObj 1) "data" Demo.resolved
    = (Ok (VObj 4), Demo.resolved)
  ∧ sys_modules (py Demo.resolved) !! "aiexec.base.data" = Some 4
  ∧ ¬ raises (getattr Demo.host1 1 (VObj 1) "data" Demo.resolved).1
        AttributeError.
Proof.
  assert (getattr Demo.host1 1 (VObj 1) "data" Demo.resolved
          = (Ok (VObj 4), Demo.resolved)) as Hread
    by (vm_compute; reflexivity).
  split; [vm_compute; reflexivity|].
  split; [vm_compute; reflexivity|].
  split; [exact Hread|].
  split; [vm_compute; reflexivity|].
  rewrite Hread. simpl. tauto.
Qed.

Lemma dir_plain (host : Host) d c w :
  class_of w c = ModuleType →
  attrs w c !! "__dir__" = None →
  dir host d (VObj c) w = (Ok (sorted (map_to_list (attrs w c)).*1), w).
Proof.
  intros Hc Hd. destruct d; simpl; unfold module_dir; unfold_M;
    by rewrite Hc, Hd.
Qed.



(** The two listings of the example deployment: the namespace of
    [lfx.base] through [aiexec.base], and the empty listing for
    [aiexec.schema], whose canonical module cannot be imported. *)
Example dir_of_resolvable_and_unresolvable :
  (dir Demo.host1 1 (VObj 1) Demo.after_setup).1 = Ok ["VALUE"; "__name__"]
  ∧ (dir Demo.host1 1 (VObj 3) Demo.after_setup).1 = Ok [].
Proof. split; vm_compute; reflexivity. Qed.

(** Names found on the shadow module itself never reach [__getattr__]:
    its own [__name__] is read, not the canonical one; a registered child
    is the child shadow module; and what its class defines (a method, its
    [__class__], its [__dict__]) is what the class gives, whether or not
    the target can be imported.  The first read of [__annotations__]
    creates the entry of that name on the module. *)
Example own_names_are_not_forwarded :
  (getattr Demo.host1 1 (VObj 1) "__name__" Demo.after_setup)
  = (Ok (VStr "aiexec.base"), Demo.after_setup)
  ∧ (getattr Demo.host1 1 (VObj 1) "data" Demo.after_setup)
    = (Ok (VObj 4), Demo.after_setup)
  ∧ (getattr Demo.host1 1 (VObj 5) "__name__"
       (getattr Demo.host1 1 (VObj 1) "VALUE" Demo.after_setup).2).1
    = Ok (VStr "lfx.base")
  ∧ (getattr Demo.host1 1 (VObj 1) "_get_lfx_module" Demo.after_setup)
    = (Ok (VTypeAttr "_get_lfx_module" 1), Demo.after_setup)
  ∧ (getattr Demo.host1 1 (VObj 3) "__class__" Demo.after_setup)
    = (Ok (VTypeAttr "__class__" 3), Demo.after_setup)
  ∧ (getattr Demo.host1 1 (VObj 3) "__dict__" Demo.after_setup)
    = (Ok (VTypeAttr "__dict__" 3), Demo.after_setup)
  ∧ (getattr Demo.host1 1 (VObj 3) "__annotations__" Demo.after_setup)
    = (Ok (VTypeAttr "__annotations__" 3),
       (setattr 3 "__annotations__" (VTypeAttr "__annotations__" 3)
          Demo.after_setup).2).
Proof. repeat split; vm_compute; reflexivity. Qed.

(** A canonical module that computes its names on demand, with a
    module-level [__getattr__] and [__dir__]: the name [LAZY], which its
    namespace does not bind, is forwarded and cached like any other, a
    name its function does not know is the shadow module's
    [AttributeError], and the listing is the one its [__dir__] gives. *)
Example lazy_canonical_module :
  (getattr Demo.host6 1 (VObj 1) "LAZY" Demo.after_setup6).1 = Ok (VInt 7)
  ∧ attrs (getattr Demo.host6 1 (VObj 1) "LAZY" Demo.after_setup6).2 1
      !! "LAZY" = Some (VInt 7)
  ∧ (getattr Demo.host6 1 (VObj 1) "NOPE" Demo.after_setup6).1
    = Raise (Exn AttributeError
               "module 'aiexec.base' has no attribute 'NOPE'")
  ∧ (dir Demo.host6 1 (VObj 1) Demo.after_setup6).1 = Ok ["LAZY"].
Proof. repeat split; vm_compute; reflexivity. Qed.


(** *** Reads through a resolved node, and through a node that fails to
    resolve *)

(** X12. A read through a resolved node is a lookup on two objects.  For
    a shadow module [s] whose target is kept as the plain module [c],
    neither of them binding a module-level [__getattr__], reading any name
    [a] gives what is found on [s] itself (a data descriptor of its type,
    else its own binding, else a method or other attribute of its class),
    else what is found on [c] in the same way, else the [AttributeError] of
    the shadow module; the one write it can make on [s], other than caching
    a forwarded value, is the entry of a lazy attribute of the type.  The read makes no call to the host (no second
    import), leaves [sys.modules] and the canonical module as they are,
    and leaves the node resolved, so the same holds for every read that
    follows. *)
Theorem resolved_read (host : Host) d s c nm a w :
  class_of w s = AiexecCompatibilityModule →
  attrs w s !! "_lfx_module" = Some (VObj c) →
  attrs w s !! "__name__" = Some (VStr nm) →
  attrs w s !! "__getattr__" = None →
  class_of w c = ModuleType →
  attrs w c !! "__getattr__" = None →
  ∃ w',
    getattr host (S d) (VObj s) a w
    = (match find_attr host w s a with
       | Some v => Ok v
       | None =>
           match find_attr host w c a with
           | Some v => Ok v
           | None =>
               Raise (Exn AttributeError
                        ("module '" ++ nm ++ "' has no attribute '" ++ a ++
                         "'"))
           end
       end, w')
    ∧ calls w' = calls w
    ∧ sys_modules (py w') = sys_modules (py w)
    ∧ attrs w' c = attrs w c
    ∧ class_of w' s = AiexecCompatibilityModule
    ∧ attrs w' s !! "_lfx_module" = Some (VObj c)
    ∧ attrs w' s !! "__name__" = Some (VStr nm)
    ∧ attrs w' s !! "__getattr__" = None
    ∧ class_of w' c = ModuleType
    ∧ attrs w' c !! "__getattr__" = None.
Proof.
  intros Hcs Hm Hnm Hgs Hcc Hgc.
  assert (s ≠ c) as Hsc by (intros ->; congruence).
  destruct (find_attr host w s a) as [v|] eqn:Ha.
  { exists (materialize host s a w).2.
    split; [by rewrite (getattr_found host (S d) s a v w Ha)|].
    destruct (materialize_cases host s a w) as [->|(Hlazy & Hna & ->)];
      [done|].
    rewrite Hcs in Hlazy. unfold setattr. cbn [snd py calls].
    assert (a ≠ "__getattr__") as Hag.
    { intros ->.
      rewrite type_lookup_class_body in Hlazy by (by repeat constructor).
      done. }
    split; [done|]. split; [done|].
    split; [by rewrite attrs_store_ne_obj|].
    split; [by rewrite class_of_store|].
    split; [rewrite attrs_store_ne_name; [done|congruence]|].
    split; [rewrite attrs_store_ne_name; [done|congruence]|].
    split; [by rewrite attrs_store_ne_name|].
    split; [by rewrite class_of_store|].
    by rewrite attrs_store_ne_obj. }
  rewrite getattr_hook by done. unfold __getattr__. unfold_M.
  rewrite (get_lfx_module_resolved host d s (VObj c) w Hm) by done.
  rewrite (getattr_plain host d c a w Hcc Hgc).
  apply find_attr_None in Ha as [Hta Ha]. rewrite Hcs in Hta.
  rewrite (materialize_not_lazy host c a w)
    by (by rewrite Hcc, (type_lookup_inherited host a Hta)).
  destruct (find_attr host w c a) as [v|] eqn:Hca.
  - eexists. split; [reflexivity|]. cbn [snd py calls].
    assert (a ≠ "__getattr__") as Hag.
    { intros ->.
      rewrite type_lookup_class_body in Hta by (by repeat constructor).
      done. }
    split; [done|]. split; [done|].
    split; [by rewrite attrs_store_ne_obj|].
    split; [by rewrite class_of_store|].
    split; [rewrite attrs_store_ne_name; [done|congruence]|].
    split; [rewrite attrs_store_ne_name; [done|congruence]|].
    split; [by rewrite attrs_store_ne_name|].
    split; [by rewrite class_of_store|].
    by rewrite attrs_store_ne_obj.
  - rewrite module_attribute_error_class.
    rewrite (getattr_own host d s "__name__" (VStr nm) w Hnm)
      by instance_name.
    by exists w.
Qed.

Lemma resolved_read_witness :
  ∃ w',
    getattr Demo.host1 1 (VObj 1) "VALUE" Demo.resolved = (Ok (VInt 42), w')
    ∧ calls w' = calls Demo.resolved.
Proof.
  destruct (resolved_read Demo.host1 0 1 5 "aiexec.base" "VALUE"
              Demo.resolved) as (w' & Hget & Hcalls & _);
    [vm_compute; reflexivity .. |].
  exists w'. split; [|exact Hcalls].
  rewrite Hget. f_equal.
Defined.

(** X13. A failed resolution is not remembered.  When the import of the
    canonical module fails with an [ImportError] (and leaves the node
    alone), a read through the unresolved node of a name that is not found
    on the node itself raises the layer's [ImportError], naming the
    canonical and the shadow module, after one call to the import
    primitive; the node is left exactly as it was, still unresolved and
    with nothing cached, so the next read tries the import again. *)
Theorem failed_import_is_retried (host : Host) d s n nm a e st w :
  class_of w s = AiexecCompatibilityModule →
  type_lookup host AiexecCompatibilityModule a = None →
  attrs w s !! a = None →
  attrs w s !! "__getattr__" = None →
  attrs w s !! "_lfx_module" = Some VNone →
  attrs w s !! "_lfx_module_name" = Some (VStr n) →
  attrs w s !! "__name__" = Some (VStr nm) →
  host_import_module host n (py w) = (Raise e, st) →
  isinstance e [ImportError] = true →
  obj st s = obj (py w) s →
  getattr host (S d) (VObj s) a w
  = (Raise (Exn ImportError
              ("Cannot import " ++ n ++
               " for backwards compatibility with " ++ nm)),
     {| py := st; calls := (calls w ++ [CallImportModule n])%list |})
  ∧ attrs {| py := st; calls := (calls w ++ [CallImportModule n])%list |} s
    = attrs w s.
Proof.
  intros Hc Ht Ha Hg Hm Hn Hnm Himp He Hsame.
  assert (attrs {| py := st; calls := (calls w ++ [CallImportModule n])%list |} s
          = attrs w s) as Hattrs
    by (unfold attrs; simpl; by rewrite Hsame).
  split; [|done].
  rewrite getattr_hook; [|done|apply find_attr_None; by rewrite Hc|done].
  unfold __getattr__. unfold_M.
  rewrite (get_lfx_module_import_error host d s n e st w n nm Hm Hn Himp He);
    [done| |].
  - unfold attrs in Hn. by rewrite Hsame.
  - unfold attrs in Hnm. by rewrite Hsame.
Qed.

Lemma failed_import_is_retried_witness :
  (getattr Demo.host1 1 (VObj 3) "Data" Demo.after_setup).1
  = Raise (Exn ImportError
             "Cannot import lfx.schema for backwards compatibility with aiexec.schema")
  ∧ attrs (getattr Demo.host1 1 (VObj 3) "Data" Demo.after_setup).2 3
    = attrs Demo.after_setup 3.
Proof.
  destruct (failed_import_is_retried Demo.host1 0 3 "lfx.schema"
              "aiexec.schema" "Data"
              (Exn ModuleNotFoundError "No module named 'lfx.schema'")
              (py Demo.after_setup) Demo.after_setup) as [Hget Hattrs];
    [vm_compute; reflexivity .. |].
  rewrite Hget. split; [reflexivity|exact Hattrs].
Defined.

(** X17. A read through a resolved node never replaces a binding.  Let
    the shadow module [s] be resolved to [c], and let the lookup of [a] on
    [c] leave the [__dict__] of [s] alone (as it does for every plain
    module; a module-level [__getattr__] of [c] is free to run any code).
    Then the node's [__dict__] after reading [a] differs from the one
    before at most in [a], and only when [a] was not bound: what the node
    already has (its own attributes, the child modules linked on it, the
    values cached earlier) stays as it is. *)
Theorem resolved_read_keeps_bindings (host : Host) d s c nm a w :
  class_of w s = AiexecCompatibilityModule →
  attrs w s !! "_lfx_module" = Some (VObj c) →
  attrs w s !! "__name__" = Some (VStr nm) →
  attrs w s !! "__getattr__" = None →
  attrs (getattr host d (VObj c) a w).2 s = attrs w s →
  ∀ x,
    x ≠ a ∨ is_Some (attrs w s !! a) →
    attrs (getattr host (S d) (VObj s) a w).2 s !! x = attrs w s !! x.
Proof.
  intros Hcs Hm Hnm Hgs Hquiet x Hx.
  destruct (find_attr host w s a) as [v|] eqn:Ha.
  { rewrite (getattr_found host (S d) s a v w Ha). cbn [snd].
    destruct (materialize_cases host s a w) as [->|(_ & Hna & ->)];
      [done|].
    destruct Hx as [Hx|[? ?]]; [|congruence].
    unfold setattr. cbn [snd]. by rewrite attrs_store_ne_name. }
  rewrite getattr_hook by done. unfold __getattr__. unfold_M.
  rewrite (get_lfx_module_resolved host d s (VObj c) w Hm) by done.
  apply find_attr_None in Ha as [_ Ha].
  destruct Hx as [Hx|[? ?]]; [|congruence].
  destruct (getattr host d (VObj c) a w) as [[v|e] w1] eqn:Hread;
    cbn [snd] in Hquiet.
  - cbn [snd]. rewrite attrs_store_ne_name by done. by rewrite Hquiet.
  - destruct (isinstance e [AttributeError]);
      [|cbn [snd]; by rewrite Hquiet].
    rewrite (getattr_own host d s "__name__" (VStr nm) w1);
      [cbn [snd]; by rewrite Hquiet|by rewrite Hquiet|instance_name].
Qed.

Lemma resolved_read_keeps_bindings_witness :
  attrs (getattr Demo.host1 1 (VObj 1) "VALUE" Demo.resolved).2 1 !! "data"
  = Some (VObj 4).
Proof.
  rewrite (resolved_read_keeps_bindings Demo.host1 0 1 5 "aiexec.base"
             "VALUE" Demo.resolved);
    [| vm_compute; reflexivity .. | by left].
  vm_compute. reflexivity.
Defined.

Lemma sorted_elem (l : list string) x : x ∈ sorted l ↔ x ∈ l.
Proof. unfold sorted. by rewrite merge_sort_Permutation. Qed.

Lemma keys_elem (m : gmap string value) x :
  x ∈ (map_to_list m).*1 ↔ is_Some (m !! x).
Proof.
  rewrite list_elem_of_fmap. split.
  - intros ([k v] & -> & Hkv). apply elem_of_map_to_list in Hkv. by exists v.
  - intros [v Hv]. exists (x, v). split; [done|].
    by apply elem_of_map_to_list.
Qed.

(** X20. Introspection shows the canonical namespace and nothing else.
    For a node whose target is kept as a plain module that binds no
    module-level [__dir__], [__dir__] returns a listing whose names are
    exactly the names bound on the canonical module, without a call to the
    host and without any change of state.  Names bound on the shadow
    module only (its own attributes, child modules linked on it) can be
    read through it but are not listed. *)
Theorem dir_lists_canonical_names (host : Host) d s c w :
  attrs w s !! "_lfx_module" = Some (VObj c) →
  class_of w c = ModuleType →
  attrs w c !! "__dir__" = None →
  ∃ names,
    __dir__ host (getattr host d) (dir host d) s w = (Ok names, w)
    ∧ ∀ x, x ∈ names ↔ is_Some (attrs w c !! x).
Proof.
  intros Hm Hcc Hd. exists (sorted (map_to_list (attrs w c)).*1). split.
  - unfold __dir__. unfold_M.
    rewrite (get_lfx_module_resolved host d s (VObj c) w Hm) by done.
    by rewrite dir_plain.
  - intros x. by rewrite sorted_elem, keys_elem.
Qed.

Lemma dir_lists_canonical_names_witness :
  ∃ names,
    __dir__ Demo.host1 (getattr Demo.host1 0) (dir Demo.host1 0) 1
      Demo.resolved = (Ok names, Demo.resolved)
    ∧ ("data" ∉ names)
    ∧ (getattr Demo.host1 1 (VObj 1) "data" Demo.resolved).1 = Ok (VObj 4).
Proof.
  destruct (dir_lists_canonical_names Demo.host1 0 1 5 Demo.resolved)
    as (names & Hdir & Hnames); [vm_compute; reflexivity ..|].
  exists names. split; [exact Hdir|]. split; [|vm_compute; reflexivity].
  rewrite Hnames. vm_compute. by intros [? ?].
Defined.

End Forwarding.

(** ** Registration *)

Module Registration.
Import Py Compat Setup Forwarding.

(** C6. Registration of a name that is already in [sys.modules] does
    nothing, in the loop of redirect entries and in the loop of physical
    overrides alike: the call returns normally and the whole state is
    unchanged, trace of host calls included.  So no second node is
    created, the canonical module is not probed again, and the override
    file is neither looked for nor executed again. *)
Theorem registration_idempotent (host : Host) (file : path) current_module
    aiexec_name lfx_name w :
  is_Some (sys_modules (py w) !! aiexec_name) →
  register host current_module aiexec_name lfx_name w = (Ok tt, w)
  ∧ register_physical_override host file aiexec_name w = (Ok tt, w).
Proof.
  intros Hin. unfold register, register_physical_override.
  unfold sys_modules_contains. unfold_M.
  by rewrite bool_decide_eq_true_2.
Qed.

Lemma registration_idempotent_witness :
  register Demo.host1 0 "aiexec.base" "lfx.base" Demo.after_setup
    = (Ok tt, Demo.after_setup)
  ∧ register_physical_override Demo.host1 Demo.pkg_file "aiexec.base"
      Demo.after_setup
    = (Ok tt, Demo.after_setup).
Proof.
  apply (registration_idempotent Demo.host1 Demo.pkg_file 0
           "aiexec.base" "lfx.base" Demo.after_setup).
  vm_compute. eexists. reflexivity.
Defined.

(** C4, as the code has it.  When the probe for the canonical module
    finds nothing ([find_spec] returns [None], or raises [ImportError] or
    [ValueError]), registering the entry returns normally and installs
    nothing: the state afterwards is the one the probe left, after the one
    call of the probe. *)
Theorem register_skips_missing_target (host : Host) current_module
    aiexec_name lfx_name w st r :
  sys_modules (py w) !! aiexec_name = None →
  host_find_spec host lfx_name (py w) = (r, st) →
  (r = Ok None ∨ ∃ e, r = Raise e ∧ isinstance e [ImportError; ValueError] = true) →
  register host current_module aiexec_name lfx_name w
    = (Ok tt, {| py := st; calls := calls w ++ [CallFindSpec lfx_name] |}).
Proof.
  intros Hnew Hprobe Hr. unfold register, sys_modules_contains, find_spec.
  unfold_M. rewrite Hnew, bool_decide_eq_false_2 by (by intros [? ?]).
  cbn [negb]. rewrite Hprobe.
  destruct Hr as [->|(e & -> & He)]; [done|]. by rewrite He.
Qed.

Lemma register_skips_missing_target_witness :
  register Demo.host1 0 "x.z" "p.missing" Demo.initial
  = (Ok tt, {| py := py Demo.initial; calls := [CallFindSpec "p.missing"] |}).
Proof.
  apply (register_skips_missing_target Demo.host1 0 "x.z" "p.missing"
           Demo.initial (py Demo.initial) (Ok None)).
  - vm_compute; reflexivity.
  - vm_compute; reflexivity.
  - by left.
Defined.

(** C4, as stated, fails.  In the example deployment [lfx.template] does
    not exist: registering [aiexec.template] returns normally and leaves
    the state as it was, and after the whole setup nothing is registered
    under [aiexec.template].  A later access to the shadow name does not
    meet a node of the layer: [sys.modules["aiexec.template"]] is a
    [KeyError], and the attribute read [aiexec.template] on the package is
    the interpreter's [AttributeError]; neither is the layer's
    [ImportError]. *)
Lemma register_missing_target_leaves_no_node :
  register Demo.host1 0 "aiexec.template" "lfx.template" Demo.initial
    = (Ok tt, {| py := py Demo.initial;
                 calls := [CallFindSpec "lfx.template"] |})
  ∧ (_setup_compatibility_modules Demo.host1 Demo.pkg_file Demo.initial).1
    = Ok tt
  ∧ sys_modules (py Demo.after_setup) !! "aiexec.template" = None
  ∧ sys_modules_getitem "aiexec.template" Demo.after_setup
    = (Raise (Exn KeyError "'aiexec.template'"), Demo.after_setup)
  ∧ getattr Demo.host1 1 (VObj 0) "template" Demo.after_setup
    = (Raise (Exn AttributeError "module 'aiexec' has no attribute 'template'"),
       Demo.after_setup)
  ∧ ¬ raises (getattr Demo.host1 1 (VObj 0) "template" Demo.after_setup).1
        ImportError.
Proof.
  assert (getattr Demo.host1 1 (VObj 0) "template" Demo.after_setup
          = (Raise (Exn AttributeError
                      "module 'aiexec' has no attribute 'template'"),
             Demo.after_setup)) as Hread
    by (vm_compute; reflexivity).
  split; [vm_compute; reflexivity|].
  split; [vm_compute; reflexivity|].
  split; [vm_compute; reflexivity|].
  split; [vm_compute; reflexivity|].
  split; [exact Hread|].
  rewrite Hread. simpl. discriminate.
Qed.

(** The resolution error is what a registered node gives when its
    canonical module was located at registration and fails to import on
    first use: [aiexec.schema] in the example deployment. *)
Example located_but_unimportable_raises_import_error :
  (getattr Demo.host1 1 (VObj 3) "Data" Demo.after_setup).1
  = Raise (Exn ImportError
             "Cannot import lfx.schema for backwards compatibility with aiexec.schema").
Proof. vm_compute; reflexivity. Qed.

Lemma obj_store_ne o o' a v s :
  o ≠ o' → obj (store_attr o a v s) o' = obj s o'.
Proof.
  intros Hne. unfold obj, store_attr. simpl.
  by rewrite lookup_total_insert_ne.
Qed.

Lemma class_store o o' a v s :
  ob_class (obj (store_attr o a v s) o') = ob_class (obj s o').
Proof.
  unfold obj, store_attr. simpl.
  destruct (decide (o = o')) as [->|Hne].
  - by rewrite lookup_total_insert_eq.
  - by rewrite lookup_total_insert_ne.
Qed.

(** What the constructor leaves behind: a new object of the shadow class,
    every other object and the registry as they were. *)
Lemma new_AiexecCompatibilityModule_spec name lfx_name w :
  ∃ w1,
    new_AiexecCompatibilityModule name lfx_name w
      = (Ok (fresh (dom (heap (py w)))), w1)
    ∧ sys_modules (py w1) = sys_modules (py w)
    ∧ calls w1 = calls w
    ∧ class_of w1 (fresh (dom (heap (py w)))) = AiexecCompatibilityModule
    ∧ (∀ o, o ≠ fresh (dom (heap (py w))) → obj (py w1) o = obj (py w) o).
Proof.
  eexists. split; [reflexivity|]. simpl.
  split; [done|]. split; [done|]. split.
  - unfold class_of. simpl. rewrite !class_store.
    unfold obj. simpl. by rewrite lookup_total_insert_eq.
  - intros o Hne. rewrite !obj_store_ne by done.
    unfold obj. simpl. by rewrite lookup_total_insert_ne.
Qed.

(** The top-level step does nothing, or repeats on the package module the
    link that the hierarchy step makes on the parent [aiexec]. *)
Lemma link_top_level_cases current_module aiexec_name node w :
  link_top_level current_module aiexec_name node w = (Ok tt, w)
  ∨ (∃ x,
       link_top_level current_module aiexec_name node w
         = setattr current_module x (VObj node) w
       ∧ split aiexec_name "." = [__name__; x]).
Proof.
  unfold link_top_level.
  repeat match goal with
  | |- context [String.eqb aiexec_name ?n] =>
      destruct (String.eqb aiexec_name n) eqn:E;
        [apply String.eqb_eq in E as ->; right; eexists;
         split; reflexivity|]; clear E
  end.
  by left.
Qed.

(** The hierarchy step links the node on its parent when the name has a
    parent segment that is in [sys.modules], and does nothing otherwise. *)
Lemma link_to_parent_cases aiexec_name node w :
  ((1 < List.length (split aiexec_name "."))%nat
   ∧ ∃ parent,
       sys_modules (py w) !! join "." (removelast (split aiexec_name "."))
         = Some parent
       ∧ link_to_parent aiexec_name node w
         = setattr parent (List.last (split aiexec_name ".") "")
             (VObj node) w)
  ∨ (((List.length (split aiexec_name ".") ≤ 1)%nat
      ∨ sys_modules (py w) !! join "." (removelast (split aiexec_name "."))
        = None)
     ∧ link_to_parent aiexec_name node w = (Ok tt, w)).
Proof.
  unfold link_to_parent.
  destruct (Nat.ltb_spec 1 (List.length (split aiexec_name "."))) as [Hlt|Hge].
  - unfold sys_modules_get. unfold_M.
    destruct (sys_modules (py w)
                !! join "." (removelast (split aiexec_name "."))) as [p|] eqn:Hp.
    + left. split; [done|]. by exists p.
    + right. split; [by right|done].
  - right. split; [by left|done].
Qed.

(** C8. A successful registration installs the node and links it on its
    parent exactly when there is one.  Let [aiexec_name] be new, let the
    probe find the canonical module, and let the package module still be
    registered under [aiexec].  Then the registration returns normally and
    - the new node, of the shadow class, is in [sys.modules] under
      [aiexec_name], whatever the parent;
    - if the name has a parent segment and that parent is in [sys.modules]
      at that moment, the parent has the last segment bound to the node;
    - if the name has no parent segment or the parent is not in
      [sys.modules], no object other than the new node is changed: nothing
      points to the node but its registry entry. *)
Theorem register_installs_and_links (host : Host) current_module
    aiexec_name lfx_name w sp st :
  sys_modules (py w) !! aiexec_name = None →
  host_find_spec host lfx_name (py w) = (Ok (Some sp), st) →
  sys_modules st !! __name__ = Some current_module →
  ∃ w',
    register host current_module aiexec_name lfx_name w = (Ok tt, w')
    ∧ sys_modules (py w')
      = <[aiexec_name := fresh (dom (heap st))]> (sys_modules st)
    ∧ class_of w' (fresh (dom (heap st))) = AiexecCompatibilityModule
    ∧ (∀ parent,
         (1 < List.length (split aiexec_name "."))%nat →
         sys_modules (py w') !! join "." (removelast (split aiexec_name "."))
           = Some parent →
         attrs w' parent !! List.last (split aiexec_name ".") ""
           = Some (VObj (fresh (dom (heap st)))))
    ∧ ((List.length (split aiexec_name ".") ≤ 1)%nat
       ∨ sys_modules (py w') !! join "." (removelast (split aiexec_name "."))
         = None →
       ∀ o, o ≠ fresh (dom (heap st)) → obj (py w') o = obj st o).
Proof.
  intros Hnew Hprobe Hcur.
  set (node := fresh (dom (heap st))).
  set (w0 := {| py := st; calls := calls w ++ [CallFindSpec lfx_name] |}).
  destruct (new_AiexecCompatibilityModule_spec aiexec_name lfx_name w0)
    as (w1 & Hnode & Hreg1 & _ & Hclass1 & Hothers1).
  simpl in Hnode, Hreg1, Hclass1, Hothers1. fold node in Hnode, Hclass1, Hothers1.
  set (w2 := {| py := {| heap := heap (py w1);
                         sys_modules := <[aiexec_name := node]> (sys_modules (py w1)) |};
                calls := calls w1 |}).
  assert (register host current_module aiexec_name lfx_name w
          = link_top_level current_module aiexec_name node
              (link_to_parent aiexec_name node w2).2
          ∧ (link_to_parent aiexec_name node w2).1 = Ok tt) as [Hrun Hlp].
  { unfold register, sys_modules_contains, find_spec. unfold_M.
    rewrite Hnew, bool_decide_eq_false_2 by (by intros [? ?]).
    cbn [negb]. rewrite Hprobe. fold w0. rewrite Hnode.
    unfold sys_modules_setitem. fold w2.
    destruct (link_to_parent_cases aiexec_name node w2)
      as [(_ & p & _ & ->)|(_ & ->)]; simpl;
      (split; [|done]);
      match goal with
      | |- context [link_top_level ?c ?a ?n ?W] =>
          by destruct (link_top_level_cases c a n W) as [->|(x & -> & _)]
      end. }
  assert (sys_modules (py w2) = <[aiexec_name := node]> (sys_modules st))
    as Hreg2 by (simpl; by rewrite Hreg1).
  assert (∀ o, o ≠ node → obj (py w2) o = obj st o) as Hothers2
    by (intros o Ho; by apply Hothers1).
  destruct (link_to_parent_cases aiexec_name node w2)
    as [(Hlen & p & Hp & Hlink)|(Habsent & Hlink)];
    rewrite Hlink in Hrun; unfold setattr in Hrun; cbn [snd] in Hrun.
  - (* the parent is registered: the node is linked on it *)
    destruct (link_top_level_cases current_module aiexec_name node
                {| py := store_attr p (List.last (split aiexec_name ".") "")
                           (VObj node) (py w2);
                   calls := calls w2 |})
      as [Htop|(x & Htop & Hsplit)]; rewrite Htop in Hrun.
    + eexists. split; [exact Hrun|]. simpl. split; [by rewrite Hreg1|].
      split; [unfold class_of; simpl; by rewrite class_store|].
      split.
      * intros p' _ Hp'. rewrite Hreg1, <- Hreg2, Hp in Hp'.
        injection Hp' as <-. apply (attrs_store_eq p _ _ w2).
      * intros [Hle|Hnone]; [lia|].
        rewrite Hreg1, <- Hreg2, Hp in Hnone. discriminate.
    + eexists. split; [exact Hrun|]. simpl. split; [by rewrite Hreg1|].
      split; [unfold class_of; simpl; by rewrite !class_store|].
      assert (p = current_module ∧ List.last (split aiexec_name ".") "" = x)
        as [-> Hlast].
      { rewrite Hreg2 in Hp. rewrite Hsplit in Hp |- *.
        simpl in Hp |- *. split; [|done].
        destruct (decide (aiexec_name = "aiexec")) as [->|Hne];
          [discriminate Hsplit|].
        rewrite lookup_insert_ne in Hp by done.
        congruence. }
      split.
      * intros p' _ Hp'. rewrite Hreg1, <- Hreg2, Hp in Hp'.
        injection Hp' as <-. rewrite Hlast.
        apply (attrs_store_eq current_module x (VObj node)
                 {| py := store_attr current_module x (VObj node) (py w2);
                    calls := calls w2 |}).
      * intros [Hle|Hnone]; [lia|].
        rewrite Hreg1, <- Hreg2, Hp in Hnone. discriminate.
  - (* no parent to link on: only the node itself was written *)
    destruct (link_top_level_cases current_module aiexec_name node w2)
      as [Htop|(x & Htop & Hsplit)]; rewrite Htop in Hrun.
    + eexists. split; [exact Hrun|]. split; [exact Hreg2|].
      split; [exact Hclass1|]. split.
      * intros p' Hlen Hp'. destruct Habsent as [Hle|Hnone]; [lia|].
        rewrite Hnone in Hp'. discriminate.
      * intros _. exact Hothers2.
    + exfalso. rewrite Hreg2 in Habsent. rewrite Hsplit in Habsent.
      simpl in Habsent. destruct Habsent as [Hle|Hnone]; [lia|].
      destruct (decide (aiexec_name = "aiexec")) as [->|Hne];
        [discriminate Hsplit|].
      rewrite lookup_insert_ne in Hnone by done.
      congruence.
Qed.

Lemma register_installs_and_links_witness :
  ∃ w',
    register Demo.host1 0 "aiexec.base" "lfx.base" Demo.initial = (Ok tt, w')
    ∧ sys_modules (py w') !! "aiexec.base" = Some 1
    ∧ class_of w' 1 = AiexecCompatibilityModule
    ∧ attrs w' 0 !! "base" = Some (VObj 1).
Proof.
  destruct (register_installs_and_links Demo.host1 0 "aiexec.base" "lfx.base"
              Demo.initial (Demo.demo_spec "lfx.base") (py Demo.initial))
    as (w' & Hrun & Hreg & Hclass & Hlink & _);
    [vm_compute; reflexivity .. |].
  exists w'. split; [exact Hrun|]. split; [|split].
  - rewrite Hreg. vm_compute; reflexivity.
  - exact Hclass.
  - apply (Hlink 0); [vm_compute; lia|].
    rewrite Hreg. vm_compute; reflexivity.
Defined.

(** A child registered before its parent: [aiexec.base.data] is installed
    in [sys.modules], and the package module, the only other object, is
    left as it was. *)
Example child_without_parent_is_not_linked :
  (register Demo.host1 0 "aiexec.base.data" "lfx.base.data" Demo.initial).1
  = Ok tt
  ∧ sys_modules
      (py (register Demo.host1 0 "aiexec.base.data" "lfx.base.data"
             Demo.initial).2) !! "aiexec.base.data" = Some 1
  ∧ sys_modules
      (py (register Demo.host1 0 "aiexec.base.data" "lfx.base.data"
             Demo.initial).2) !! "aiexec.base" = None
  ∧ obj (py (register Demo.host1 0 "aiexec.base.data" "lfx.base.data"
               Demo.initial).2) 0
    = obj (py Demo.initial) 0.
Proof. repeat split; vm_compute; reflexivity. Qed.

(** An override whose file does not exist is skipped: nothing is
    registered and nothing is loaded. *)
Lemma load_file_missing (host : Host) aiexec_name file parent_name attr w :
  host_exists host file (py w) = false →
  load_file host aiexec_name file parent_name attr w
  = (Ok tt, {| py := py w; calls := calls w ++ [CallExists file] |}).
Proof.
  intros Hmissing. unfold load_file, exists_. unfold_M. by rewrite Hmissing.
Qed.

(** C7 on the code, at the failing input.  [base/data/kb_utils.py]
    exists and its execution raises [ModuleNotFoundError].  The override
    is skipped without an error, but the module object
    that was put in [sys.modules] before the file was executed is still
    registered under [aiexec.base.data.kb_utils] afterwards, with none of
    the file's names bound in it. *)
Theorem failed_override_stays_registered :
  (register_physical_override Demo.host2 Demo.pkg_file
     "aiexec.base.data.kb_utils" Demo.initial).1 = Ok tt
  ∧ sys_modules
      (py (register_physical_override Demo.host2 Demo.pkg_file
             "aiexec.base.data.kb_utils" Demo.initial).2)
      !! "aiexec.base.data.kb_utils" = Some 1
  ∧ attrs (register_physical_override Demo.host2 Demo.pkg_file
             "aiexec.base.data.kb_utils" Demo.initial).2 1
    = {[ "__name__" := VStr "aiexec.base.data.kb_utils" ]}
  ∧ calls (register_physical_override Demo.host2 Demo.pkg_file
             "aiexec.base.data.kb_utils" Demo.initial).2
    = [ CallExists ["site"; "aiexec"; "base"; "data"; "kb_utils.py"];
        CallSpecFromFileLocation "aiexec.base.data.kb_utils"
          ["site"; "aiexec"; "base"; "data"; "kb_utils.py"];
        CallModuleFromSpec "aiexec.base.data.kb_utils";
        CallExecModule 1 ].
Proof. repeat split; vm_compute; reflexivity. Qed.

(** A file whose execution fails with an exception outside
    [(ImportError, AttributeError)] is not skipped: the exception leaves
    the loop, and so the whole setup, with the module registered all the
    same. *)
Example unparsable_override_aborts_setup :
  (register_physical_override Demo.host2 Demo.pkg_file
     "aiexec.base.knowledge_bases" Demo.initial).1
  = Raise (Exn SyntaxError "invalid syntax")
  ∧ (_setup_compatibility_modules Demo.host2 Demo.pkg_file Demo.initial).1
    = Raise (Exn SyntaxError "invalid syntax")
  ∧ sys_modules
      (py (_setup_compatibility_modules Demo.host2 Demo.pkg_file
             Demo.initial).2) !! "aiexec.base.knowledge_bases" = Some 2.
Proof. repeat split; vm_compute; reflexivity. Qed.

(** *** The hierarchy computed from a dotted name *)

Lemma split_nonempty s sep : split s sep ≠ [].
Proof.
  destruct s as [|c rest]; simpl; [done|].
  destruct (Ascii.eqb c sep); [done|]. by destruct (split rest sep).
Qed.

Lemma join_cons_char sep c p ps :
  join sep (String c p :: ps) = String c (join sep (p :: ps)).
Proof. unfold join. simpl. by destruct ps. Qed.

Lemma join_split s sep : join (String sep "") (split s sep) = s.
Proof.
  induction s as [|c rest IH]; [done|]. simpl.
  destruct (Ascii.eqb_spec c sep) as [->|Hne].
  - unfold join in *. simpl.
    destruct (split rest sep) as [|p ps] eqn:Hsplit;
      [by destruct (split_nonempty rest sep)|].
    simpl. by rewrite <- IH.
  - destruct (split rest sep) as [|p ps] eqn:Hsplit;
      [by destruct (split_nonempty rest sep)|].
    by rewrite join_cons_char, IH.
Qed.

Lemma append_cons c (a b : string) :
  (String c a ++ b = String c (a ++ b))%string.
Proof. reflexivity. Qed.

Lemma append_assoc (a b c : string) : ((a ++ b) ++ c = a ++ (b ++ c))%string.
Proof.
  induction a as [|x a IH]; [done|]. by rewrite !append_cons, IH.
Qed.

Lemma join_removelast_last sep (l : list string) :
  (1 < List.length l)%nat →
  join sep l = (join sep (removelast l) ++ sep ++ List.last l "")%string.
Proof.
  unfold join. induction l as [|x [|y [|z l]] IH]; simpl; intros Hlen;
    [lia | lia | done |].
  simpl in IH. rewrite IH by lia. by rewrite !append_assoc.
Qed.

Lemma split_parts_have_no_sep s sep :
  Forall (λ part, sep ∉ list_ascii_of_string part) (split s sep).
Proof.
  induction s as [|c rest IH]; simpl.
  - constructor; [|done]. apply not_elem_of_nil.
  - destruct (Ascii.eqb_spec c sep) as [->|Hne].
    + constructor; [apply not_elem_of_nil|done].
    + destruct (split rest sep) as [|p ps]; simpl.
      * constructor; [|done]. simpl. rewrite not_elem_of_cons.
        split; [done|apply not_elem_of_nil].
      * inversion IH as [|? ? Hp Hps]; subst.
        constructor; [|done]. simpl. rewrite not_elem_of_cons. by split.
Qed.

(** X9. The parent name and the attribute name computed for the
    hierarchy recompose the dotted name: joining the parts of
    [aiexec_name.split(".")] gives the name back; when there is more than
    one part, the name is [parent_name + "." + parts[-1]]; and no part,
    the attribute name [parts[-1]] in particular, contains a dot. *)
Theorem parent_and_attribute_recompose (aiexec_name : string) :
  join "." (split aiexec_name ".") = aiexec_name
  ∧ ((1 < List.length (split aiexec_name "."))%nat →
     aiexec_name
     = (join "." (removelast (split aiexec_name ".")) ++ "." ++
        List.last (split aiexec_name ".") "")%string)
  ∧ Forall (λ part, "."%char ∉ list_ascii_of_string part)
      (split aiexec_name ".").
Proof.
  split; [apply join_split|]. split; [|apply split_parts_have_no_sep].
  intros Hlen. rewrite <- join_removelast_last by done.
  symmetry. apply join_split.
Qed.

Example parent_and_attribute_of_a_nested_name :
  split "aiexec.base.data.utils" "." = ["aiexec"; "base"; "data"; "utils"]
  ∧ join "." (removelast (split "aiexec.base.data.utils" "."))
    = "aiexec.base.data"
  ∧ List.last (split "aiexec.base.data.utils" ".") "" = "utils"
  ∧ split "aiexec" "." = ["aiexec"]
  ∧ split "a..b" "." = ["a"; ""; "b"]
  ∧ split "" "." = [""].
Proof. repeat split; reflexivity. Qed.

(** *** What a registration does to the host and what gets out of it *)

Lemma link_to_parent_quiet aiexec_name node w :
  ∃ w', link_to_parent aiexec_name node w = (Ok tt, w')
        ∧ calls w' = calls w
        ∧ sys_modules (py w') = sys_modules (py w).
Proof.
  destruct (link_to_parent_cases aiexec_name node w)
    as [(_ & p & _ & ->)|(_ & ->)]; by eexists.
Qed.

Lemma link_top_level_quiet current_module aiexec_name node w :
  ∃ w', link_top_level current_module aiexec_name node w = (Ok tt, w')
        ∧ calls w' = calls w
        ∧ sys_modules (py w') = sys_modules (py w).
Proof.
  destruct (link_top_level_cases current_module aiexec_name node w)
    as [->|(x & -> & _)]; by eexists.
Qed.

(** A registration whose probe succeeds returns normally, with the probe
    as its only host call. *)
Lemma register_found (host : Host) current_module aiexec_name lfx_name w
    sp st :
  sys_modules (py w) !! aiexec_name = None →
  host_find_spec host lfx_name (py w) = (Ok (Some sp), st) →
  ∃ w',
    register host current_module aiexec_name lfx_name w = (Ok tt, w')
    ∧ calls w' = (calls w ++ [CallFindSpec lfx_name])%list
    ∧ sys_modules (py w')
      = <[aiexec_name := fresh (dom (heap st))]> (sys_modules st).
Proof.
  intros Hnew Hprobe.
  set (w0 := {| py := st; calls := calls w ++ [CallFindSpec lfx_name] |}).
  destruct (new_AiexecCompatibilityModule_spec aiexec_name lfx_name w0)
    as (w1 & Hnode & Hreg1 & Hcalls1 & _).
  simpl in Hnode, Hreg1, Hcalls1.
  set (w2 := {| py := {| heap := heap (py w1);
                         sys_modules :=
                           <[aiexec_name := fresh (dom (heap st))]>
                             (sys_modules (py w1)) |};
                calls := calls w1 |}).
  destruct (link_to_parent_quiet aiexec_name (fresh (dom (heap st))) w2)
    as (w3 & Hlp & Hcalls3 & Hreg3).
  destruct (link_top_level_quiet current_module aiexec_name
              (fresh (dom (heap st))) w3) as (w4 & Htop & Hcalls4 & Hreg4).
  exists w4. split; [|split].
  - unfold register, sys_modules_contains, find_spec. unfold_M.
    rewrite Hnew, bool_decide_eq_false_2 by (by intros [? ?]).
    cbn [negb]. rewrite Hprobe. fold w0. rewrite Hnode.
    unfold sys_modules_setitem. fold w2. by rewrite Hlp, Htop.
  - by rewrite Hcalls4, Hcalls3.
  - rewrite Hreg4, Hreg3. simpl. by rewrite Hreg1.
Qed.

(** X10. Registering a name that is not yet in [sys.modules] makes
    exactly one call to a primitive of the host, the probe
    [find_spec(lfx_name)], whatever the probe answers: the layer itself
    calls neither [import_module] nor any of the file primitives while it
    registers.  (What [find_spec] does inside, such as importing the parent
    packages of the name, is the host's.) *)
Theorem register_probes_once (host : Host) current_module aiexec_name
    lfx_name w :
  sys_modules (py w) !! aiexec_name = None →
  calls (register host current_module aiexec_name lfx_name w).2
  = (calls w ++ [CallFindSpec lfx_name])%list.
Proof.
  intros Hnew.
  destruct (host_find_spec host lfx_name (py w)) as [[[sp|]|e] st] eqn:Hprobe.
  - destruct (register_found host current_module aiexec_name lfx_name w sp st
                Hnew Hprobe) as (w' & -> & Hcalls & _).
    done.
  - unfold register, sys_modules_contains, find_spec. unfold_M.
    rewrite Hnew, bool_decide_eq_false_2 by (by intros [? ?]).
    cbn [negb]. by rewrite Hprobe.
  - unfold register, sys_modules_contains, find_spec. unfold_M.
    rewrite Hnew, bool_decide_eq_false_2 by (by intros [? ?]).
    cbn [negb]. rewrite Hprobe.
    by destruct (isinstance e [ImportError; ValueError]).
Qed.

Lemma register_probes_once_witness :
  calls (register Demo.host1 0 "aiexec.base" "lfx.base" Demo.initial).2
  = [CallFindSpec "lfx.base"].
Proof.
  apply (register_probes_once Demo.host1 0 "aiexec.base" "lfx.base"
           Demo.initial).
  vm_compute. reflexivity.
Defined.

(** X11. The only exceptions that leave a registration are exceptions of
    the probe that are neither [ImportError] (nor a subclass of it) nor
    [ValueError]: if [register] raises [e], then [find_spec] raised [e], [e]
    is of neither class, and nothing has been installed. *)
Theorem register_raises_only_probe_errors (host : Host) current_module
    aiexec_name lfx_name w e w' :
  register host current_module aiexec_name lfx_name w = (Raise e, w') →
  isinstance e [ImportError; ValueError] = false
  ∧ host_find_spec host lfx_name (py w) = (Raise e, py w')
  ∧ sys_modules (py w) !! aiexec_name = None.
Proof.
  destruct (sys_modules (py w) !! aiexec_name) as [o|] eqn:Hnew.
  { unfold register, sys_modules_contains. unfold_M.
    by rewrite Hnew, bool_decide_eq_true_2. }
  destruct (host_find_spec host lfx_name (py w)) as [[[sp|]|e'] st] eqn:Hprobe.
  - destruct (register_found host current_module aiexec_name lfx_name w sp st
                Hnew Hprobe) as (w'' & -> & _).
    done.
  - unfold register, sys_modules_contains, find_spec. unfold_M.
    rewrite Hnew, bool_decide_eq_false_2 by (by intros [? ?]).
    cbn [negb]. by rewrite Hprobe.
  - unfold register, sys_modules_contains, find_spec. unfold_M.
    rewrite Hnew, bool_decide_eq_false_2 by (by intros [? ?]).
    cbn [negb]. rewrite Hprobe.
    destruct (isinstance e' [ImportError; ValueError]) eqn:Hclass; [done|].
    by intros [= <- <-].
Qed.

Lemma register_raises_only_probe_errors_witness :
  isinstance (Exn SyntaxError "invalid syntax") [ImportError; ValueError]
  = false
  ∧ host_find_spec Demo.host3 "lfx.base" (py Demo.initial)
    = (Raise (Exn SyntaxError "invalid syntax"),
       py (register Demo.host3 0 "aiexec.base" "lfx.base" Demo.initial).2)
  ∧ sys_modules (py Demo.initial) !! "aiexec.base" = None.
Proof.
  apply (register_raises_only_probe_errors Demo.host3 0 "aiexec.base"
           "lfx.base" Demo.initial).
  vm_compute. reflexivity.
Defined.

(** *** From registration to the first read *)

Lemma string_length_append (a b : string) :
  String.length (a ++ b) = (String.length a + String.length b)%nat.
Proof.
  induction a as [|c a IH]; [done|]. rewrite append_cons. simpl.
  by rewrite IH.
Qed.

Lemma parent_name_differs aiexec_name :
  (1 < List.length (split aiexec_name "."))%nat →
  join "." (removelast (split aiexec_name ".")) ≠ aiexec_name.
Proof.
  intros Hlen Heq.
  pose proof (join_removelast_last "." (split aiexec_name ".") Hlen) as Hjoin.
  rewrite join_split, Heq in Hjoin.
  apply (f_equal String.length) in Hjoin.
  rewrite !string_length_append in Hjoin. simpl in Hjoin. lia.
Qed.

Lemma dict_store_eq o a v s :
  ob_dict (obj (store_attr o a v s) o) = <[a := v]> (ob_dict (obj s o)).
Proof. unfold obj, store_attr. simpl. by rewrite lookup_total_insert_eq. Qed.

Lemma new_node_attrs name lfx_name w :
  attrs (new_AiexecCompatibilityModule name lfx_name w).2
    (fresh (dom (heap (py w))))
  = fresh_attrs name lfx_name.
Proof.
  unfold attrs, fresh_attrs. simpl. rewrite !dict_store_eq.
  unfold obj. simpl. by rewrite lookup_total_insert_eq.
Qed.

(** The node a registration installs, when the registry holds live
    objects only: a shadow module on which nothing but [__init__] has
    run. *)
Lemma register_found_node (host : Host) current_module aiexec_name lfx_name
    w sp st :
  sys_modules (py w) !! aiexec_name = None →
  host_find_spec host lfx_name (py w) = (Ok (Some sp), st) →
  (∀ n o, sys_modules st !! n = Some o → o ∈ dom (heap st)) →
  current_module ∈ dom (heap st) →
  ∃ w',
    register host current_module aiexec_name lfx_name w = (Ok tt, w')
    ∧ calls w' = (calls w ++ [CallFindSpec lfx_name])%list
    ∧ sys_modules (py w') !! aiexec_name = Some (fresh (dom (heap st)))
    ∧ class_of w' (fresh (dom (heap st))) = AiexecCompatibilityModule
    ∧ attrs w' (fresh (dom (heap st))) = fresh_attrs aiexec_name lfx_name.
Proof.
  intros Hnew Hprobe Hlive Hcur.
  set (node := fresh (dom (heap st))).
  assert (∀ o, o ∈ dom (heap st) → o ≠ node) as Hfresh.
  { intros o Ho ->. by apply (is_fresh (dom (heap st))). }
  set (w0 := {| py := st; calls := calls w ++ [CallFindSpec lfx_name] |}).
  destruct (new_AiexecCompatibilityModule_spec aiexec_name lfx_name w0)
    as (w1 & Hnode & Hreg1 & Hcalls1 & Hclass1 & _).
  pose proof (new_node_attrs aiexec_name lfx_name w0) as Hattrs1.
  rewrite Hnode in Hattrs1.
  simpl in Hnode, Hreg1, Hcalls1, Hclass1, Hattrs1.
  fold node in Hnode, Hclass1, Hattrs1.
  set (w2 := {| py := {| heap := heap (py w1);
                         sys_modules :=
                           <[aiexec_name := node]> (sys_modules (py w1)) |};
                calls := calls w1 |}).
  assert (∃ w3, link_to_parent aiexec_name node w2 = (Ok tt, w3)
                ∧ calls w3 = calls w2
                ∧ sys_modules (py w3) = sys_modules (py w2)
                ∧ class_of w3 node = class_of w2 node
                ∧ attrs w3 node = attrs w2 node)
    as (w3 & Hlp & Hcalls3 & Hreg3 & Hclass3 & Hattrs3).
  { destruct (link_to_parent_cases aiexec_name node w2)
      as [(Hlen & p & Hp & ->)|(_ & ->)]; [|by eexists].
    exists {| py := store_attr p (List.last (split aiexec_name ".") "")
                      (VObj node) (py w2);
              calls := calls w2 |}.
    split; [reflexivity|]. split; [reflexivity|]. split; [reflexivity|].
    assert (p ≠ node) as Hpn.
    { apply Hfresh, (Hlive (join "." (removelast (split aiexec_name ".")))).
      unfold w2 in Hp. simpl in Hp. rewrite Hreg1 in Hp.
      rewrite lookup_insert_ne in Hp; [done|].
      intros Heq. by apply (parent_name_differs aiexec_name). }
    split; [by rewrite class_of_store|by rewrite attrs_store_ne_obj]. }
  assert (∃ w4, link_top_level current_module aiexec_name node w3 = (Ok tt, w4)
                ∧ calls w4 = calls w3
                ∧ sys_modules (py w4) = sys_modules (py w3)
                ∧ class_of w4 node = class_of w3 node
                ∧ attrs w4 node = attrs w3 node)
    as (w4 & Htop & Hcalls4 & Hreg4 & Hclass4 & Hattrs4).
  { destruct (link_top_level_cases current_module aiexec_name node w3)
      as [->|(x & -> & _)]; [by eexists|].
    exists {| py := store_attr current_module x (VObj node) (py w3);
              calls := calls w3 |}.
    split; [reflexivity|]. split; [reflexivity|]. split; [reflexivity|].
    split; [by rewrite class_of_store|].
    rewrite attrs_store_ne_obj; [done|by apply Hfresh]. }
  exists w4. split; [|split; [|split; [|split]]].
  - unfold register, sys_modules_contains, find_spec. unfold_M.
    rewrite Hnew, bool_decide_eq_false_2 by (by intros [? ?]).
    cbn [negb]. rewrite Hprobe. fold w0. rewrite Hnode.
    unfold sys_modules_setitem. fold w2. by rewrite Hlp, Htop.
  - by rewrite Hcalls4, Hcalls3.
  - rewrite Hreg4, Hreg3. simpl. apply lookup_insert_eq.
  - by rewrite Hclass4, Hclass3.
  - by rewrite Hattrs4, Hattrs3.
Qed.

(** X14. From registration to the first read.  Register a new name whose
    canonical module the probe locates, in a state whose registry holds
    live objects.  If importing the canonical module then gives a plain
    module that binds [name] to [v], and [name] is none of the seven
    attributes a fresh node has and no name that the module types define
    (a method of the class, [__class__]), the first read of [name]
    through the registered node returns [v] and caches it; over the
    registration and the read the host has been called exactly twice, once
    to probe and once to import. *)
Theorem registered_name_forwards (host : Host) current_module aiexec_name
    lfx_name w sp st c st2 name v d :
  sys_modules (py w) !! aiexec_name = None →
  host_find_spec host lfx_name (py w) = (Ok (Some sp), st) →
  (∀ n o, sys_modules st !! n = Some o → o ∈ dom (heap st)) →
  current_module ∈ dom (heap st) →
  host_import_module host lfx_name
    (py (register host current_module aiexec_name lfx_name w).2)
  = (Ok c, st2) →
  ob_class (obj st2 c) = ModuleType →
  ob_dict (obj st2 c) !! name = Some v →
  fresh_attrs aiexec_name lfx_name !! name = None →
  type_lookup host AiexecCompatibilityModule name = None →
  ∃ node w'',
    sys_modules (py (register host current_module aiexec_name lfx_name w).2)
      !! aiexec_name = Some node
    ∧ getattr host (S d) (VObj node) name
        (register host current_module aiexec_name lfx_name w).2
      = (Ok v, w'')
    ∧ attrs w'' node !! name = Some v
    ∧ calls w''
      = (calls w ++ [CallFindSpec lfx_name; CallImportModule lfx_name])%list.
Proof.
  intros Hnew Hprobe Hlive Hcur Himp Hclass Hbound Hname Htn.
  destruct (register_found_node host current_module aiexec_name lfx_name w
              sp st Hnew Hprobe Hlive Hcur)
    as (w' & Hrun & Hcalls & Hreg & Hnodeclass & Hattrs).
  rewrite Hrun in Himp |- *. cbn [snd] in Himp |- *.
  set (node := fresh (dom (heap st))) in *.
  assert (fresh_attrs aiexec_name lfx_name !! "_lfx_module" = Some VNone)
    as Hm by done.
  assert (fresh_attrs aiexec_name lfx_name !! "_lfx_module_name"
          = Some (VStr lfx_name)) as Hn by done.
  assert (name ≠ "_lfx_module") as Hne by (intros ->; congruence).
  exists node. eexists. split; [exact Hreg|].
  rewrite getattr_hook;
    [|done|apply find_attr_None; by rewrite Hnodeclass, Hattrs
     |by rewrite Hattrs].
  unfold __getattr__. unfold_M.
  rewrite (get_lfx_module_imports host d node lfx_name c st2 w')
    by (by rewrite ?Hattrs).
  set (w1 := {| py := store_attr node "_lfx_module" (VObj c) st2;
                calls := calls w' ++ [CallImportModule lfx_name] |}).
  assert (attrs w1 c !! name = Some v) as Hread.
  { unfold w1, attrs, obj, store_attr. simpl.
    destruct (decide (node = c)) as [->|Hnc].
    - rewrite lookup_total_insert_eq. simpl.
      by rewrite lookup_insert_ne.
    - by rewrite lookup_total_insert_ne. }
  assert (class_of w1 c = ModuleType) as Hcc.
  { unfold w1, class_of. cbn [py]. by rewrite class_store. }
  rewrite (getattr_dict host d c name v w1)
    by (by rewrite ?Hcc, ?(type_lookup_inherited host name Htn)).
  split; [reflexivity|]. split.
  - apply (attrs_store_eq node name v w1).
  - simpl. rewrite Hcalls. by rewrite <- app_assoc.
Qed.

Lemma registered_name_forwards_witness :
  ∃ node w'',
    sys_modules (py (register Demo.host1 0 "aiexec.base" "lfx.base"
                       Demo.initial).2) !! "aiexec.base" = Some node
    ∧ getattr Demo.host1 1 (VObj node) "VALUE"
        (register Demo.host1 0 "aiexec.base" "lfx.base" Demo.initial).2
      = (Ok (VInt 42), w'')
    ∧ attrs w'' node !! "VALUE" = Some (VInt 42)
    ∧ calls w''
      = (calls Demo.initial
         ++ [CallFindSpec "lfx.base"; CallImportModule "lfx.base"])%list.
Proof.
  apply (registered_name_forwards Demo.host1 0 "aiexec.base" "lfx.base"
           Demo.initial (Demo.demo_spec "lfx.base") (py Demo.initial) 2
           (Demo.demo_import_module Demo.disk1 "lfx.base"
              (py (register Demo.host1 0 "aiexec.base" "lfx.base"
                     Demo.initial).2)).2
           "VALUE" (VInt 42) 0).
  - vm_compute. reflexivity.
  - vm_compute. reflexivity.
  - intros n o Ho. unfold Demo.initial in Ho |- *. simpl in Ho |- *.
    apply lookup_singleton_Some in Ho as [_ <-].
    apply elem_of_dom. rewrite lookup_singleton_eq. by eexists.
  - unfold Demo.initial. simpl.
    apply elem_of_dom. rewrite lookup_singleton_eq. by eexists.
  - vm_compute. reflexivity.
  - vm_compute. reflexivity.
  - vm_compute. reflexivity.
  - vm_compute. reflexivity.
  - vm_compute. reflexivity.
Defined.

End Registration.

(** ** The development-mode flag *)

Module SettingsFacts.
Import Settings.

(** C9. [DEV] is a function of the environment alone: it is true exactly
    when [AIEXEC_DEV] is set to a value whose lower-case form is ["true"],
    and false when the variable is not set. *)
Theorem DEV_true_iff (environ : gmap string string) :
  (DEV environ = true
   ↔ ∃ v, environ !! "AIEXEC_DEV" = Some v ∧ lower v = "true")
  ∧ (environ !! "AIEXEC_DEV" = None → DEV environ = false).
Proof.
  unfold DEV, getenv. split.
  - destruct (environ !! "AIEXEC_DEV") as [v|].
    + rewrite String.eqb_eq. split; [by exists v|].
      by intros (v' & [= <-] & Hv).
    + split; [discriminate|]. by intros (v & Hv & _).
  - by intros ->.
Qed.

Example DEV_examples :
  DEV {[ "AIEXEC_DEV" := "true" ]} = true
  ∧ DEV {[ "AIEXEC_DEV" := "TRUE" ]} = true
  ∧ DEV {[ "AIEXEC_DEV" := "True" ]} = true
  ∧ DEV {[ "AIEXEC_DEV" := "1" ]} = false
  ∧ DEV {[ "AIEXEC_DEV" := " true" ]} = false
  ∧ DEV {[ "PATH" := "true" ]} = false
  ∧ DEV ∅ = false.
Proof. repeat split; vm_compute; reflexivity. Qed.

Ltac lower_char_cases c :=
  destruct c as [[] [] [] [] [] [] [] []]; cbv; intros Hc;
    first [discriminate Hc | by left | by right].

Lemma lower_char_t c :
  lower_char c = "t"%char → c = "t"%char ∨ c = "T"%char.
Proof. lower_char_cases c. Qed.

Lemma lower_char_r c :
  lower_char c = "r"%char → c = "r"%char ∨ c = "R"%char.
Proof. lower_char_cases c. Qed.

Lemma lower_char_u c :
  lower_char c = "u"%char → c = "u"%char ∨ c = "U"%char.
Proof. lower_char_cases c. Qed.

Lemma lower_char_e c :
  lower_char c = "e"%char → c = "e"%char ∨ c = "E"%char.
Proof. lower_char_cases c. Qed.

(** X8. The values of [AIEXEC_DEV] that turn development mode on are the
    sixteen ways of writing [true] in upper and lower case, and nothing
    else: not ["1"], not ["yes"], not ["true"] with a space around it. *)
Theorem DEV_true_spellings (environ : gmap string string) :
  DEV environ = true
  ↔ ∃ v, environ !! "AIEXEC_DEV" = Some v
         ∧ v ∈ ["true"; "truE"; "trUe"; "trUE"; "tRue"; "tRuE"; "tRUe"; "tRUE";
                "True"; "TruE"; "TrUe"; "TrUE"; "TRue"; "TRuE"; "TRUe"; "TRUE"].
Proof.
  unfold DEV, getenv. split.
  - destruct (environ !! "AIEXEC_DEV") as [v|]; [|discriminate].
    rewrite String.eqb_eq. intros Hv. exists v. split; [done|].
    destruct v as [|a [|b [|c [|d [|x rest]]]]]; try discriminate Hv.
    simpl in Hv. injection Hv as Ha Hb Hc Hd.
    apply lower_char_t in Ha. apply lower_char_r in Hb.
    apply lower_char_u in Hc. apply lower_char_e in Hd.
    destruct Ha as [-> | ->], Hb as [-> | ->], Hc as [-> | ->],
      Hd as [-> | ->]; repeat constructor.
  - intros (v & -> & Hv). rewrite String.eqb_eq.
    repeat (apply elem_of_cons in Hv as [-> | Hv]; [reflexivity|]).
    by apply elem_of_nil in Hv.
Qed.

End SettingsFacts.

(** ** [JSONFlowHelper] *)

Module FlowHelperFacts.
Import Py FlowHelper.

Ltac unfold_result := unfold mbind, result_bind, mret, result_ret in *.

(** When the comprehension selects nothing, the generator finds nothing. *)
Lemma select_nil_first_none nodes component_type :
  select_by_type nodes component_type = Ok [] →
  first_by_type nodes component_type = Ok None.
Proof.
  induction nodes as [|node rest IH]; [done|]. simpl. unfold_result.
  destruct (subscript node "data") as [d|e]; [|done].
  destruct (subscript d "type") as [t|e]; [|done].
  destruct (eq_str t component_type); [|exact IH].
  by destruct (select_by_type rest component_type).
Qed.

(** C10. [get_single_component] returns a node exactly when one node has
    the requested type.  With no such node it fails on [components[0]]
    with an [IndexError], not with a [ValueError]; with two or more it
    raises the [ValueError] that says so; and with no such node
    [get_component_by_type] raises its own [ValueError] listing the types
    that are there (when these are all strings, so that the message can be
    built). *)
Theorem get_single_component_cases (set_of : list json → list json)
    (json_data : json) (component_type : string) :
  (get_components_by_type json_data component_type = Ok [] →
   get_single_component json_data component_type
   = Raise (Exn IndexError "list index out of range"))
  ∧ (∀ node,
       get_single_component json_data component_type = Ok node
       ↔ get_components_by_type json_data component_type = Ok [node])
  ∧ (∀ c1 c2 rest,
       get_components_by_type json_data component_type
         = Ok (c1 :: c2 :: rest) →
       get_single_component json_data component_type
       = Raise (Exn ValueError
                  ("Multiple components of type " ++ component_type ++
                   " found")))
  ∧ (∀ ns ts names,
       get_components_by_type json_data component_type = Ok [] →
       nodes json_data = Ok ns →
       types_of ns = Ok ts →
       join_types (set_of ts) = Ok names →
       get_component_by_type set_of json_data component_type
       = Raise (Exn ValueError
                  ("Component of type " ++ component_type ++
                   " not found. Available: " ++ join ", " names))).
Proof.
  split; [|split; [|split]].
  - intros Hnone. unfold get_single_component. unfold_result.
    by rewrite Hnone.
  - intros node. unfold get_single_component. unfold_result.
    destruct (get_components_by_type json_data component_type)
      as [[|c1 [|c2 rest]]|e]; simpl; split; congruence.
  - intros c1 c2 rest Hmany. unfold get_single_component. unfold_result.
    by rewrite Hmany.
  - intros ns ts names Hnone Hns Hts Hnames.
    unfold get_components_by_type in Hnone.
    unfold get_component_by_type. unfold_result.
    rewrite Hns in Hnone |- *.
    by rewrite (select_nil_first_none ns component_type Hnone), Hts, Hnames.
Qed.

Example get_single_component_on_sample :
  get_single_component sample_flow "Prompt"
  = Raise (Exn IndexError "list index out of range")
  ∧ get_component_by_type (λ ts, take 2 ts) sample_flow "Prompt"
    = Raise (Exn ValueError
               "Component of type Prompt not found. Available: ChatInput, ChatOutput")
  ∧ get_single_component sample_flow "ChatInput"
    = Ok (JObj [("id", JStr "n1");
                ("data", JObj [("type", JStr "ChatInput")])])
  ∧ get_single_component sample_flow "ChatOutput"
    = Raise (Exn ValueError "Multiple components of type ChatOutput found").
Proof. repeat split; vm_compute; reflexivity. Qed.

Lemma get_single_component_cases_witness :
  get_single_component sample_flow "Prompt"
  = Raise (Exn IndexError "list index out of range")
  ∧ get_component_by_type (λ ts, take 2 ts) sample_flow "Prompt"
    = Raise (Exn ValueError
               "Component of type Prompt not found. Available: ChatInput, ChatOutput").
Proof.
  destruct (get_single_component_cases (λ ts, take 2 ts) sample_flow "Prompt")
    as (Hzero & _ & _ & Hby_type).
  split.
  - apply Hzero. vm_compute; reflexivity.
  - rewrite (Hby_type
               [JObj [("id", JStr "n1");
                      ("data", JObj [("type", JStr "ChatInput")])];
                JObj [("id", JStr "n2");
                      ("data", JObj [("type", JStr "ChatOutput")])];
                JObj [("id", JStr "n3");
                      ("data", JObj [("type", JStr "ChatOutput")])]]
               [JStr "ChatInput"; JStr "ChatOutput"; JStr "ChatOutput"]
               ["ChatInput"; "ChatOutput"]);
      vm_compute; reflexivity.
Defined.

(** *** More on the lookups by type *)

Lemma typed_node node t :
  get_path node ["data"; "type"] = Ok t →
  ∃ d, subscript node "data" = Ok d ∧ subscript d "type" = Ok t.
Proof.
  simpl. unfold_result.
  destruct (subscript node "data") as [d|e]; [|done].
  destruct (subscript d "type") as [t'|e] eqn:Ht; [|done].
  intros [= <-]. by exists d.
Qed.

Lemma first_by_type_skips pre rest component_type :
  Forall (λ n, ∃ t, get_path n ["data"; "type"] = Ok t
                    ∧ eq_str t component_type = false) pre →
  first_by_type (pre ++ rest)%list component_type
  = first_by_type rest component_type.
Proof.
  induction 1 as [|n pre (t & Ht & Hne) _ IH]; [done|].
  destruct (typed_node n t Ht) as (d & Hd & Hdt).
  simpl. unfold_result. by rewrite Hd, Hdt, Hne.
Qed.

(** X1. [get_component_by_type] returns the first node of the requested
    type and does not look at the nodes after it: when the nodes before
    [hit] all have a type, none of them the requested one, and [hit] has
    the requested type, the result is [hit], whatever follows (malformed
    nodes included). *)
Theorem get_component_by_type_first_match (set_of : list json → list json)
    json_data component_type pre hit post t :
  nodes json_data = Ok (pre ++ hit :: post)%list →
  Forall (λ n, ∃ t', get_path n ["data"; "type"] = Ok t'
                     ∧ eq_str t' component_type = false) pre →
  get_path hit ["data"; "type"] = Ok t →
  eq_str t component_type = true →
  get_component_by_type set_of json_data component_type = Ok hit.
Proof.
  intros Hns Hpre Ht Heq.
  destruct (typed_node hit t Ht) as (d & Hd & Hdt).
  unfold get_component_by_type. unfold_result. rewrite Hns.
  rewrite (first_by_type_skips pre (hit :: post) component_type Hpre).
  simpl. unfold_result. rewrite Hd, Hdt, Heq.
  destruct hit as [| | | | |fields]; try discriminate Hd.
  by destruct fields.
Qed.

Lemma get_component_by_type_first_match_witness :
  get_component_by_type (λ ts, ts)
    (JObj [("data",
            JObj [("nodes",
                   JArr [JObj [("data", JObj [("type", JStr "A")])];
                         JObj [("data", JObj [("type", JStr "B")])];
                         JNull])])])
    "B"
  = Ok (JObj [("data", JObj [("type", JStr "B")])])
  ∧ (∃ e, get_components_by_type
            (JObj [("data",
                    JObj [("nodes",
                           JArr [JObj [("data", JObj [("type", JStr "A")])];
                                 JObj [("data", JObj [("type", JStr "B")])];
                                 JNull])])])
            "B" = Raise e).
Proof.
  split.
  - apply (get_component_by_type_first_match (λ ts, ts) _ "B"
             [JObj [("data", JObj [("type", JStr "A")])]]
             (JObj [("data", JObj [("type", JStr "B")])])
             [JNull] (JStr "B")).
    + reflexivity.
    + constructor; [|constructor]. exists (JStr "A"). split; reflexivity.
    + reflexivity.
    + reflexivity.
  - eexists. vm_compute. reflexivity.
Defined.

Lemma first_by_type_sound ns component_type node :
  first_by_type ns component_type = Ok (Some node) →
  node ∈ ns
  ∧ ∃ t, get_path node ["data"; "type"] = Ok t
         ∧ eq_str t component_type = true.
Proof.
  induction ns as [|n rest IH]; [done|]. simpl. unfold_result.
  destruct (subscript n "data") as [d|e] eqn:Hd; [|done].
  destruct (subscript d "type") as [t|e] eqn:Hdt; [|done].
  destruct (eq_str t component_type) eqn:Heq.
  - intros [= <-]. split; [by left|].
    exists t. simpl. unfold_result. by rewrite Hd, Hdt.
  - intros Hrest. destruct (IH Hrest) as [Hin Ht].
    split; [by right|done].
Qed.

Lemma select_cons_first ns component_type c rest :
  select_by_type ns component_type = Ok (c :: rest) →
  first_by_type ns component_type = Ok (Some c).
Proof.
  induction ns as [|n ns' IH]; [done|]. simpl. unfold_result.
  destruct (subscript n "data") as [d|e]; [|done].
  destruct (subscript d "type") as [t|e]; [|done].
  destruct (eq_str t component_type); [|exact IH].
  destruct (select_by_type ns' component_type); [|done].
  by intros [= <- _].
Qed.

(** X2. The three lookups agree.  A node returned by
    [get_component_by_type] is one of the nodes of the flow and has the
    requested type; it is the first of the nodes [get_components_by_type]
    returns whenever that list is there and not empty; and it is the node
    [get_single_component] returns whenever that one returns. *)
Theorem lookups_by_type_agree (set_of : list json → list json)
    json_data component_type :
  (∀ node,
     get_component_by_type set_of json_data component_type = Ok node →
     ∃ ns t, nodes json_data = Ok ns ∧ node ∈ ns
             ∧ get_path node ["data"; "type"] = Ok t
             ∧ eq_str t component_type = true)
  ∧ (∀ c rest,
       get_components_by_type json_data component_type = Ok (c :: rest) →
       get_component_by_type set_of json_data component_type = Ok c)
  ∧ (∀ node,
       get_single_component json_data component_type = Ok node →
       get_component_by_type set_of json_data component_type = Ok node).
Proof.
  assert (∀ c rest,
            get_components_by_type json_data component_type = Ok (c :: rest) →
            get_component_by_type set_of json_data component_type = Ok c)
    as Hhead.
  { intros c rest. unfold get_components_by_type, get_component_by_type.
    unfold_result. destruct (nodes json_data) as [ns|e]; [|done].
    intros Hsel. rewrite (select_cons_first ns component_type c rest Hsel).
    destruct (first_by_type_sound ns component_type c
                (select_cons_first ns component_type c rest Hsel))
      as (_ & t & Ht & _).
    destruct (typed_node c t Ht) as (d & Hd & _).
    destruct c as [| | | | |fields]; try discriminate Hd.
    by destruct fields. }
  split; [|split; [exact Hhead|]].
  - intros node. unfold get_component_by_type. unfold_result.
    destruct (nodes json_data) as [ns|e] eqn:Hns; [|done].
    destruct (first_by_type ns component_type) as [[found|]|e] eqn:Hfirst;
      [| |done].
    + destruct (truthy found).
      * intros [= <-].
        destruct (first_by_type_sound ns component_type found Hfirst)
          as (Hin & t & Ht & Heq).
        by exists ns, t.
      * destruct (types_of ns) as [ts|?]; [|done].
        by destruct (join_types (set_of ts)).
    + destruct (types_of ns) as [ts|?]; [|done].
      by destruct (join_types (set_of ts)).
  - intros node Hsingle. unfold get_single_component in Hsingle.
    unfold_result.
    destruct (get_components_by_type json_data component_type)
      as [[|c1 [|c2 rest]]|e] eqn:Hsel; simpl in Hsingle; try done.
    injection Hsingle as <-. by apply (Hhead c1 []).
Qed.

Lemma lookups_by_type_agree_witness :
  get_component_by_type (λ ts, ts) sample_flow "ChatInput"
  = Ok (JObj [("id", JStr "n1");
              ("data", JObj [("type", JStr "ChatInput")])]).
Proof.
  destruct (lookups_by_type_agree (λ ts, ts) sample_flow "ChatInput")
    as (_ & _ & Hsingle).
  apply Hsingle. vm_compute. reflexivity.
Defined.

(** *** The comprehension as a filter *)

Lemma select_by_type_cons n rest component_type :
  select_by_type (n :: rest) component_type
  = match get_path n ["data"; "type"] with
    | Ok t =>
        if eq_str t component_type then
          match select_by_type rest component_type with
          | Ok selected => Ok (n :: selected)
          | Raise e => Raise e
          end
        else select_by_type rest component_type
    | Raise e => Raise e
    end.
Proof.
  simpl. unfold_result.
  destruct (subscript n "data") as [d|e]; [|done].
  by destruct (subscript d "type").
Qed.

Lemma select_by_type_filter ns component_type :
  Forall (λ n, ∃ t, get_path n ["data"; "type"] = Ok t) ns →
  select_by_type ns component_type
  = Ok (List.filter (has_type component_type) ns).
Proof.
  induction 1 as [|n ns (t & Ht) _ IH]; [done|].
  rewrite select_by_type_cons. cbn [List.filter]. unfold has_type at 1.
  rewrite Ht, IH. by destruct (eq_str t component_type).
Qed.

Lemma select_by_type_typed ns component_type cs :
  select_by_type ns component_type = Ok cs →
  Forall (λ n, ∃ t, get_path n ["data"; "type"] = Ok t) ns.
Proof.
  revert cs. induction ns as [|n ns IH]; intros cs; [done|].
  rewrite select_by_type_cons.
  destruct (get_path n ["data"; "type"]) as [t|e] eqn:Ht; [|done].
  destruct (eq_str t component_type).
  - destruct (select_by_type ns component_type) as [sel|e] eqn:Hsel; [|done].
    intros _. constructor; [by exists t|by apply (IH sel)].
  - intros Hsel. constructor; [by exists t|by apply (IH cs)].
Qed.

(** X18. [get_components_by_type] is a filter that insists on well-formed
    nodes: when every node of the flow has a type, the result is the list
    of the nodes of the requested type, in the order of the flow; and
    whenever it returns at all, every node of the flow has a type, those
    that do not match included (one node without [data] or [type] makes
    the call raise). *)
Theorem get_components_by_type_is_filter json_data component_type :
  (∀ ns,
     nodes json_data = Ok ns →
     Forall (λ n, ∃ t, get_path n ["data"; "type"] = Ok t) ns →
     get_components_by_type json_data component_type
     = Ok (List.filter (has_type component_type) ns))
  ∧ (∀ cs,
       get_components_by_type json_data component_type = Ok cs →
       ∃ ns,
         nodes json_data = Ok ns
         ∧ Forall (λ n, ∃ t, get_path n ["data"; "type"] = Ok t) ns
         ∧ cs = List.filter (has_type component_type) ns).
Proof.
  unfold get_components_by_type. unfold_result. split.
  - intros ns -> Htyped. by apply select_by_type_filter.
  - intros cs. destruct (nodes json_data) as [ns|e]; [|done].
    intros Hsel. exists ns. split; [done|].
    pose proof (select_by_type_typed ns component_type cs Hsel) as Htyped.
    split; [done|].
    rewrite (select_by_type_filter ns component_type Htyped) in Hsel.
    by injection Hsel.
Qed.

Lemma get_components_by_type_is_filter_witness :
  get_components_by_type sample_flow "ChatOutput"
  = Ok [JObj [("id", JStr "n2");
              ("data", JObj [("type", JStr "ChatOutput")])];
        JObj [("id", JStr "n3");
              ("data", JObj [("type", JStr "ChatOutput")])]].
Proof.
  destruct (get_components_by_type_is_filter sample_flow "ChatOutput")
    as [Hfilter _].
  rewrite (Hfilter
             [JObj [("id", JStr "n1");
                    ("data", JObj [("type", JStr "ChatInput")])];
              JObj [("id", JStr "n2");
                    ("data", JObj [("type", JStr "ChatOutput")])];
              JObj [("id", JStr "n3");
                    ("data", JObj [("type", JStr "ChatOutput")])]]).
  - reflexivity.
  - reflexivity.
  - repeat constructor; eexists; reflexivity.
Defined.

End FlowHelperFacts.

(** ** [set_component_input] *)

Module FlowStoreFacts.
Import Py FlowHelper FlowStore.

Ltac unfold_result := unfold mbind, result_bind, mret, result_ret in *.

Lemma dict_get_set_eq fields key v :
  dict_get (dict_set fields key v) key = Some v.
Proof.
  induction fields as [|[k x] rest IH]; simpl.
  - by rewrite String.eqb_refl.
  - destruct (String.eqb k key) eqn:Hk; simpl; by rewrite Hk.
Qed.

Lemma dict_get_set_ne fields key key' v :
  key ≠ key' →
  dict_get (dict_set fields key v) key' = dict_get fields key'.
Proof.
  intros Hne. induction fields as [|[k x] rest IH]; simpl.
  - by rewrite (proj2 (String.eqb_neq key key') Hne).
  - destruct (String.eqb k key) eqn:Hk; simpl.
    + apply String.eqb_eq in Hk as ->.
      by rewrite (proj2 (String.eqb_neq key key') Hne).
    + by rewrite IH.
Qed.

Lemma dict_set_same fields key v :
  dict_get fields key = Some v → dict_set fields key v = fields.
Proof.
  induction fields as [|[k x] rest IH]; simpl; [done|].
  destruct (String.eqb k key); [by intros [= ->]|].
  intros Hrest. by rewrite IH.
Qed.

Lemma dict_get_elem fields key v :
  dict_get fields key = Some v → (key, v) ∈ fields.
Proof.
  induction fields as [|[k x] rest IH]; simpl; [done|].
  destruct (String.eqb k key) eqn:Hk.
  - apply String.eqb_eq in Hk as ->. intros [= ->]. by left.
  - intros Hrest. right. by apply IH.
Qed.

Lemma no_self_entry_spec st l fields key :
  no_self_entry st = true →
  st !! l = Some (Dict fields) →
  dict_get fields key ≠ Some (Ref l).
Proof.
  unfold no_self_entry. rewrite forallb_forall. intros Hall Hl Hk.
  specialize (Hall (l, Dict fields)). cbn beta iota in Hall.
  rewrite forallb_forall in Hall.
  specialize (Hall ltac:(by apply list_elem_of_In, elem_of_map_to_list)
                (key, Ref l)
                ltac:(by apply list_elem_of_In, dict_get_elem)).
  cbn beta iota in Hall. by rewrite bool_decide_eq_true_2 in Hall.
Qed.

Lemma agree_refl st : agree st st.
Proof. intros l. by destruct (st !! l) as [[f|a]|]. Qed.

Lemma agree_trans st1 st2 st3 : agree st1 st2 → agree st2 st3 → agree st1 st3.
Proof.
  intros H12 H23 l. specialize (H12 l). specialize (H23 l).
  destruct (st1 !! l) as [[f1|a1]|], (st2 !! l) as [[f2|a2]|],
    (st3 !! l) as [[f3|a3]|]; try done.
  - intros k Hk. by rewrite H23, H12.
  - congruence.
Qed.

Lemma agree_insert st l fields fields' :
  st !! l = Some (Dict fields) →
  (∀ k, written k = false → dict_get fields' k = dict_get fields k) →
  agree st (<[l := Dict fields']> st).
Proof.
  intros Hl Hf l'. destruct (decide (l = l')) as [<-|Hne].
  - by rewrite lookup_insert_eq, Hl.
  - rewrite lookup_insert_ne by done. by destruct (st !! l') as [[f|a]|].
Qed.

Lemma written_ne key k : written key = true → written k = false → key ≠ k.
Proof. intros Hkey Hk ->. congruence. Qed.

(** An assignment of one of the two keys leaves everything else to be
    read as before. *)
Lemma setitem_cases st x key v st' :
  setitem st x key v = Ok st' →
  ∃ l fields,
    x = Ref l ∧ st !! l = Some (Dict fields)
    ∧ st' = <[l := Dict (dict_set fields key v)]> st.
Proof.
  destruct x as [| | | |l]; try done. simpl.
  destruct (st !! l) as [[fields|items]|] eqn:Hl; try done.
  intros [= <-]. by exists l, fields.
Qed.

(** Assigning what is already there changes nothing. *)
Lemma setitem_same (st : store) l fields key v :
  st !! l = Some (Dict fields) →
  dict_get fields key = Some v →
  setitem st (Ref l) key v = Ok st.
Proof.
  intros Hl Hv. simpl. rewrite Hl, (dict_set_same _ _ _ Hv).
  f_equal. by apply insert_id.
Qed.

Lemma setitem_agree st x key v st' :
  written key = true →
  setitem st x key v = Ok st' →
  agree st st'.
Proof.
  intros Hkey Hset.
  destruct (setitem_cases _ _ _ _ _ Hset) as (l & fields & -> & Hl & ->).
  apply (agree_insert st l fields); [done|].
  intros k Hk. apply dict_get_set_ne. by apply written_ne.
Qed.

Lemma subscript_agree st st' x key :
  agree st st' → written key = false →
  subscript st' x key = subscript st x key.
Proof.
  intros Ha Hk. destruct x as [| | | |l]; try done. simpl.
  specialize (Ha l).
  destruct (st !! l) as [[f|a]|], (st' !! l) as [[f'|a']|]; try done.
  by rewrite Ha.
Qed.

Lemma get_path_agree st st' path : ∀ x,
  agree st st' →
  Forall (λ key, written key = false) path →
  get_path st' x path = get_path st x path.
Proof.
  induction path as [|p rest IH]; intros x Ha Hall; [done|].
  inversion Hall as [|?? Hp Hrest]; subst. simpl. unfold_result.
  rewrite (subscript_agree st st' x p Ha Hp).
  destruct (subscript st x p) as [child|e]; [|done].
  by apply IH.
Qed.

Lemma get_path_snoc st path key : ∀ x,
  get_path st x (path ++ [key])%list
  = match get_path st x path with
    | Ok y => subscript st y key
    | Raise e => Raise e
    end.
Proof.
  induction path as [|p rest IH]; intros x; simpl; unfold_result.
  - by destruct (subscript st x key).
  - destruct (subscript st x p) as [child|e]; [|done]. apply IH.
Qed.

Lemma template_path_agree st st' x :
  agree st st' →
  get_path st' x ["data"; "node"; "template"]
  = get_path st x ["data"; "node"; "template"].
Proof.
  intros Ha. apply get_path_agree; [done|].
  by repeat constructor.
Qed.

Lemma field_path st x key :
  get_path st x ["data"; "node"; "template"; key]
  = match get_path st x ["data"; "node"; "template"] with
    | Ok t => subscript st t key
    | Raise e => Raise e
    end.
Proof. apply (get_path_snoc st ["data"; "node"; "template"] key x). Qed.

(** ** The body of the loop *)

(** Whatever its outcome, the body leaves a store that agrees with the
    one it started from. *)
Lemma set_input_agree st node component_id key value r st' :
  set_input st node component_id key value = (r, st') →
  agree st st'.
Proof.
  unfold set_input.
  destruct (get_path st node ["data"; "node"; "template"]) as [t|e];
    [|intros [= _ <-]; apply agree_refl].
  destruct (contains st t key) as [[|]|e];
    [|intros [= _ <-]; apply agree_refl ..].
  destruct (get_path st node ["data"; "node"; "template"; key]) as [f|e];
    [|intros [= _ <-]; apply agree_refl].
  destruct (setitem st f "value" value) as [st1|e] eqn:H1;
    [|intros [= _ <-]; apply agree_refl].
  pose proof (setitem_agree st f "value" value st1 eq_refl H1) as Ha1.
  destruct (get_path st1 node ["data"; "node"; "template"; key]) as [f1|e];
    [|by intros [= _ <-]].
  destruct (setitem st1 f1 "load_from_db" (Boolean false)) as [st2|e] eqn:H2;
    [|by intros [= _ <-]].
  intros [= _ <-]. apply (agree_trans st st1 st2 Ha1).
  by apply (setitem_agree st1 f1 "load_from_db" (Boolean false)).
Qed.

(** In a store in which no dict is an entry of itself, the body either
    raises before it assigns anything, or makes both assignments, on the
    one dict [template[key]]. *)
Lemma set_input_cases st node component_id key value :
  no_self_entry st = true →
  (∃ e, set_input st node component_id key value = (Raise e, st))
  ∨ (∃ t lf fields,
       get_path st node ["data"; "node"; "template"] = Ok t
       ∧ contains st t key = Ok true
       ∧ subscript st t key = Ok (Ref lf)
       ∧ (∀ fs, t = Ref lf → st !! lf = Some (Dict fs) → False)
       ∧ st !! lf = Some (Dict fields)
       ∧ set_input st node component_id key value
         = (Ok tt,
            <[lf := Dict (dict_set (dict_set fields "value" value)
                            "load_from_db" (Boolean false))]> st)).
Proof.
  intros Hno. unfold set_input.
  destruct (get_path st node ["data"; "node"; "template"]) as [t|e] eqn:Ht;
    [|left; by eexists].
  destruct (contains st t key) as [[|]|e] eqn:Hc; [|left; by eexists ..].
  rewrite field_path, Ht.
  destruct (subscript st t key) as [f|e] eqn:Hf; [|left; by eexists].
  destruct (setitem st f "value" value) as [st1|e] eqn:H1;
    [|left; by eexists].
  destruct (setitem_cases _ _ _ _ _ H1) as (lf & fields & -> & Hlf & ->).
  right. exists t, lf, fields.
  assert (∀ fs, t = Ref lf → st !! lf = Some (Dict fs) → False) as Hself.
  { intros fs -> Hfs. simpl in Hf. rewrite Hfs in Hf.
    destruct (dict_get fs key) as [v|] eqn:Hv; [|done].
    injection Hf as ->. by apply (no_self_entry_spec st lf fs key). }
  set (st1 := <[lf := Dict (dict_set fields "value" value)]> st).
  assert (agree st st1) as Ha1
    by (by apply (setitem_agree st (Ref lf) "value" value)).
  assert (subscript st1 t key = Ok (Ref lf)) as Hf1.
  { destruct t as [| | | |lt]; try done. simpl in Hf |- *.
    destruct (decide (lt = lf)) as [->|Hne].
    - exfalso. by apply (Hself fields).
    - unfold st1. by rewrite lookup_insert_ne. }
  rewrite field_path, (template_path_agree st st1 node Ha1), Ht, Hf1.
  simpl. unfold st1 at 1. rewrite lookup_insert_eq.
  unfold st1. rewrite insert_insert_eq.
  by repeat split.
Qed.

(** ** The loop *)

Lemma set_input_in_skips st pre rest component_id key value :
  Forall (other_id st component_id) pre →
  set_input_in st (pre ++ rest)%list component_id key value
  = set_input_in st rest component_id key value.
Proof.
  induction 1 as [|n pre (i & Hi & Hne) _ IH]; [done|].
  simpl. by rewrite Hi, Hne.
Qed.

(** The loop raises with the store untouched, or runs the body on the
    first node whose id matches. *)
Lemma set_input_in_cases st items component_id key value :
  (∃ e, set_input_in st items component_id key value = (Raise e, st))
  ∨ (∃ pre node post i,
       items = (pre ++ node :: post)%list
       ∧ Forall (other_id st component_id) pre
       ∧ subscript st node "id" = Ok i
       ∧ eq_str i component_id = true
       ∧ set_input_in st items component_id key value
         = set_input st node component_id key value).
Proof.
  induction items as [|n rest IH]; simpl; [left; by eexists|].
  destruct (subscript st n "id") as [i|e] eqn:Hi; [|left; by eexists].
  destruct (eq_str i component_id) eqn:Heq.
  - right. exists [], n, rest, i. by repeat split.
  - destruct IH as [IH|(pre & node & post & j & -> & Hpre & Hj & Hjeq & Hrun)];
      [by left|].
    right. exists (n :: pre), node, post, j.
    split; [done|]. split; [constructor; [by exists i|done]|].
    by repeat split.
Qed.

(** When a node of the list has an id, the list is a list object. *)
Lemma nodes_array st json_data items node i :
  nodes st json_data = Ok items →
  node ∈ items →
  subscript st node "id" = Ok i →
  ∃ d ln,
    subscript st json_data "data" = Ok d
    ∧ subscript st d "nodes" = Ok (Ref ln)
    ∧ st !! ln = Some (Array items).
Proof.
  unfold nodes. unfold_result.
  destruct (subscript st json_data "data") as [d|e] eqn:Hd; [|done].
  destruct (subscript st d "nodes") as [n|e] eqn:Hn; [|done].
  intros Hit Hin Hid. exists d.
  destruct n as [| | |s|ln]; try done; simpl in Hit.
  - injection Hit as <-. apply list_elem_of_fmap in Hin as (c & -> & _).
    done.
  - destruct (st !! ln) as [[fields|items']|] eqn:Hln; [| |done].
    + injection Hit as <-.
      apply list_elem_of_fmap in Hin as (c & -> & _). done.
    + injection Hit as ->. by exists ln.
Qed.

Lemma nodes_agree st st' json_data items node i :
  agree st st' →
  nodes st json_data = Ok items →
  node ∈ items →
  subscript st node "id" = Ok i →
  nodes st' json_data = Ok items.
Proof.
  intros Ha Hns Hin Hi.
  destruct (nodes_array st json_data items node i Hns Hin Hi)
    as (d & ln & Hd & Hn & Hln).
  unfold nodes. unfold_result.
  rewrite (subscript_agree st st' json_data "data" Ha eq_refl), Hd.
  rewrite (subscript_agree st st' d "nodes" Ha eq_refl), Hn.
  simpl. specialize (Ha ln). rewrite Hln in Ha.
  destruct (st' !! ln) as [[f|a]|]; try done. by subst.
Qed.

(** X3. [set_component_input] changes the document only when it returns.
    In a store in which no dict is an entry of itself, whenever the method
    raises (no such component, no such input, a malformed node or
    template), every object is exactly as before: no field is left half
    assigned. *)
Theorem set_component_input_atomic st json_data component_id key value e
    st' :
  no_self_entry st = true →
  set_component_input st json_data component_id key value = (Raise e, st') →
  st' = st.
Proof.
  intros Hno. unfold set_component_input.
  destruct (nodes st json_data) as [items|e']; [|by intros [= _ <-]].
  destruct (set_input_in_cases st items component_id key value)
    as [[e' ->]|(pre & node & post & i & _ & _ & _ & _ & ->)];
    [by intros [= _ <-]|].
  destruct (set_input_cases st node component_id key value Hno)
    as [[e' ->]|(t & lf & fields & _ & _ & _ & _ & _ & ->)];
    [by intros [= _ <-]|done].
Qed.

Lemma set_component_input_atomic_witness :
  (set_component_input shared_flow (Ref 0) "ChatInput-1" "missing"
     (Str "hello")).2
  = shared_flow.
Proof.
  apply (set_component_input_atomic shared_flow (Ref 0) "ChatInput-1"
           "missing" (Str "hello")
           (Exn ValueError "Component ChatInput-1 does not have input missing")).
  - vm_compute. reflexivity.
  - vm_compute. reflexivity.
Defined.

(** Without the condition the method is not atomic: when the template is
    its own entry under [value], the first assignment replaces that entry
    and the second one fails on the new value, after the first has been
    made. *)
Example set_component_input_on_a_loop :
  (set_component_input looping_flow (Ref 0) "ChatInput-1" "value"
     (Str "hello")).1
  = Raise (Exn TypeError "'str' object does not support item assignment")
  ∧ subscript
      (set_component_input looping_flow (Ref 0) "ChatInput-1" "value"
         (Str "hello")).2 (Ref 6) "value"
    = Ok (Str "hello")
  ∧ subscript looping_flow (Ref 6) "value" = Ok (Ref 6).
Proof. repeat split; vm_compute; reflexivity. Qed.

(** What a call that returns has done. *)
Lemma set_component_input_ok st json_data component_id key value st' :
  no_self_entry st = true →
  set_component_input st json_data component_id key value = (Ok tt, st') →
  ∃ pre node post i t lf fields,
    nodes st json_data = Ok (pre ++ node :: post)%list
    ∧ Forall (other_id st component_id) pre
    ∧ subscript st node "id" = Ok i
    ∧ eq_str i component_id = true
    ∧ get_path st node ["data"; "node"; "template"] = Ok t
    ∧ contains st t key = Ok true
    ∧ subscript st t key = Ok (Ref lf)
    ∧ (∀ fs, t = Ref lf → st !! lf = Some (Dict fs) → False)
    ∧ st !! lf = Some (Dict fields)
    ∧ st' = <[lf := Dict (dict_set (dict_set fields "value" value)
                            "load_from_db" (Boolean false))]> st.
Proof.
  intros Hno. unfold set_component_input.
  destruct (nodes st json_data) as [items|e'] eqn:Hns; [|done].
  destruct (set_input_in_cases st items component_id key value)
    as [[e' ->]|(pre & node & post & i & -> & Hpre & Hi & Heq & ->)];
    [done|].
  destruct (set_input_cases st node component_id key value Hno)
    as [[e' ->]|(t & lf & fields & Ht & Hc & Hf & Hself & Hlf & ->)];
    [done|].
  intros [= <-]. by exists pre, node, post, i, t, lf, fields.
Qed.

Lemma agree_after st lf fields value :
  st !! lf = Some (Dict fields) →
  agree st (<[lf := Dict (dict_set (dict_set fields "value" value)
                            "load_from_db" (Boolean false))]> st).
Proof.
  intros Hlf. apply (agree_insert st lf fields); [done|].
  intros k Hk.
  rewrite dict_get_set_ne by (by apply written_ne).
  apply dict_get_set_ne. by apply written_ne.
Qed.

(** The field dict is still where it was. *)
Lemma field_after st node key t lf fields value :
  get_path st node ["data"; "node"; "template"] = Ok t →
  subscript st t key = Ok (Ref lf) →
  (∀ fs, t = Ref lf → st !! lf = Some (Dict fs) → False) →
  st !! lf = Some (Dict fields) →
  get_path (<[lf := Dict (dict_set (dict_set fields "value" value)
                            "load_from_db" (Boolean false))]> st)
    node ["data"; "node"; "template"; key]
  = Ok (Ref lf).
Proof.
  intros Ht Hf Hself Hlf.
  rewrite field_path,
    (template_path_agree st _ node (agree_after st lf fields value Hlf)), Ht.
  destruct t as [| | | |lt]; try done. simpl in Hf |- *.
  destruct (decide (lt = lf)) as [->|Hne].
  - exfalso. by apply (Hself fields).
  - by rewrite lookup_insert_ne.
Qed.

(** X4. What a call that returns has done, in a store in which no dict is
    an entry of itself.  The node is the first one whose [id] is
    [component_id]; the one object that has changed is the dict
    [template[key]] of that node, in which [value] is now the given value
    and [load_from_db] is [False]; every other dict and list of the store
    is as it was, the list of nodes included.  The change is seen through
    every node from which that dict is reached. *)
Theorem set_component_input_sets st json_data component_id key value st' :
  no_self_entry st = true →
  set_component_input st json_data component_id key value = (Ok tt, st') →
  ∃ pre node post i lf fields,
    nodes st json_data = Ok (pre ++ node :: post)%list
    ∧ Forall (other_id st component_id) pre
    ∧ subscript st node "id" = Ok i
    ∧ eq_str i component_id = true
    ∧ get_path st node ["data"; "node"; "template"; key] = Ok (Ref lf)
    ∧ st !! lf = Some (Dict fields)
    ∧ st' = <[lf := Dict (dict_set (dict_set fields "value" value)
                            "load_from_db" (Boolean false))]> st
    ∧ (∀ l, l ≠ lf → st' !! l = st !! l)
    ∧ get_path st' node ["data"; "node"; "template"; key; "value"]
      = Ok value
    ∧ get_path st' node ["data"; "node"; "template"; key; "load_from_db"]
      = Ok (Boolean false)
    ∧ nodes st' json_data = nodes st json_data.
Proof.
  intros Hno Hrun.
  destruct (set_component_input_ok _ _ _ _ _ _ Hno Hrun)
    as (pre & node & post & i & t & lf & fields & Hns & Hpre & Hi & Heq
        & Ht & Hc & Hf & Hself & Hlf & ->).
  exists pre, node, post, i, lf, fields.
  pose proof (field_after st node key t lf fields value Ht Hf Hself Hlf)
    as Hfield.
  split; [done|]. split; [done|]. split; [done|]. split; [done|].
  split; [by rewrite field_path, Ht|]. split; [done|]. split; [done|].
  split; [intros l Hl; by rewrite lookup_insert_ne|].
  split; [|split].
  - rewrite (get_path_snoc _ ["data"; "node"; "template"; key] "value").
    rewrite Hfield. simpl. rewrite lookup_insert_eq.
    rewrite dict_get_set_ne by done. by rewrite dict_get_set_eq.
  - rewrite (get_path_snoc _ ["data"; "node"; "template"; key]
               "load_from_db").
    rewrite Hfield. simpl. rewrite lookup_insert_eq.
    by rewrite dict_get_set_eq.
  - rewrite Hns.
    apply (nodes_agree st _ json_data _ node i); [|done| |done].
    + by apply agree_after.
    + apply elem_of_app. right. by left.
Qed.

Lemma set_component_input_sets_witness :
  ∃ pre node post i lf fields,
    nodes shared_flow (Ref 0) = Ok (pre ++ node :: post)%list
    ∧ Forall (other_id shared_flow "ChatInput-1") pre
    ∧ subscript shared_flow node "id" = Ok i
    ∧ eq_str i "ChatInput-1" = true
    ∧ get_path shared_flow node ["data"; "node"; "template"; "input_value"]
      = Ok (Ref lf)
    ∧ shared_flow !! lf = Some (Dict fields)
    ∧ (set_component_input shared_flow (Ref 0) "ChatInput-1" "input_value"
         (Str "hello")).2
      = <[lf := Dict (dict_set (dict_set fields "value" (Str "hello"))
                        "load_from_db" (Boolean false))]> shared_flow
    ∧ (∀ l, l ≠ lf →
         (set_component_input shared_flow (Ref 0) "ChatInput-1"
            "input_value" (Str "hello")).2 !! l = shared_flow !! l)
    ∧ get_path
        (set_component_input shared_flow (Ref 0) "ChatInput-1" "input_value"
           (Str "hello")).2
        node ["data"; "node"; "template"; "input_value"; "value"]
      = Ok (Str "hello")
    ∧ get_path
        (set_component_input shared_flow (Ref 0) "ChatInput-1" "input_value"
           (Str "hello")).2
        node ["data"; "node"; "template"; "input_value"; "load_from_db"]
      = Ok (Boolean false)
    ∧ nodes
        (set_component_input shared_flow (Ref 0) "ChatInput-1" "input_value"
           (Str "hello")).2 (Ref 0)
      = nodes shared_flow (Ref 0).
Proof.
  apply (set_component_input_sets shared_flow (Ref 0) "ChatInput-1"
           "input_value" (Str "hello")).
  - vm_compute. reflexivity.
  - vm_compute. reflexivity.
Defined.

(** The two nodes of [shared_flow] are built around one template: setting
    the input of the first is seen through the second as well, whose own
    dicts (objects 4 and 6) are untouched. *)
Example set_component_input_on_a_shared_template :
  get_path shared_flow (Ref 4)
    ["data"; "node"; "template"; "input_value"; "value"] = Ok (Str "")
  ∧ get_path
      (set_component_input shared_flow (Ref 0) "ChatInput-1" "input_value"
         (Str "hello")).2
      (Ref 4) ["data"; "node"; "template"; "input_value"; "value"]
    = Ok (Str "hello")
  ∧ (set_component_input shared_flow (Ref 0) "ChatInput-1" "input_value"
       (Str "hello")).2
    = <[9 := Dict [("value", Str "hello"); ("load_from_db", Boolean false)]]>
        shared_flow.
Proof. repeat split; vm_compute; reflexivity. Qed.

(** X5. With no node of that id, [set_component_input] raises
    [ValueError("Component <id> not found")] and leaves the document as
    it was. *)
Theorem set_component_input_unknown_id st json_data component_id key value
    items :
  nodes st json_data = Ok items →
  Forall (other_id st component_id) items →
  set_component_input st json_data component_id key value
  = (Raise (Exn ValueError ("Component " ++ component_id ++ " not found")),
     st).
Proof.
  intros Hns Hother. unfold set_component_input. rewrite Hns.
  pose proof (set_input_in_skips st items [] component_id key value Hother)
    as Hloop.
  by rewrite app_nil_r in Hloop.
Qed.

Lemma set_component_input_unknown_id_witness :
  set_component_input shared_flow (Ref 0) "ChatInput-9" "input_value"
    (Str "hello")
  = (Raise (Exn ValueError "Component ChatInput-9 not found"), shared_flow).
Proof.
  apply (set_component_input_unknown_id shared_flow (Ref 0) "ChatInput-9"
           "input_value" (Str "hello") [Ref 3; Ref 4]).
  - vm_compute. reflexivity.
  - repeat constructor; eexists; split; vm_compute; reflexivity.
Defined.

(** X6. When the first node of that id has a template without the input
    [key], [set_component_input] raises
    [ValueError("Component <id> does not have input <key>")]: it does not
    create the input, does not go on to later nodes of the same id, and
    leaves the document as it was. *)
Theorem set_component_input_unknown_input st json_data component_id key
    value pre node post i template :
  nodes st json_data = Ok (pre ++ node :: post)%list →
  Forall (other_id st component_id) pre →
  subscript st node "id" = Ok i →
  eq_str i component_id = true →
  get_path st node ["data"; "node"; "template"] = Ok template →
  contains st template key = Ok false →
  set_component_input st json_data component_id key value
  = (Raise (Exn ValueError
              ("Component " ++ component_id ++ " does not have input " ++
               key)),
     st).
Proof.
  intros Hns Hpre Hi Heq Htemplate Hmissing.
  unfold set_component_input. rewrite Hns.
  rewrite (set_input_in_skips st pre (node :: post) component_id key value
             Hpre).
  simpl. rewrite Hi, Heq.
  unfold set_input. by rewrite Htemplate, Hmissing.
Qed.

Lemma set_component_input_unknown_input_witness :
  set_component_input shared_flow (Ref 0) "ChatInput-2" "missing"
    (Str "hello")
  = (Raise (Exn ValueError
              "Component ChatInput-2 does not have input missing"),
     shared_flow).
Proof.
  apply (set_component_input_unknown_input shared_flow (Ref 0)
           "ChatInput-2" "missing" (Str "hello") [Ref 3] (Ref 4) []
           (Str "ChatInput-2") (Ref 8)).
  - vm_compute. reflexivity.
  - repeat constructor; eexists; split; vm_compute; reflexivity.
  - vm_compute. reflexivity.
  - vm_compute. reflexivity.
  - vm_compute. reflexivity.
  - vm_compute. reflexivity.
Defined.

Lemma select_by_type_agree st st' items component_type :
  agree st st' →
  select_by_type st' items component_type
  = select_by_type st items component_type.
Proof.
  intros Ha. induction items as [|n rest IH]; [done|].
  simpl. unfold_result.
  rewrite (subscript_agree st st' n "data" Ha eq_refl).
  destruct (subscript st n "data") as [d|e]; [|done].
  rewrite (subscript_agree st st' d "type" Ha eq_refl).
  destruct (subscript st d "type") as [t|e]; [|done].
  by rewrite IH.
Qed.

(** X7. Setting an input does not change what the lookups by type select:
    after a call that returns, [get_components_by_type] gives, for every
    type, what it gave before (the same node objects in the same order),
    and every object has the [id] it had. *)
Theorem set_component_input_keeps_selection st json_data component_id key
    value st' component_type :
  set_component_input st json_data component_id key value = (Ok tt, st') →
  get_components_by_type st' json_data component_type
  = get_components_by_type st json_data component_type
  ∧ ∀ x, subscript st' x "id" = subscript st x "id".
Proof.
  unfold set_component_input.
  destruct (nodes st json_data) as [items|e'] eqn:Hns; [|done].
  destruct (set_input_in_cases st items component_id key value)
    as [[e' ->]|(pre & node & post & i & -> & Hpre & Hi & Heq & ->)];
    [done|].
  intros Hrun. pose proof (set_input_agree _ _ _ _ _ _ _ Hrun) as Ha.
  split; [|intros x; by apply subscript_agree].
  unfold get_components_by_type. unfold_result.
  rewrite (nodes_agree st st' json_data _ node i Ha Hns); [|by apply elem_of_app; right; left|done].
  rewrite Hns. by apply select_by_type_agree.
Qed.

Lemma set_component_input_keeps_selection_witness :
  get_components_by_type
    (set_component_input shared_flow (Ref 0) "ChatInput-1" "input_value"
       (Str "hello")).2 (Ref 0) "ChatInput"
  = Ok [Ref 3; Ref 4].
Proof.
  destruct (set_component_input_keeps_selection shared_flow (Ref 0)
              "ChatInput-1" "input_value" (Str "hello")
              (set_component_input shared_flow (Ref 0) "ChatInput-1"
                 "input_value" (Str "hello")).2 "ChatInput") as [Hsel _].
  - vm_compute. reflexivity.
  - rewrite Hsel. vm_compute. reflexivity.
Defined.

(** X19. Setting an input is idempotent: in a store in which no dict is
    an entry of itself, repeating a call that returned, with the same
    arguments, returns again and leaves every object exactly as the first
    call left it. *)
Theorem set_component_input_idempotent st json_data component_id key value
    st' :
  no_self_entry st = true →
  set_component_input st json_data component_id key value = (Ok tt, st') →
  set_component_input st' json_data component_id key value = (Ok tt, st').
Proof.
  intros Hno Hrun.
  destruct (set_component_input_ok _ _ _ _ _ _ Hno Hrun)
    as (pre & node & post & i & t & lf & fields & Hns & Hpre & Hi & Heq
        & Ht & Hc & Hf & Hself & Hlf & ->).
  set (fields2 := dict_set (dict_set fields "value" value)
                    "load_from_db" (Boolean false)).
  set (st' := <[lf := Dict fields2]> st).
  assert (agree st st') as Ha by (by apply agree_after).
  assert (get_path st' node ["data"; "node"; "template"; key] = Ok (Ref lf))
    as Hfield by (by apply (field_after st node key t)).
  unfold set_component_input.
  rewrite (nodes_agree st st' json_data _ node i Ha Hns);
    [|by apply elem_of_app; right; left|done].
  assert (Forall (other_id st' component_id) pre) as Hpre'.
  { eapply Forall_impl; [exact Hpre|].
    intros n (j & Hj & Hne). exists j.
    by rewrite (subscript_agree st st' n "id" Ha eq_refl). }
  rewrite (set_input_in_skips st' pre (node :: post) component_id key value
             Hpre').
  simpl. rewrite (subscript_agree st st' node "id" Ha eq_refl), Hi, Heq.
  unfold set_input.
  rewrite (template_path_agree st st' node Ha), Ht.
  assert (contains st' t key = Ok true) as ->.
  { destruct t as [| | | |lt]; try done. simpl in Hc |- *.
    destruct (decide (lt = lf)) as [->|Hne].
    - exfalso. by apply (Hself fields).
    - unfold st'. by rewrite lookup_insert_ne. }
  assert (st' !! lf = Some (Dict fields2)) as Hlf'
    by apply lookup_insert_eq.
  rewrite Hfield, (setitem_same st' lf fields2 "value" value Hlf').
  - rewrite Hfield.
    rewrite (setitem_same st' lf fields2 "load_from_db" (Boolean false) Hlf');
      [done|].
    unfold fields2. apply dict_get_set_eq.
  - unfold fields2. rewrite dict_get_set_ne by done. apply dict_get_set_eq.
Qed.

Lemma set_component_input_idempotent_witness :
  set_component_input
    (set_component_input shared_flow (Ref 0) "ChatInput-1" "input_value"
       (Str "hello")).2
    (Ref 0) "ChatInput-1" "input_value" (Str "hello")
  = (Ok tt,
     (set_component_input shared_flow (Ref 0) "ChatInput-1" "input_value"
        (Str "hello")).2).
Proof.
  apply (set_component_input_idempotent shared_flow).
  - vm_compute. reflexivity.
  - vm_compute. reflexivity.
Defined.

End FlowStoreFacts.

(** ** The hierarchy after the setup *)

Module Hierarchy.
Import Py Compat Setup Forwarding Registration.

Lemma dom_store_old o o' a v s :
  o' ∈ dom (heap s) → o' ∈ dom (heap (store_attr o a v s)).
Proof.
  intros Ho. unfold store_attr. simpl. rewrite dom_insert_L.
  apply elem_of_union. by right.
Qed.

Lemma dict_store_frame o k v s o' x :
  o' ≠ o ∨ x ≠ k →
  ob_dict (obj (store_attr o k v s) o') !! x = ob_dict (obj s o') !! x.
Proof.
  intros Hframe. destruct (decide (o = o')) as [<-|Hne].
  - rewrite dict_store_eq. destruct Hframe as [?|?]; [done|].
    by rewrite lookup_insert_ne.
  - by rewrite obj_store_ne.
Qed.

Lemma new_node_state name lfx_name w :
  py (new_AiexecCompatibilityModule name lfx_name w).2
  = store_attr (fresh (dom (heap (py w)))) "_lfx_module" VNone
      (store_attr (fresh (dom (heap (py w)))) "_lfx_module_name"
         (VStr lfx_name)
         (store_attr (fresh (dom (heap (py w)))) "__spec__" VNone
            (store_attr (fresh (dom (heap (py w)))) "__loader__" VNone
               (store_attr (fresh (dom (heap (py w)))) "__package__" VNone
                  (store_attr (fresh (dom (heap (py w)))) "__doc__" VNone
                     (store_attr (fresh (dom (heap (py w)))) "__name__"
                        (VStr name)
                        {| heap :=
                             <[fresh (dom (heap (py w))) :=
                                 PyObj AiexecCompatibilityModule ∅]>
                               (heap (py w));
                           sys_modules := sys_modules (py w) |})))))).
Proof. reflexivity. Qed.

Lemma new_node_dom name lfx_name w o :
  o ∈ dom (heap (py w)) ∨ o = fresh (dom (heap (py w))) →
  o ∈ dom (heap (py (new_AiexecCompatibilityModule name lfx_name w).2)).
Proof.
  intros Ho. rewrite new_node_state. repeat apply dom_store_old.
  cbn [heap]. rewrite dom_insert_L. apply elem_of_union.
  destruct Ho as [Ho| ->]; [by right|left; by apply elem_of_singleton].
Qed.

(** What a registration does when the parent is registered. *)
Lemma register_links (host : Host) current_module aiexec_name lfx_name w sp
    st parent :
  sys_modules (py w) !! aiexec_name = None →
  host_find_spec host lfx_name (py w) = (Ok (Some sp), st) →
  sys_modules st !! __name__ = Some current_module →
  (1 < List.length (split aiexec_name "."))%nat →
  sys_modules st !! parent_of aiexec_name = Some parent →
  ∃ w',
    register host current_module aiexec_name lfx_name w = (Ok tt, w')
    ∧ sys_modules (py w')
      = <[aiexec_name := fresh (dom (heap st))]> (sys_modules st)
    ∧ (∀ o, o ∈ dom (heap st) → o ∈ dom (heap (py w')))
    ∧ fresh (dom (heap st)) ∈ dom (heap (py w'))
    ∧ ob_dict (obj (py w') parent) !! attribute_of aiexec_name
      = Some (VObj (fresh (dom (heap st))))
    ∧ (∀ o x,
         o ≠ fresh (dom (heap st)) →
         o ≠ parent ∨ x ≠ attribute_of aiexec_name →
         ob_dict (obj (py w') o) !! x = ob_dict (obj st o) !! x).
Proof.
  intros Hnew Hprobe Hcur Hnested Hparent.
  set (node := fresh (dom (heap st))).
  set (w0 := {| py := st; calls := calls w ++ [CallFindSpec lfx_name] |}).
  destruct (new_AiexecCompatibilityModule_spec aiexec_name lfx_name w0)
    as (w1 & Hnode & Hreg1 & _ & _ & Hothers1).
  pose proof (new_node_dom aiexec_name lfx_name w0) as Hdom1.
  rewrite Hnode in Hdom1.
  simpl in Hnode, Hreg1, Hothers1, Hdom1.
  fold node in Hnode, Hothers1, Hdom1.
  set (w2 := {| py := {| heap := heap (py w1);
                         sys_modules :=
                           <[aiexec_name := node]> (sys_modules (py w1)) |};
                calls := calls w1 |}).
  set (s3 := store_attr parent (attribute_of aiexec_name) (VObj node) (py w2)).
  assert (link_to_parent aiexec_name node w2
          = (Ok tt, {| py := s3; calls := calls w2 |})) as Hlp.
  { assert (sys_modules (py w2) !! parent_of aiexec_name = Some parent)
      as Hp2.
    { unfold w2. simpl. rewrite Hreg1, lookup_insert_ne; [done|].
      intros Heq. by apply (parent_name_differs aiexec_name). }
    destruct (link_to_parent_cases aiexec_name node w2)
      as [(_ & p' & Hp' & ->)|([Hle|Hnone] & _)].
    - unfold parent_of in Hp2. rewrite Hp2 in Hp'. by injection Hp' as <-.
    - lia.
    - unfold parent_of in Hp2. congruence. }
  assert (∃ s4,
            link_top_level current_module aiexec_name node
              {| py := s3; calls := calls w2 |}
            = (Ok tt, {| py := s4; calls := calls w2 |})
            ∧ (s4 = s3
               ∨ s4 = store_attr parent (attribute_of aiexec_name)
                        (VObj node) s3))
    as (s4 & Htop & Hs4).
  { destruct (link_top_level_cases current_module aiexec_name node
                {| py := s3; calls := calls w2 |})
      as [->|(x & -> & Hsplit)]; [exists s3; by split; [|left]|].
    assert (parent_of aiexec_name = __name__ ∧ attribute_of aiexec_name = x)
      as [Hpar Hattr]
      by (unfold parent_of, attribute_of; by rewrite Hsplit).
    rewrite Hpar, Hcur in Hparent. injection Hparent as ->.
    eexists. split; [reflexivity|]. right. by rewrite Hattr. }
  assert (sys_modules s4 = <[aiexec_name := node]> (sys_modules st)
          ∧ (∀ o, o ∈ dom (heap (py w1)) → o ∈ dom (heap s4))
          ∧ ob_dict (obj s4 parent) !! attribute_of aiexec_name
            = Some (VObj node)
          ∧ (∀ o x, o ≠ parent ∨ x ≠ attribute_of aiexec_name →
                    ob_dict (obj s4 o) !! x = ob_dict (obj (py w1) o) !! x))
    as (Hreg4 & Hdom4 & Hbound & Hframe).
  { destruct Hs4 as [-> | ->]; (split; [simpl; by rewrite Hreg1|]).
    - split; [intros o Ho; by apply dom_store_old|].
      split; [unfold s3; rewrite dict_store_eq; apply lookup_insert_eq|].
      intros o x Hox. unfold s3. by rewrite dict_store_frame.
    - split; [intros o Ho; by do 2 apply dom_store_old|].
      split; [rewrite dict_store_eq; apply lookup_insert_eq|].
      intros o x Hox. unfold s3. by rewrite !dict_store_frame. }
  exists {| py := s4; calls := calls w2 |}.
  split; [|split; [exact Hreg4|split; [|split; [|split; [exact Hbound|]]]]].
  - unfold register, sys_modules_contains, find_spec. unfold_M.
    rewrite Hnew, bool_decide_eq_false_2 by (by intros [? ?]).
    cbn [negb]. rewrite Hprobe. fold w0. rewrite Hnode.
    unfold sys_modules_setitem. fold w2. by rewrite Hlp, Htop.
  - intros o Ho. apply Hdom4, Hdom1. by left.
  - apply Hdom4, Hdom1. by right.
  - intros o x Hon Hox. simpl. rewrite Hframe by done.
    by rewrite Hothers1.
Qed.

Lemma known_is_registered current_module known todo s a :
  loop_invariant current_module known todo s →
  a ∈ known → ∃ o, sys_modules s !! a = Some o ∧ o ∈ dom (heap s).
Proof.
  intros (_ & Hcur & Hlive & _ & Hlinked & _) Ha.
  destruct (Hlinked a Ha) as [->|(_ & _ & node & p & Hnode & _)].
  - exists current_module. split; [done|]. by apply (Hlive __name__).
  - exists node. split; [done|]. by apply (Hlive a).
Qed.

(** The invariant survives a host primitive that leaves the modules of the
    table alone. *)
Lemma loop_invariant_untouched current_module names known todo s s' :
  (∀ a, a ∈ known → a ∈ names) →
  (∀ a, a ∈ todo → a ∈ names) →
  untouched names s s' →
  loop_invariant current_module known todo s →
  loop_invariant current_module known todo s'.
Proof.
  intros Hknown Htodo Hsame Hinv.
  pose proof Hinv as (Hname & Hcur & Hlive & Habsent & Hlinked & Hinj).
  assert (∀ a, a ∈ known → sys_modules s' !! a = sys_modules s !! a) as Hreg
    by (intros a Ha; by apply Hsame, Hknown).
  split; [done|]. split; [by rewrite Hreg|].
  split; [|split; [|split]].
  - intros a o Ha Ho. rewrite Hreg in Ho by done.
    destruct (Hsame a (Hknown a Ha)) as [_ Hobj].
    apply (Hobj o Ho). by apply (Hlive a).
  - intros a Ha. destruct (Hsame a (Htodo a Ha)) as [-> _]. by apply Habsent.
  - intros a Ha.
    destruct (Hlinked a Ha) as [->|(Hnested & Hpar & node & p & Hnode & Hp & Hbound)];
      [by left|right].
    split; [done|]. split; [done|]. exists node, p.
    split; [by rewrite Hreg|]. split; [by rewrite Hreg|].
    destruct (Hsame (parent_of a) (Hknown _ Hpar)) as [_ Hobj].
    destruct (Hobj p Hp) as [-> _]. done.
  - intros a b o Ha Hb Hao Hbo. rewrite Hreg in Hao, Hbo by done.
    by apply (Hinj a b o).
Qed.

Lemma nested_name_recomposes a b :
  (1 < List.length (split a "."))%nat →
  (1 < List.length (split b "."))%nat →
  parent_of a = parent_of b →
  attribute_of a = attribute_of b →
  a = b.
Proof.
  intros Ha Hb Hpar Hattr.
  rewrite <- (join_split a "."), <- (join_split b ".").
  rewrite (join_removelast_last "." (split a ".") Ha).
  rewrite (join_removelast_last "." (split b ".") Hb).
  unfold parent_of, attribute_of in Hpar, Hattr. by rewrite Hpar, Hattr.
Qed.

(** One turn of the first loop, for an entry whose parent is known. *)
Lemma loop_invariant_step (host : Host) current_module names known todo
    aiexec_name lfx_name w sp st :
  (∀ a, a ∈ known → a ∈ names) →
  (∀ a, a ∈ aiexec_name :: todo → a ∈ names) →
  aiexec_name ∉ todo →
  (1 < List.length (split aiexec_name "."))%nat →
  parent_of aiexec_name ∈ known →
  host_find_spec host lfx_name (py w) = (Ok (Some sp), st) →
  untouched names (py w) st →
  loop_invariant current_module known (aiexec_name :: todo) (py w) →
  ∃ w',
    register host current_module aiexec_name lfx_name w = (Ok tt, w')
    ∧ loop_invariant current_module (aiexec_name :: known) todo (py w').
Proof.
  intros Hknown Htodo Hfresh_name Hnested Hparent Hprobe Hsame Hinv0.
  assert (sys_modules (py w) !! aiexec_name = None) as Hnew.
  { destruct Hinv0 as (_ & _ & _ & Habsent & _). apply Habsent. by left. }
  pose proof (loop_invariant_untouched current_module names known
                (aiexec_name :: todo) (py w) st Hknown Htodo Hsame Hinv0)
    as Hinv.
  pose proof Hinv as (Hname & Hcur & Hlive & Habsent & Hlinked & Hinj).
  assert (sys_modules st !! aiexec_name = None) as Hnew'
    by (apply Habsent; by left).
  assert (∀ b, b ∈ known → b ≠ aiexec_name) as Hother.
  { intros b Hb ->.
    destruct (known_is_registered _ _ _ _ _ Hinv Hb) as (o & Ho & _).
    congruence. }
  destruct (known_is_registered _ _ _ _ _ Hinv Hparent) as (p & Hp & Hpdom).
  destruct (register_links host current_module aiexec_name lfx_name w sp st p
              Hnew Hprobe Hcur Hnested Hp)
    as (w' & Hrun & Hreg & Hdom & Hnodedom & Hbound & Hframe).
  set (node := fresh (dom (heap st))) in *.
  assert (∀ o, o ∈ dom (heap st) → o ≠ node) as Hnotnode.
  { intros o Ho ->. by apply (is_fresh (dom (heap st))). }
  assert (∀ b, b ≠ aiexec_name →
               sys_modules (py w') !! b = sys_modules st !! b) as Hold
    by (intros b Hb; by rewrite Hreg, lookup_insert_ne).
  assert (sys_modules (py w') !! aiexec_name = Some node) as Hmine
    by (rewrite Hreg; apply lookup_insert_eq).
  exists w'. split; [exact Hrun|].
  split; [by right|]. split; [by rewrite Hold by (by apply Hother)|].
  split; [|split; [|split]].
  - intros b o Hb Ho. destruct (decide (b = aiexec_name)) as [->|Hne].
    + rewrite Hmine in Ho. by injection Ho as <-.
    + rewrite Hold in Ho by done. apply Hdom.
      apply elem_of_cons in Hb as [?|Hb]; [done|]. by apply (Hlive b).
  - intros b Hb. rewrite Hold by (intros ->; done).
    apply Habsent. by right.
  - intros b Hb. destruct (decide (b = aiexec_name)) as [->|Hne].
    + right. split; [done|]. split; [by right|].
      exists node, p. split; [done|]. split; [|done].
      rewrite Hold by (by apply Hother). done.
    + apply elem_of_cons in Hb as [?|Hb]; [done|].
      destruct (Hlinked b Hb)
        as [->|(Hbnested & Hbpar & nodeb & pb & Hnodeb & Hpb & Hbbound)];
        [by left|right].
      split; [done|]. split; [by right|]. exists nodeb, pb.
      split; [by rewrite Hold|].
      split; [by rewrite Hold by (by apply Hother)|].
      rewrite Hframe; [done| |].
      * apply Hnotnode. by apply (Hlive (parent_of b)).
      * destruct (decide (pb = p)) as [->|?]; [|by left].
        destruct (decide (attribute_of b = attribute_of aiexec_name))
          as [Hattr|?]; [|by right].
        exfalso. apply Hne. apply nested_name_recomposes; try done.
        by apply (Hinj (parent_of b) (parent_of aiexec_name) p).
  - intros a b o Ha Hb Hao Hbo.
    destruct (decide (a = aiexec_name)) as [->|Hane],
             (decide (b = aiexec_name)) as [->|Hbne]; [done| | |].
    + rewrite Hmine in Hao. injection Hao as <-.
      rewrite Hold in Hbo by done.
      apply elem_of_cons in Hb as [?|Hb]; [done|].
      by destruct (Hnotnode node (Hlive b node Hb Hbo)).
    + rewrite Hmine in Hbo. injection Hbo as <-.
      rewrite Hold in Hao by done.
      apply elem_of_cons in Ha as [?|Ha]; [done|].
      by destruct (Hnotnode node (Hlive a node Ha Hao)).
    + rewrite Hold in Hao, Hbo by done.
      apply elem_of_cons in Ha as [?|Ha]; [done|].
      apply elem_of_cons in Hb as [?|Hb]; [done|].
      by apply (Hinj a b o).
Qed.

(** The first loop over a list of entries that names parents first. *)
Lemma first_loop_links (host : Host) current_module names :
  (∀ n s, ∃ sp s',
     host_find_spec host n s = (Ok (Some sp), s') ∧ untouched names s s') →
  ∀ entries known w,
    (∀ a, a ∈ known → a ∈ names) →
    (∀ a, a ∈ entries.*1 → a ∈ names) →
    NoDup entries.*1 →
    parents_first known entries.*1 = true →
    loop_invariant current_module known entries.*1 (py w) →
    ∃ w' known',
      for_each entries
        (λ '(aiexec_name, lfx_name),
           register host current_module aiexec_name lfx_name) w
      = (Ok tt, w')
      ∧ loop_invariant current_module known' [] (py w')
      ∧ (∀ a, a ∈ entries.*1 ∨ a ∈ known → a ∈ known').
Proof.
  intros Hhost entries.
  induction entries as [|[a l] rest IH];
    intros known w Hknown Hentries Hnodup Hparents Hinv.
  - exists w, known. split; [done|]. split; [done|].
    intros a [Ha|Ha]; [by apply elem_of_nil in Ha|done].
  - simpl in Hentries, Hnodup, Hparents, Hinv.
    apply NoDup_cons in Hnodup as [Hfresh Hnodup].
    apply andb_prop in Hparents as [Hparents Hrest].
    apply andb_prop in Hparents as [Hnested Hpar].
    apply Nat.ltb_lt in Hnested.
    apply existsb_exists in Hpar as (q & Hq & Heq).
    apply String.eqb_eq in Heq as <-. apply list_elem_of_In in Hq.
    destruct (Hhost l (py w)) as (sp & st & Hprobe & Hsame).
    destruct (loop_invariant_step host current_module names known rest.*1
                a l w sp st Hknown Hentries Hfresh Hnested Hq Hprobe Hsame
                Hinv) as (w1 & Hrun & Hinv1).
    destruct (IH (a :: known) w1) as (w' & known' & Hloop & Hinv' & Hall);
      try done.
    + intros b Hb. apply elem_of_cons in Hb as [->|Hb];
        [apply Hentries; by left|by apply Hknown].
    + intros b Hb. apply Hentries. by right.
    + exists w', known'. split; [|split; [done|]].
      * simpl. unfold_M. by rewrite Hrun.
      * intros b [Hb|Hb]; apply Hall.
        -- apply elem_of_cons in Hb as [->|Hb]; [right; by left|by left].
        -- right. by right.
Qed.

Lemma for_each_keeps_state {A} (xs : list A) (body : A → M unit) w :
  (∀ x w0, ∃ w1, body x w0 = (Ok tt, w1) ∧ py w1 = py w0) →
  ∃ w', for_each xs body w = (Ok tt, w') ∧ py w' = py w.
Proof.
  intros Hbody. revert w. induction xs as [|x rest IH]; intros w.
  - by exists w.
  - destruct (Hbody x w) as (w1 & Hx & Hpy1).
    destruct (IH w1) as (w' & Hrest & Hpy').
    exists w'. split; [|congruence].
    simpl. unfold_M. by rewrite Hx.
Qed.

(** An override whose file does not exist leaves the interpreter state as
    it is. *)
Lemma override_without_file (host : Host) (file : path) aiexec_name w :
  (∀ p s, host_exists host p s = false) →
  ∃ w',
    register_physical_override host file aiexec_name w = (Ok tt, w')
    ∧ py w' = py w.
Proof.
  intros Hnofile. unfold register_physical_override, sys_modules_contains.
  unfold_M.
  destruct (bool_decide (is_Some (sys_modules (py w) !! aiexec_name)));
    [by exists w|]. cbn [negb].
  repeat match goal with
  | |- context [String.eqb aiexec_name ?n] =>
      destruct (String.eqb aiexec_name n);
        [rewrite load_file_missing by apply Hnofile; by eexists|]
  end.
  by exists w.
Qed.

Lemma table_names_distinct : NoDup module_mappings.*1.
Proof. apply (bool_decide_unpack _). vm_compute. exact I. Qed.

Lemma table_names_parents_first :
  parents_first [__name__] module_mappings.*1 = true.
Proof. vm_compute. reflexivity. Qed.

(** X15. The table lists every parent before its children.  Suppose the
    probe locates every canonical module and leaves the [aiexec] modules
    alone, no override file exists, the package module is registered on a
    live object and none of the table's names is registered yet.  Then the
    setup returns normally and, afterwards, every shadow name of
    [module_mappings] is registered and linked: its parent is registered
    and has the last segment of the name bound to the shadow module, so
    that the whole hierarchy can be walked by attribute access from the
    package. *)
Theorem setup_links_every_module (host : Host) (file : path) current_module
    w :
  sys_modules (py w) !! __name__ = Some current_module →
  current_module ∈ dom (heap (py w)) →
  (∀ a, a ∈ module_mappings.*1 → sys_modules (py w) !! a = None) →
  (∀ n s, ∃ sp s',
     host_find_spec host n s = (Ok (Some sp), s')
     ∧ untouched (__name__ :: module_mappings.*1) s s') →
  (∀ p s, host_exists host p s = false) →
  ∃ w',
    _setup_compatibility_modules host file w = (Ok tt, w')
    ∧ ∀ a, a ∈ module_mappings.*1 → linked (py w') a.
Proof.
  intros Hcur Hlive Hnew Hhost Hnofile.
  destruct (first_loop_links host current_module
              (__name__ :: module_mappings.*1) Hhost module_mappings
              [__name__] w)
    as (w1 & known & Hloop & Hinv & Hall).
  - intros a Ha. apply list_elem_of_singleton in Ha as ->. by left.
  - intros a Ha. by right.
  - apply table_names_distinct.
  - apply table_names_parents_first.
  - split; [by left|]. split; [done|]. split; [|split; [done|split]].
    + intros a o Ha Ho. apply list_elem_of_singleton in Ha as ->.
      rewrite Hcur in Ho. by injection Ho as <-.
    + intros a Ha. left. by apply list_elem_of_singleton in Ha.
    + intros a b o Ha Hb _ _.
      apply list_elem_of_singleton in Ha as ->.
      by apply list_elem_of_singleton in Hb as ->.
  - destruct (for_each_keeps_state aiexec_only_modules
                (λ '(aiexec_name, _),
                   register_physical_override host file aiexec_name) w1)
      as (w' & Hsecond & Hpy).
    { intros [a l] w0. by apply override_without_file. }
    exists w'. split.
    + unfold _setup_compatibility_modules, sys_modules_getitem. unfold_M.
      by rewrite Hcur, Hloop, Hsecond.
    + intros a Ha. rewrite Hpy.
      destruct Hinv as (_ & Hcur1 & _ & _ & Hlinked & _).
      destruct (Hlinked a (Hall a (or_introl Ha)))
        as [->|(_ & _ & Hlink)]; [|done].
      rewrite (Hnew __name__ Ha) in Hcur. discriminate.
Qed.

Lemma untouched_refl names s : untouched names s s.
Proof. intros a _. split; [done|]. by intros o _. Qed.

Lemma package_is_not_in_the_table : __name__ ∉ module_mappings.*1.
Proof. apply (bool_decide_unpack _). vm_compute. exact I. Qed.

Lemma setup_links_every_module_witness :
  ∃ w',
    _setup_compatibility_modules Demo.host4 Demo.pkg_file Demo.initial
    = (Ok tt, w')
    ∧ ∀ a, a ∈ module_mappings.*1 → linked (py w') a.
Proof.
  apply (setup_links_every_module Demo.host4 Demo.pkg_file 0 Demo.initial).
  - reflexivity.
  - unfold Demo.initial. simpl.
    apply elem_of_dom. rewrite lookup_singleton_eq. by eexists.
  - intros a Ha. unfold Demo.initial. simpl.
    apply lookup_singleton_ne. intros <-.
    by apply package_is_not_in_the_table.
  - intros n s. exists (Demo.demo_spec n), s.
    split; [reflexivity|apply untouched_refl].
  - reflexivity.
Defined.

(** On that host the hierarchy can be walked from the package module by
    attribute reads alone, without a call to the host. *)
Example walking_the_hierarchy :
  (getattr Demo.host4 0 (VObj 0) "components"
     (_setup_compatibility_modules Demo.host4 Demo.pkg_file Demo.initial).2).1
  = Ok (VObj 10)
  ∧ (getattr Demo.host4 0 (VObj 10) "helpers"
       (_setup_compatibility_modules Demo.host4 Demo.pkg_file Demo.initial).2).1
    = Ok (VObj 11)
  ∧ (getattr Demo.host4 0 (VObj 11) "memory"
       (_setup_compatibility_modules Demo.host4 Demo.pkg_file Demo.initial).2).1
    = Ok (VObj 16)
  ∧ sys_modules
      (py (_setup_compatibility_modules Demo.host4 Demo.pkg_file
             Demo.initial).2) !! "aiexec.components.helpers.memory"
    = Some 16.
Proof. repeat split; vm_compute; reflexivity. Qed.




End Hierarchy.
